(** * The Dreamcast CD-ROM driver (KallistiOS [cdrom.c]) as a shallow embedding

    The driver is a C file of static variables and functions that talk to
    the GD-ROM firmware through system calls, to the kernel (mutex,
    semaphores, thread yield, clock) and to two interrupt handlers.

    - The static variables are the record [globals].
    - The firmware and the kernel are a mock, [firmware]: the answer of
      the [n]-th call of each system call, the reading of the [n]-th look
      at the clock, the [n]-th interrupt delivered.  The [cursor] of a
      [world] counts the calls made so far.
    - Every call that leaves the driver is written to the [trace], in
      the order the code makes them.
    - A C function is a function [world -> outcome A]; [do { } while(1)]
      is [do_while], which takes fuel: a firmware that never answers
      makes the C loop spin for ever, and the model runs out of fuel.
    - A thread that blocks on a semaphore is woken by an interrupt
      handler: while it blocks, the mock delivers interrupts and the
      handler of each one runs ([sem_wait]).
    - The mutex is recorded, not interpreted: [mutex_lock] and
      [mutex_unlock] are events of the trace and always return.  Whether
      a lock blocks depends on the other threads and on the kind of
      mutex [MUTEX_INITIALIZER] makes, and neither is in the sources at
      hand.  The reading the driver itself relies on, a plain mutex that
      does not let its holder in a second time, is applied to a recorded
      trace by [relock] and to a call by [with_plain_mutex].

    Constants, macros and types of the headers ([dc/cdrom.h],
    [dc/syscalls.h], [arch/memory.h]) are not part of the sources at
    hand: they are the fields of the class [Header]. *)

From Stdlib Require Import ZArith List Bool Lia.
Import ListNotations.
Local Open Scope Z_scope.

(** ** Header constants *)

(** What the driver takes from its headers: the responses of
    [syscall_gdrom_check_command], the command codes, the read modes, the
    memory-area masks and the accessors of a TOC word. *)
Class Header : Set := {
  NO_ACTIVE : Z;
  PROCESSING : Z;
  COMPLETED : Z;
  STREAMING : Z;
  BUSY : Z;
  CMD_PIOREAD : Z;
  CMD_DMAREAD : Z;
  CMD_DMAREAD_STREAM : Z;
  CMD_PIOREAD_STREAM : Z;
  CMD_MAX : Z;
  CDROM_READ_PIO : Z;
  CDROM_READ_DMA : Z;
  CDROM_READ_PIO_IRQ : Z;
  CDROM_READ_DMA_IRQ : Z;
  MEM_AREA_CACHE_MASK : Z;
  MEM_AREA_P2_BASE : Z;
  TOC_LBA : Z -> Z;
  TOC_CTRL : Z -> Z;
  TOC_TRACK : Z -> Z
}.

(** The result codes [ERR_*] the driver hands to its callers. *)
Inductive err : Set :=
| ERR_OK
| ERR_NO_DISC
| ERR_DISC_CHG
| ERR_SYS
| ERR_ABORTED
| ERR_NO_ACTIVE
| ERR_TIMEOUT.

Definition err_eqb (a b : err) : bool :=
  match a, b with
  | ERR_OK, ERR_OK | ERR_NO_DISC, ERR_NO_DISC | ERR_DISC_CHG, ERR_DISC_CHG
  | ERR_SYS, ERR_SYS | ERR_ABORTED, ERR_ABORTED
  | ERR_NO_ACTIVE, ERR_NO_ACTIVE | ERR_TIMEOUT, ERR_TIMEOUT => true
  | _, _ => false
  end.

(** ** The outside world *)

(** The two interrupts the driver hooks: the vertical blank
    ([cdrom_vblank]) and the G1 DMA events ([g1_dma_irq_hnd]). *)
Inductive irq : Set := IrqVblank | IrqG1Dma.

(** A call that leaves the driver. *)
Inductive event : Set :=
| EvSendCommand (cmd : Z) (param : list Z)
| EvExecServer
| EvCheckCommand (hnd : Z)
| EvAbortCommand (hnd : Z)
| EvGdromReset
| EvGdromInit
| EvDmaTransfer (hnd addr size : Z)
| EvPioTransfer (hnd addr size : Z)
| EvDmaCheck (hnd : Z)
| EvPioCheck (hnd : Z)
| EvPioCallback (cb param : Z)
| EvDmaCallback (cb param : Z)
| EvGetTime
| EvThdPass
| EvThdSchedule
| EvMutexLock
| EvMutexUnlock
| EvMutexUnlockAsThread (thd : Z)
| EvDcacheInval (addr size : Z)
| EvDbglog
| EvStreamCb (cb param : Z)
| EvOldDmaIrq (hdl data : Z).

(** The firmware and kernel mock.  The answer of a system call depends
    on how many times it has been called and on its arguments. *)
Record firmware : Type := mkFirmware {
  gdrom_send_command : nat -> Z -> Z;
  gdrom_check_command : nat -> Z -> Z * list Z;
  gdrom_dma_transfer : nat -> Z;
  gdrom_pio_transfer : nat -> Z;
  gdrom_dma_check : nat -> Z * Z;
  gdrom_pio_check : nat -> Z * Z;
  timer_ms : nat -> Z;
  irq_line : nat -> irq;
  thd_current : Z;
  irq_inside_int : bool
}.

(** How many times each system call has been made. *)
Record cursor : Set := mkCursor {
  n_send : nat;
  n_check : nat;
  n_dma_transfer : nat;
  n_pio_transfer : nat;
  n_dma_check : nat;
  n_pio_check : nat;
  n_time : nat;
  n_irq : nat
}.

(** ** The driver's static variables *)

Record globals : Set := mkGlobals {
  cmd_hnd : Z;
  cmd_done : Z;
  cmd_in_progress : bool;
  cmd_response : Z;
  cmd_status : list Z;
  stream_mode : Z;
  stream_cb : Z;
  stream_cb_param : Z;
  dma_in_progress : bool;
  dma_blocking : bool;
  dma_thd : Z;
  dma_done : Z;
  old_dma_irq_hdl : Z;
  old_dma_irq_data : Z;
  cur_sector_size : Z
}.

Record world : Set := mkWorld {
  vars :> globals;
  pos :> cursor;
  trace : list event
}.

(** The variables as the file initialises them; [response0] stands for
    the header's [NO_ACTIVE]. *)
Definition initial_globals (response0 : Z) : globals :=
  mkGlobals 0 0 false response0 [0; 0; 0; 0] (-1) 0 0 false false 0 0 0 0 2048.

Definition cursor0 : cursor := mkCursor 0 0 0 0 0 0 0 0.

(** *** Assignments *)

Definition with_vars (f : globals -> globals) (w : world) : world :=
  mkWorld (f (vars w)) (pos w) (trace w).

Definition with_pos (f : cursor -> cursor) (w : world) : world :=
  mkWorld (vars w) (f (pos w)) (trace w).

Definition add_event (e : event) (w : world) : world :=
  mkWorld (vars w) (pos w) (trace w ++ [e]).

Definition set_cmd_hnd (v : Z) (s : globals) : globals :=
  mkGlobals v (cmd_done s) (cmd_in_progress s) (cmd_response s) (cmd_status s)
    (stream_mode s) (stream_cb s) (stream_cb_param s) (dma_in_progress s)
    (dma_blocking s) (dma_thd s) (dma_done s) (old_dma_irq_hdl s)
    (old_dma_irq_data s) (cur_sector_size s).

Definition set_cmd_done (v : Z) (s : globals) : globals :=
  mkGlobals (cmd_hnd s) v (cmd_in_progress s) (cmd_response s) (cmd_status s)
    (stream_mode s) (stream_cb s) (stream_cb_param s) (dma_in_progress s)
    (dma_blocking s) (dma_thd s) (dma_done s) (old_dma_irq_hdl s)
    (old_dma_irq_data s) (cur_sector_size s).

Definition set_cmd_in_progress (v : bool) (s : globals) : globals :=
  mkGlobals (cmd_hnd s) (cmd_done s) v (cmd_response s) (cmd_status s)
    (stream_mode s) (stream_cb s) (stream_cb_param s) (dma_in_progress s)
    (dma_blocking s) (dma_thd s) (dma_done s) (old_dma_irq_hdl s)
    (old_dma_irq_data s) (cur_sector_size s).

Definition set_cmd_response (v : Z) (s : globals) : globals :=
  mkGlobals (cmd_hnd s) (cmd_done s) (cmd_in_progress s) v (cmd_status s)
    (stream_mode s) (stream_cb s) (stream_cb_param s) (dma_in_progress s)
    (dma_blocking s) (dma_thd s) (dma_done s) (old_dma_irq_hdl s)
    (old_dma_irq_data s) (cur_sector_size s).

Definition set_cmd_status (v : list Z) (s : globals) : globals :=
  mkGlobals (cmd_hnd s) (cmd_done s) (cmd_in_progress s) (cmd_response s) v
    (stream_mode s) (stream_cb s) (stream_cb_param s) (dma_in_progress s)
    (dma_blocking s) (dma_thd s) (dma_done s) (old_dma_irq_hdl s)
    (old_dma_irq_data s) (cur_sector_size s).

Definition set_stream_mode (v : Z) (s : globals) : globals :=
  mkGlobals (cmd_hnd s) (cmd_done s) (cmd_in_progress s) (cmd_response s)
    (cmd_status s) v (stream_cb s) (stream_cb_param s) (dma_in_progress s)
    (dma_blocking s) (dma_thd s) (dma_done s) (old_dma_irq_hdl s)
    (old_dma_irq_data s) (cur_sector_size s).

Definition set_stream_cb (cb param : Z) (s : globals) : globals :=
  mkGlobals (cmd_hnd s) (cmd_done s) (cmd_in_progress s) (cmd_response s)
    (cmd_status s) (stream_mode s) cb param (dma_in_progress s)
    (dma_blocking s) (dma_thd s) (dma_done s) (old_dma_irq_hdl s)
    (old_dma_irq_data s) (cur_sector_size s).

Definition set_dma_in_progress (v : bool) (s : globals) : globals :=
  mkGlobals (cmd_hnd s) (cmd_done s) (cmd_in_progress s) (cmd_response s)
    (cmd_status s) (stream_mode s) (stream_cb s) (stream_cb_param s) v
    (dma_blocking s) (dma_thd s) (dma_done s) (old_dma_irq_hdl s)
    (old_dma_irq_data s) (cur_sector_size s).

Definition set_dma_blocking (v : bool) (s : globals) : globals :=
  mkGlobals (cmd_hnd s) (cmd_done s) (cmd_in_progress s) (cmd_response s)
    (cmd_status s) (stream_mode s) (stream_cb s) (stream_cb_param s)
    (dma_in_progress s) v (dma_thd s) (dma_done s) (old_dma_irq_hdl s)
    (old_dma_irq_data s) (cur_sector_size s).

Definition set_dma_thd (v : Z) (s : globals) : globals :=
  mkGlobals (cmd_hnd s) (cmd_done s) (cmd_in_progress s) (cmd_response s)
    (cmd_status s) (stream_mode s) (stream_cb s) (stream_cb_param s)
    (dma_in_progress s) (dma_blocking s) v (dma_done s) (old_dma_irq_hdl s)
    (old_dma_irq_data s) (cur_sector_size s).

Definition set_dma_done (v : Z) (s : globals) : globals :=
  mkGlobals (cmd_hnd s) (cmd_done s) (cmd_in_progress s) (cmd_response s)
    (cmd_status s) (stream_mode s) (stream_cb s) (stream_cb_param s)
    (dma_in_progress s) (dma_blocking s) (dma_thd s) v (old_dma_irq_hdl s)
    (old_dma_irq_data s) (cur_sector_size s).

Definition bump_send (c : cursor) : cursor :=
  mkCursor (S (n_send c)) (n_check c) (n_dma_transfer c) (n_pio_transfer c)
    (n_dma_check c) (n_pio_check c) (n_time c) (n_irq c).

Definition bump_check (c : cursor) : cursor :=
  mkCursor (n_send c) (S (n_check c)) (n_dma_transfer c) (n_pio_transfer c)
    (n_dma_check c) (n_pio_check c) (n_time c) (n_irq c).

Definition bump_dma_transfer (c : cursor) : cursor :=
  mkCursor (n_send c) (n_check c) (S (n_dma_transfer c)) (n_pio_transfer c)
    (n_dma_check c) (n_pio_check c) (n_time c) (n_irq c).

Definition bump_pio_transfer (c : cursor) : cursor :=
  mkCursor (n_send c) (n_check c) (n_dma_transfer c) (S (n_pio_transfer c))
    (n_dma_check c) (n_pio_check c) (n_time c) (n_irq c).

Definition bump_dma_check (c : cursor) : cursor :=
  mkCursor (n_send c) (n_check c) (n_dma_transfer c) (n_pio_transfer c)
    (S (n_dma_check c)) (n_pio_check c) (n_time c) (n_irq c).

Definition bump_pio_check (c : cursor) : cursor :=
  mkCursor (n_send c) (n_check c) (n_dma_transfer c) (n_pio_transfer c)
    (n_dma_check c) (S (n_pio_check c)) (n_time c) (n_irq c).

Definition bump_time (c : cursor) : cursor :=
  mkCursor (n_send c) (n_check c) (n_dma_transfer c) (n_pio_transfer c)
    (n_dma_check c) (n_pio_check c) (S (n_time c)) (n_irq c).

Definition bump_irq (c : cursor) : cursor :=
  mkCursor (n_send c) (n_check c) (n_dma_transfer c) (n_pio_transfer c)
    (n_dma_check c) (n_pio_check c) (n_time c) (S (n_irq c)).

(** ** Machine integers *)

Definition u32 (x : Z) : Z := x mod 2 ^ 32.
Definition u64 (x : Z) : Z := x mod 2 ^ 64.

(** Conversion to [int32_t]: the value modulo 2^32, read as signed. *)
Definition int32 (x : Z) : Z :=
  let r := x mod 2 ^ 32 in if r <? 2 ^ 31 then r else r - 2 ^ 32.

(** ** Results of a run *)

(** A run of a C function ends, fails the [assert] of [cdrom_req_cmd],
    or exhausts the fuel of a loop. *)
Inductive outcome (A : Type) : Type :=
| Done (a : A) (w : world)
| AssertFailed
| OutOfFuel.

Arguments Done {A} a w.
Arguments AssertFailed {A}.
Arguments OutOfFuel {A}.

Definition M (A : Type) : Type := world -> outcome A.

Definition ret {A : Type} (a : A) : M A := fun w => Done a w.

Definition bind {A B : Type} (c : M A) (k : A -> M B) : M B :=
  fun w =>
    match c w with
    | Done a w' => k a w'
    | AssertFailed => AssertFailed
    | OutOfFuel => OutOfFuel
    end.

Declare Scope drv_scope.
Delimit Scope drv_scope with drv.
Notation "x <- c ;; k" := (bind c (fun x => k))
  (at level 61, c at next level, right associativity) : drv_scope.
Notation "c ;; k" := (bind c (fun _ => k))
  (at level 61, right associativity) : drv_scope.
Local Open Scope drv_scope.

Definition emit (e : event) : M unit := fun w => Done tt (add_event e w).
Definition assign (f : globals -> globals) : M unit :=
  fun w => Done tt (with_vars f w).
Definition read {A : Type} (f : globals -> A) : M A :=
  fun w => Done (f (vars w)) w.
Definition assert (b : bool) : M unit :=
  fun w => if b then Done tt w else AssertFailed.

(** How a loop body ends: next iteration, [break], or [return a]. *)
Inductive flow (B A : Type) : Type :=
| Continue
| Break (b : B)
| Return (a : A).

Arguments Continue {B A}.
Arguments Break {B A} b.
Arguments Return {B A} a.

(** [do { body } while(1)]: [inl b] when the loop is left by [break],
    [inr a] when the body returned from the function. *)
Fixpoint do_while {B A : Type} (fuel : nat) (body : M (flow B A)) : M (B + A) :=
  fun w =>
    match fuel with
    | O => OutOfFuel
    | S fuel' =>
        match body w with
        | Done Continue w' => do_while fuel' body w'
        | Done (Break b) w' => Done (inl b) w'
        | Done (Return a) w' => Done (inr a) w'
        | AssertFailed => AssertFailed
        | OutOfFuel => OutOfFuel
        end
    end.

(** [mutex_lock_scoped]: the mutex is released on every way out of the
    scope. *)
Definition mutex_lock_scoped {A : Type} (body : M A) : M A :=
  emit EvMutexLock ;; r <- body ;; emit EvMutexUnlock ;; ret r.

(** ** The driver *)

Section Driver.

Context {hdr : Header}.
Variable fw : firmware.

(** *** System calls and kernel services *)

Definition syscall_gdrom_send_command (cmd : Z) (param : list Z) : M Z :=
  fun w =>
    Done (gdrom_send_command fw (n_send w) cmd)
         (with_pos bump_send (add_event (EvSendCommand cmd param) w)).

Definition syscall_gdrom_exec_server : M unit := emit EvExecServer.

(** [syscall_gdrom_check_command(hnd, cmd_status)]: every call of the
    driver passes [cmd_status], which the firmware fills in. *)
Definition syscall_gdrom_check_command (hnd : Z) : M Z :=
  fun w =>
    let a := gdrom_check_command fw (n_check w) hnd in
    Done (fst a)
         (with_vars (set_cmd_status (snd a))
            (with_pos bump_check (add_event (EvCheckCommand hnd) w))).

Definition syscall_gdrom_abort_command (hnd : Z) : M unit :=
  emit (EvAbortCommand hnd).
Definition syscall_gdrom_reset : M unit := emit EvGdromReset.
Definition syscall_gdrom_init : M unit := emit EvGdromInit.

Definition syscall_gdrom_dma_transfer (hnd addr size : Z) : M Z :=
  fun w =>
    Done (gdrom_dma_transfer fw (n_dma_transfer w))
         (with_pos bump_dma_transfer (add_event (EvDmaTransfer hnd addr size) w)).

Definition syscall_gdrom_pio_transfer (hnd addr size : Z) : M Z :=
  fun w =>
    Done (gdrom_pio_transfer fw (n_pio_transfer w))
         (with_pos bump_pio_transfer (add_event (EvPioTransfer hnd addr size) w)).

(** The two check calls return their result and write the remaining
    size through their second argument. *)
Definition syscall_gdrom_dma_check (hnd : Z) : M (Z * Z) :=
  fun w =>
    Done (gdrom_dma_check fw (n_dma_check w))
         (with_pos bump_dma_check (add_event (EvDmaCheck hnd) w)).

Definition syscall_gdrom_pio_check (hnd : Z) : M (Z * Z) :=
  fun w =>
    Done (gdrom_pio_check fw (n_pio_check w))
         (with_pos bump_pio_check (add_event (EvPioCheck hnd) w)).

Definition syscall_gdrom_pio_callback (cb param : Z) : M unit :=
  emit (EvPioCallback cb param).
Definition syscall_gdrom_dma_callback (cb param : Z) : M unit :=
  emit (EvDmaCallback cb param).

Definition timer_ms_gettime64 : M Z :=
  fun w =>
    Done (u64 (timer_ms fw (n_time w)))
         (with_pos bump_time (add_event EvGetTime w)).

Definition thd_pass : M unit := emit EvThdPass.
Definition thd_schedule : M unit := emit EvThdSchedule.
Definition mutex_lock : M unit := emit EvMutexLock.
Definition mutex_unlock : M unit := emit EvMutexUnlock.
Definition mutex_unlock_as_thread (thd : Z) : M unit :=
  emit (EvMutexUnlockAsThread thd).
Definition dcache_inval_range (addr size : Z) : M unit :=
  emit (EvDcacheInval addr size).
Definition dbglog : M unit := emit EvDbglog.

Definition sem_signal (count : globals -> Z) (set : Z -> globals -> globals)
  : M unit :=
  c <- read count ;; assign (set (c + 1)).

(** *** [cdrom_stream_set_callback] *)

Definition cdrom_stream_set_callback (callback param : Z) : M unit :=
  assign (set_stream_cb callback param) ;;
  mode <- read stream_mode ;;
  if (mode =? CDROM_READ_PIO) || (mode =? CDROM_READ_PIO_IRQ) then
    cb <- read stream_cb ;;
    p <- read stream_cb_param ;;
    syscall_gdrom_pio_callback cb p
  else ret tt.

(** *** [cdrom_abort_cmd] *)

(** One turn of the loop that waits for the aborted command; [break]
    carries the value of [rv]. *)
Definition abort_wait_body (timeout begin : Z) : M (flow err err) :=
  syscall_gdrom_exec_server ;;
  h <- read cmd_hnd ;;
  r <- syscall_gdrom_check_command h ;;
  assign (set_cmd_response r) ;;
  if (r =? NO_ACTIVE) || (r =? COMPLETED) then ret (Break ERR_OK)
  else if negb (timeout =? 0) then
    now <- timer_ms_gettime64 ;;
    if u64 (now - begin) >=? timeout then
      dbglog ;;
      syscall_gdrom_reset ;;
      syscall_gdrom_init ;;
      ret (Break ERR_TIMEOUT)
    else thd_pass ;; ret Continue
  else thd_pass ;; ret Continue.

Definition cdrom_abort_cmd (fuel : nat) (timeout : Z) (abort_dma : bool)
  : M err :=
  let timeout := u32 timeout in
  h <- read cmd_hnd ;;
  if h <=? 0 then ret ERR_NO_ACTIVE
  else
    dip <- read dma_in_progress ;;
    blk <- read dma_blocking ;;
    early <- (if abort_dma && dip then
                if blk then
                  syscall_gdrom_abort_command h ;; ret (Some ERR_OK)
                else
                  assign (set_dma_in_progress false) ;;
                  assign (set_cmd_in_progress false) ;;
                  assign (set_dma_thd 0) ;;
                  ret None
              else mutex_lock ;; ret None) ;;
    match early with
    | Some rv => ret rv
    | None =>
        syscall_gdrom_abort_command h ;;
        begin <- (if negb (timeout =? 0) then timer_ms_gettime64 else ret 0) ;;
        x <- do_while fuel (abort_wait_body timeout begin) ;;
        let rv := match x with inl rv => rv | inr rv => rv end in
        assign (set_cmd_hnd 0) ;;
        assign (set_stream_mode (-1)) ;;
        cb <- read stream_cb ;;
        (if negb (cb =? 0) then cdrom_stream_set_callback 0 0 else ret tt) ;;
        mutex_unlock ;;
        ret rv
    end.

(** *** [cdrom_req_cmd] and [cdrom_poll_cmd] *)

(** The [for] loop of [cdrom_req_cmd], [left] attempts to go. *)
Fixpoint cdrom_req_cmd_loop (left : nat) (cmd : Z) (param : list Z) (hnd : Z)
  : M Z :=
  match left with
  | O => ret hnd
  | S left' =>
      hnd <- syscall_gdrom_send_command cmd param ;;
      if negb (hnd =? 0) then ret hnd
      else
        syscall_gdrom_exec_server ;;
        thd_pass ;;
        cdrom_req_cmd_loop left' cmd param hnd
  end.

Definition cdrom_req_cmd (cmd : Z) (param : list Z) : M Z :=
  assert ((0 <? cmd) && (cmd <? CMD_MAX)) ;;
  cdrom_req_cmd_loop 10 cmd param 0.

Definition poll_body (fuel : nat) (hnd timeout begin : Z) : M (flow unit err) :=
  syscall_gdrom_exec_server ;;
  r <- syscall_gdrom_check_command hnd ;;
  assign (set_cmd_response r) ;;
  if negb (r =? PROCESSING) && negb (r =? BUSY) then ret (Break tt)
  else if negb (timeout =? 0) then
    now <- timer_ms_gettime64 ;;
    if u64 (now - begin) >=? u32 timeout then
      cdrom_abort_cmd fuel 500 false ;;
      dbglog ;;
      ret (Return ERR_TIMEOUT)
    else thd_pass ;; ret Continue
  else thd_pass ;; ret Continue.

Definition cdrom_poll_cmd (fuel : nat) (hnd timeout : Z) : M err :=
  begin <- (if negb (timeout =? 0) then timer_ms_gettime64 else ret 0) ;;
  x <- do_while fuel (poll_body fuel hnd timeout begin) ;;
  match x with
  | inl _ => ret ERR_OK
  | inr rv => ret rv
  end.

(** *** The interrupt handlers *)

Definition cdrom_vblank : M unit :=
  cip <- read cmd_in_progress ;;
  if negb cip then ret tt
  else
    syscall_gdrom_exec_server ;;
    h <- read cmd_hnd ;;
    r <- syscall_gdrom_check_command h ;;
    assign (set_cmd_response r) ;;
    if negb (r =? PROCESSING) && negb (r =? BUSY) then
      assign (set_cmd_in_progress false) ;;
      dip <- read dma_in_progress ;;
      (if dip then
         assign (set_dma_in_progress false) ;;
         blk <- read dma_blocking ;;
         if blk then
           assign (set_dma_blocking false) ;;
           sem_signal dma_done set_dma_done
         else ret tt
       else sem_signal cmd_done set_cmd_done) ;;
      thd_schedule
    else ret tt.

Definition g1_dma_irq_hnd : M unit :=
  dip <- read dma_in_progress ;;
  (if dip then
     assign (set_dma_in_progress false) ;;
     cip <- read cmd_in_progress ;;
     (if cip then
        assign (set_cmd_in_progress false) ;;
        syscall_gdrom_exec_server ;;
        h <- read cmd_hnd ;;
        r <- syscall_gdrom_check_command h ;;
        assign (set_cmd_response r)
      else ret tt) ;;
     blk <- read dma_blocking ;;
     thd <- read dma_thd ;;
     (if blk then
        assign (set_dma_blocking false) ;;
        sem_signal dma_done set_dma_done ;;
        thd_schedule
      else if negb (thd =? 0) then
        mutex_unlock_as_thread thd ;;
        assign (set_dma_thd 0)
      else ret tt) ;;
     sm <- read stream_mode ;;
     if negb (sm =? -1) then
       cb <- read stream_cb ;;
       p <- read stream_cb_param ;;
       syscall_gdrom_dma_callback cb p
     else ret tt
   else ret tt) ;;
  hdl <- read old_dma_irq_hdl ;;
  if negb (hdl =? 0) then
    data <- read old_dma_irq_data ;;
    emit (EvOldDmaIrq hdl data)
  else ret tt.

(** The next interrupt of the mock, served by its handler. *)
Definition deliver_irq : M unit :=
  fun w =>
    match irq_line fw (n_irq w) with
    | IrqVblank => cdrom_vblank (with_pos bump_irq w)
    | IrqG1Dma => g1_dma_irq_hnd (with_pos bump_irq w)
    end.

(** [sem_wait]: take the semaphore when its count is positive; until
    then the thread sleeps and interrupts are served. *)
Definition sem_wait_turn (count : globals -> Z)
  (set : Z -> globals -> globals) : M (flow unit unit) :=
  c <- read count ;;
  if 0 <? c then assign (set (c - 1)) ;; ret (Break tt)
  else deliver_irq ;; ret Continue.

Definition sem_wait (count : globals -> Z) (set : Z -> globals -> globals)
  (fuel : nat) : M unit :=
  do_while fuel (sem_wait_turn count set) ;; ret tt.

(** *** [cdrom_exec_cmd_ex] *)

Definition cdrom_exec_cmd_ex (fuel : nat) (cmd : Z) (param : list Z)
  (timeout : Z) (use_irq : bool) : M err :=
  mutex_lock_scoped
    (hnd <- cdrom_req_cmd cmd param ;;
     assign (set_cmd_hnd hnd) ;;
     if hnd <=? 0 then ret ERR_SYS
     else
       rv <- (if use_irq then
                syscall_gdrom_exec_server ;;
                h <- read cmd_hnd ;;
                r <- syscall_gdrom_check_command h ;;
                assign (set_cmd_response r) ;;
                (if (r =? PROCESSING) || (r =? BUSY) then
                   assign (set_cmd_in_progress true) ;;
                   sem_wait cmd_done set_cmd_done fuel
                 else ret tt) ;;
                ret ERR_OK
              else
                h <- read cmd_hnd ;;
                cdrom_poll_cmd fuel h timeout) ;;
       r <- read cmd_response ;;
       (if negb (r =? STREAMING) then assign (set_cmd_hnd 0) else ret tt) ;;
       st <- read cmd_status ;;
       if negb (err_eqb rv ERR_OK) then ret rv
       else if (r =? COMPLETED) || (r =? STREAMING) then ret ERR_OK
       else if r =? NO_ACTIVE then ret ERR_NO_ACTIVE
       else if nth 0 st 0 =? 2 then ret ERR_NO_DISC
       else if nth 0 st 0 =? 6 then ret ERR_DISC_CHG
       else ret ERR_SYS).

Definition cdrom_exec_cmd (fuel : nat) (cmd : Z) (param : list Z) : M err :=
  cdrom_exec_cmd_ex fuel cmd param 0 false.

Definition cdrom_exec_cmd_timed (fuel : nat) (cmd : Z) (param : list Z)
  (timeout : Z) : M err :=
  cdrom_exec_cmd_ex fuel cmd param timeout false.

(** *** Sector reads *)

(** The loop that checks the command until [leave] holds of the
    response. *)
Definition check_until (fuel : nat) (leave : Z -> bool) : M unit :=
  do_while (A := unit) fuel
    (syscall_gdrom_exec_server ;;
     h <- read cmd_hnd ;;
     r <- syscall_gdrom_check_command h ;;
     assign (set_cmd_response r) ;;
     if leave r then ret (Break tt) else thd_pass ;; ret Continue) ;;
  ret tt.

Definition cdrom_read_sectors_dma_irq (fuel : nat) (params : list Z) : M err :=
  mutex_lock_scoped
    (hnd <- cdrom_req_cmd CMD_DMAREAD params ;;
     assign (set_cmd_hnd hnd) ;;
     if hnd <=? 0 then ret ERR_SYS
     else
       assign (set_dma_in_progress true) ;;
       assign (set_dma_blocking true) ;;
       check_until fuel (fun r => negb (r =? BUSY)) ;;
       r <- read cmd_response ;;
       (if r =? PROCESSING then
          assign (set_cmd_in_progress true) ;;
          sem_wait dma_done set_dma_done fuel ;;
          r <- read cmd_response ;;
          if (r =? PROCESSING) || (r =? BUSY) then
            check_until fuel (fun r => negb (r =? PROCESSING) && negb (r =? BUSY))
          else ret tt
        else
          c <- read dma_done ;;
          if 0 <? c then sem_wait dma_done set_dma_done fuel else ret tt) ;;
       assign (set_cmd_hnd 0) ;;
       r <- read cmd_response ;;
       st <- read cmd_status ;;
       if (r =? COMPLETED) || (r =? NO_ACTIVE) then ret ERR_OK
       else if nth 0 st 0 =? 2 then ret ERR_NO_DISC
       else if nth 0 st 0 =? 6 then ret ERR_DISC_CHG
       else ret ERR_SYS).

(** [params] is the structure [{sec, num, buffer, is_test}]. *)
Definition cdrom_read_sectors_ex (fuel : nat) (buffer sector cnt mode : Z)
  : M err :=
  let buf_addr := u32 buffer in
  if (mode =? CDROM_READ_DMA) || (mode =? CDROM_READ_DMA_IRQ) then
    if negb (Z.land buf_addr 31 =? 0) then dbglog ;; ret ERR_SYS
    else
      let params := [sector; cnt; Z.land buf_addr MEM_AREA_CACHE_MASK; 0] in
      (if negb (Z.land buf_addr MEM_AREA_P2_BASE =? MEM_AREA_P2_BASE) then
         size <- read cur_sector_size ;;
         dcache_inval_range buf_addr (u32 (cnt * size))
       else ret tt) ;;
      if mode =? CDROM_READ_DMA_IRQ then cdrom_read_sectors_dma_irq fuel params
      else cdrom_exec_cmd fuel CMD_DMAREAD params
  else
    let params := [sector; cnt; buf_addr; 0] in
    if negb (Z.land buf_addr 1 =? 0) then dbglog ;; ret ERR_SYS
    else if mode =? CDROM_READ_PIO_IRQ then
      cdrom_exec_cmd_ex fuel CMD_PIOREAD params 0 true
    else cdrom_exec_cmd fuel CMD_PIOREAD params.

Definition cdrom_read_sectors (fuel : nat) (buffer sector cnt : Z) : M err :=
  cdrom_read_sectors_ex fuel buffer sector cnt CDROM_READ_PIO.

(** *** Streaming *)

Definition stream_stop_body (fuel : nat) : M (flow err err) :=
  syscall_gdrom_exec_server ;;
  h <- read cmd_hnd ;;
  r <- syscall_gdrom_check_command h ;;
  assign (set_cmd_response r) ;;
  if r <? 0 then ret (Break ERR_SYS)
  else if (r =? COMPLETED) || (r =? NO_ACTIVE) then ret (Break ERR_OK)
  else if r =? STREAMING then
    mutex_unlock ;;
    rv <- cdrom_abort_cmd fuel 1000 false ;;
    ret (Return rv)
  else thd_pass ;; ret Continue.

Definition cdrom_stream_stop (fuel : nat) (abort_dma : bool) : M err :=
  h <- read cmd_hnd ;;
  if h <=? 0 then ret ERR_OK
  else
    dip <- read dma_in_progress ;;
    if abort_dma && dip then cdrom_abort_cmd fuel 1000 true
    else
      mutex_lock ;;
      x <- do_while fuel (stream_stop_body fuel) ;;
      match x with
      | inr rv => ret rv
      | inl rv =>
          assign (set_cmd_hnd 0) ;;
          assign (set_stream_mode (-1)) ;;
          mutex_unlock ;;
          cb <- read stream_cb ;;
          (if negb (cb =? 0) then cdrom_stream_set_callback 0 0 else ret tt) ;;
          ret rv
      end.

(** [params] is the structure [{sec, num}]. *)
Definition cdrom_stream_start (fuel : nat) (sector cnt mode : Z) : M err :=
  let params := [sector; cnt] in
  sm <- read stream_mode ;;
  (if negb (sm =? -1) then cdrom_stream_stop fuel false ;; ret tt else ret tt) ;;
  assign (set_stream_mode mode) ;;
  rv <- (if mode =? CDROM_READ_DMA then
           cdrom_exec_cmd_ex fuel CMD_DMAREAD_STREAM params 0 false
         else if mode =? CDROM_READ_DMA_IRQ then
           cdrom_exec_cmd_ex fuel CMD_DMAREAD_STREAM params 0 true
         else if mode =? CDROM_READ_PIO_IRQ then
           cdrom_exec_cmd_ex fuel CMD_PIOREAD_STREAM params 0 true
         else cdrom_exec_cmd_ex fuel CMD_PIOREAD_STREAM params 0 false) ;;
  (if negb (err_eqb rv ERR_OK) then assign (set_stream_mode (-1)) else ret tt) ;;
  ret rv.

(** One turn of the loop of a blocking DMA request. *)
Definition stream_dma_body : M (flow err err) :=
  syscall_gdrom_exec_server ;;
  h <- read cmd_hnd ;;
  r <- syscall_gdrom_check_command h ;;
  assign (set_cmd_response r) ;;
  if r <? 0 then ret (Break ERR_SYS)
  else if (r =? COMPLETED) || (r =? NO_ACTIVE) then
    assign (set_cmd_hnd 0) ;; ret (Break ERR_OK)
  else
    h <- read cmd_hnd ;;
    c <- syscall_gdrom_dma_check h ;;
    if fst c =? 0 then ret (Break ERR_OK)
    else thd_pass ;; ret Continue.

(** One turn of the loop of a PIO request; the second component of the
    check is what the firmware wrote to [check_size]. *)
Definition stream_pio_body : M (flow err err) :=
  syscall_gdrom_exec_server ;;
  h <- read cmd_hnd ;;
  r <- syscall_gdrom_check_command h ;;
  assign (set_cmd_response r) ;;
  if r <? 0 then ret (Break ERR_SYS)
  else if (r =? COMPLETED) || (r =? NO_ACTIVE) then
    assign (set_cmd_hnd 0) ;; ret (Break ERR_OK)
  else
    h <- read cmd_hnd ;;
    c <- syscall_gdrom_pio_check h ;;
    if fst c =? 0 then
      cb <- read stream_cb ;;
      p <- read stream_cb_param ;;
      (if (snd c =? 0) && negb (cb =? 0) then emit (EvStreamCb cb p)
       else ret tt) ;;
      ret (Break ERR_OK)
    else thd_pass ;; ret Continue.

Definition leave_loop (x : err + err) : err :=
  match x with inl rv => rv | inr rv => rv end.

(** [params] is the array [{address, size}] of [int32_t]; [prepared] is
    [params[0]] once the address has passed the alignment test of the
    mode, [None] when the request is refused there. *)
Definition cdrom_stream_request (fuel : nat) (buffer size : Z) (block : bool)
  : M err :=
  let buffer := u32 buffer in
  h <- read cmd_hnd ;;
  if h <=? 0 then ret ERR_NO_ACTIVE
  else
    dip <- read dma_in_progress ;;
    if dip then dbglog ;; ret ERR_SYS
    else
      sm <- read stream_mode ;;
      prepared <-
        (if (sm =? CDROM_READ_DMA) || (sm =? CDROM_READ_DMA_IRQ) then
           let p0 := int32 (Z.land buffer MEM_AREA_CACHE_MASK) in
           if negb (Z.land p0 31 =? 0) then dbglog ;; ret None
           else
             (if Z.shiftr p0 24 =? 12 then dcache_inval_range buffer (u32 size)
              else ret tt) ;;
             ret (Some p0)
         else
           let p0 := int32 buffer in
           if negb (Z.land p0 1 =? 0) then dbglog ;; ret None
           else ret (Some p0)) ;;
      match prepared with
      | None => ret ERR_SYS
      | Some p0 =>
          let p1 := int32 size in
          mutex_lock_scoped
            (if (sm =? CDROM_READ_DMA) || (sm =? CDROM_READ_DMA_IRQ) then
               assign (set_dma_in_progress true) ;;
               assign (set_dma_blocking block) ;;
               (if negb block then
                  assign (set_dma_thd (thd_current fw)) ;;
                  if irq_inside_int fw then assign (set_dma_thd 4294967295)
                  else ret tt
                else ret tt) ;;
               h <- read cmd_hnd ;;
               rs <- syscall_gdrom_dma_transfer h p0 p1 ;;
               if rs <? 0 then
                 assign (set_dma_in_progress false) ;;
                 assign (set_dma_blocking false) ;;
                 assign (set_dma_thd 0) ;;
                 ret ERR_SYS
               else if negb block then ret ERR_OK
               else
                 (if sm =? CDROM_READ_DMA_IRQ then
                    sem_wait dma_done set_dma_done fuel
                  else ret tt) ;;
                 x <- do_while fuel stream_dma_body ;;
                 ret (leave_loop x)
             else if sm =? CDROM_READ_PIO then
               h <- read cmd_hnd ;;
               rs <- syscall_gdrom_pio_transfer h p0 p1 ;;
               if rs <? 0 then ret ERR_SYS
               else
                 x <- do_while fuel stream_pio_body ;;
                 ret (leave_loop x)
             else ret ERR_OK)
      end.

(** *** [cdrom_locate_data_track] *)

Record CDROM_TOC : Set := mkToc {
  entry : list Z;
  first : Z;
  last : Z;
  leadout_sector : Z
}.

(** [toc->entry[i]]; the array has 99 words. *)
Definition toc_entry (toc : CDROM_TOC) (i : Z) : Z :=
  nth (Z.to_nat i) (entry toc) 0.

(** The control field and the LBA of track [i], as the loop reads them:
    [TOC_CTRL(toc->entry[i - 1])] and [TOC_LBA(toc->entry[i - 1])]. *)
Definition track_ctrl (toc : CDROM_TOC) (i : Z) : Z :=
  TOC_CTRL (toc_entry toc (i - 1)).
Definition track_lba (toc : CDROM_TOC) (i : Z) : Z :=
  TOC_LBA (toc_entry toc (i - 1)).

(** The [for] loop over the tracks [lo + n - 1] down to [lo]. *)
Fixpoint locate_scan (toc : CDROM_TOC) (lo : Z) (n : nat) : Z :=
  match n with
  | O => 0
  | S n' =>
      let i := lo + Z.of_nat n' in
      if track_ctrl toc i =? 4 then track_lba toc i
      else locate_scan toc lo n'
  end.

Definition cdrom_locate_data_track (toc : CDROM_TOC) : Z :=
  let first := TOC_TRACK (first toc) in
  let last := TOC_TRACK (last toc) in
  if (first <? 1) || (last >? 99) || (first >? last) then 0
  else locate_scan toc first (Z.to_nat (last - first + 1)).

End Driver.

(** ** The rest of the driver *)

(** More of the headers: command codes, the two ways to address CDDA
    audio, the parts of a sector, the result codes as the integers they
    are, the G1 DMA events and their interrupt line, the base of the P1
    area. *)
Class Header_rest : Set := {
  CMD_INIT : Z;
  CMD_PLAY : Z;
  CMD_PLAY2 : Z;
  CDDA_TRACKS : Z;
  CDDA_SECTORS : Z;
  CDROM_READ_WHOLE_SECTOR : Z;
  CDROM_READ_DATA_AREA : Z;
  err_code : err -> Z;
  ASIC_EVT_GD_DMA : Z;
  ASIC_EVT_GD_DMA_OVERRUN : Z;
  ASIC_EVT_GD_DMA_ILLADDR : Z;
  ASIC_IRQB : Z;
  MEM_AREA_P1_BASE : Z
}.

Section Queries.

Context {hdr : Header} {rest : Header_rest}.
Variable fw : firmware.

(** *** [cdrom_stream_progress] *)

(** [size] tells whether the pointer [size] is not [NULL]; the second
    component of the result is what the call wrote through it. *)
Definition cdrom_stream_progress (size : bool) : M (Z * option Z) :=
  h <- read cmd_hnd ;;
  if h <=? 0 then ret (0, if size then Some 0 else None)
  else
    sm <- read stream_mode ;;
    c <- (if (sm =? CDROM_READ_DMA) || (sm =? CDROM_READ_DMA_IRQ)
          then syscall_gdrom_dma_check fw h
          else syscall_gdrom_pio_check fw h) ;;
    ret (fst c, if size then Some (u32 (snd c)) else None).

(** *** [cdrom_cdda_play] *)

(** [params] is the structure [{start, end, repeat}] of [int]. *)
Definition cdrom_cdda_play (fuel : nat) (start end_ repeat mode : Z) : M err :=
  let repeat := if u32 repeat >? 15 then 15 else u32 repeat in
  let params := [int32 (u32 start); int32 (u32 end_); int32 repeat] in
  if mode =? CDDA_TRACKS then cdrom_exec_cmd fw fuel CMD_PLAY params
  else if mode =? CDDA_SECTORS then cdrom_exec_cmd fw fuel CMD_PLAY2 params
  else ret ERR_OK.

End Queries.

(** ** Drive status, sector mode, start and stop *)

(** The functions of this part call system calls and kernel services
    the part above does not: they run in a [system], which holds the
    [world] of the part above, the two variables [vblank_hnd] and
    [inited], the memory the start-up code reads and patches, the
    answers of the further calls, and a [log] of all calls in the order
    they are made, those of the part above included. *)

Definition set_old_dma_irq (hdl data : Z) (s : globals) : globals :=
  mkGlobals (cmd_hnd s) (cmd_done s) (cmd_in_progress s) (cmd_response s)
    (cmd_status s) (stream_mode s) (stream_cb s) (stream_cb_param s)
    (dma_in_progress s) (dma_blocking s) (dma_thd s) (dma_done s) hdl data
    (cur_sector_size s).

Definition set_old_dma_irq_hdl (hdl : Z) (s : globals) : globals :=
  set_old_dma_irq hdl (old_dma_irq_data s) s.

Definition set_cur_sector_size (v : Z) (s : globals) : globals :=
  mkGlobals (cmd_hnd s) (cmd_done s) (cmd_in_progress s) (cmd_response s)
    (cmd_status s) (stream_mode s) (stream_cb s) (stream_cb_param s)
    (dma_in_progress s) (dma_blocking s) (dma_thd s) (dma_done s)
    (old_dma_irq_hdl s) (old_dma_irq_data s) v.

(** A call that leaves the driver, or an access to a hardware register
    ([volatile] in the source). *)
Inductive call : Set :=
| CallDriver (e : event)
| CallCheckDrive
| CallSectorMode (params : list Z)
| CallMutexLockIrqsafe
| CallAsicSetHandler (evt hdl data : Z)
| CallAsicRemoveHandler (evt : Z)
| CallAsicEnable (evt irq : Z)
| CallAsicDisable (evt irq : Z)
| CallVblankHandlerAdd (hdl : Z)
| CallVblankHandlerRemove (hnd : Z)
| CallIcacheFlush (addr size : Z)
| VolatileWrite (addr val : Z)
| VolatileRead (addr : Z).

(** The answers of the further calls: [syscall_gdrom_check_drive] gives
    its result and the two words it writes to [params];
    [asic_evt_set_handler] the entry it replaces; the last two fields
    are the addresses of the two handlers of the driver. *)
Record kernel : Type := mkKernel {
  gdrom_check_drive : nat -> Z * (Z * Z);
  gdrom_sector_mode : nat -> list Z -> Z;
  lock_irqsafe_answer : nat -> Z;
  replaced_handler : nat -> Z * Z;
  vblank_handle : nat -> Z;
  g1_dma_irq_hnd_entry : Z;
  cdrom_vblank_entry : Z
}.

Record counters : Set := mkCounters {
  n_check_drive : nat;
  n_sector_mode : nat;
  n_lock_irqsafe : nat;
  n_set_handler : nat;
  n_vblank_add : nat
}.

Record system : Type := mkSystem {
  drv :> world;
  vblank_hnd : Z;
  inited : bool;
  made :> counters;
  memory : Z -> Z;
  log : list call
}.

Definition counters0 : counters := mkCounters 0 0 0 0 0.

(** The file's initial values: [vblank_hnd = -1], [inited = false]. *)
Definition initial_system (w : world) (mem : Z -> Z) : system :=
  mkSystem w (-1) false counters0 mem [].

Definition with_drv (f : world -> world) (s : system) : system :=
  mkSystem (f (drv s)) (vblank_hnd s) (inited s) (made s) (memory s) (log s).

Definition with_made (f : counters -> counters) (s : system) : system :=
  mkSystem (drv s) (vblank_hnd s) (inited s) (f (made s)) (memory s) (log s).

Definition with_memory (f : (Z -> Z) -> Z -> Z) (s : system) : system :=
  mkSystem (drv s) (vblank_hnd s) (inited s) (made s) (f (memory s)) (log s).

Definition set_vblank_hnd (v : Z) (s : system) : system :=
  mkSystem (drv s) v (inited s) (made s) (memory s) (log s).

Definition set_inited (v : bool) (s : system) : system :=
  mkSystem (drv s) (vblank_hnd s) v (made s) (memory s) (log s).

Definition add_call (c : call) (s : system) : system :=
  mkSystem (drv s) (vblank_hnd s) (inited s) (made s) (memory s) (log s ++ [c]).

Definition add_calls (cs : list call) (s : system) : system :=
  mkSystem (drv s) (vblank_hnd s) (inited s) (made s) (memory s) (log s ++ cs).

Definition bump_check_drive (c : counters) : counters :=
  mkCounters (S (n_check_drive c)) (n_sector_mode c) (n_lock_irqsafe c)
    (n_set_handler c) (n_vblank_add c).

Definition bump_sector_mode (c : counters) : counters :=
  mkCounters (n_check_drive c) (S (n_sector_mode c)) (n_lock_irqsafe c)
    (n_set_handler c) (n_vblank_add c).

Definition bump_lock_irqsafe (c : counters) : counters :=
  mkCounters (n_check_drive c) (n_sector_mode c) (S (n_lock_irqsafe c))
    (n_set_handler c) (n_vblank_add c).

Definition bump_set_handler (c : counters) : counters :=
  mkCounters (n_check_drive c) (n_sector_mode c) (n_lock_irqsafe c)
    (S (n_set_handler c)) (n_vblank_add c).

Definition bump_vblank_add (c : counters) : counters :=
  mkCounters (n_check_drive c) (n_sector_mode c) (n_lock_irqsafe c)
    (n_set_handler c) (S (n_vblank_add c)).

(** A store of a 32-bit word. *)
Definition store (addr val : Z) (mem : Z -> Z) : Z -> Z :=
  fun a => if a =? addr then val else mem a.

(** *** Runs in a system *)

Inductive result (A : Type) : Type :=
| Finished (a : A) (s : system)
| Asserted
| Starved.

Arguments Finished {A} a s.
Arguments Asserted {A}.
Arguments Starved {A}.

Definition K (A : Type) : Type := system -> result A.

Definition kret {A : Type} (a : A) : K A := fun s => Finished a s.

Definition kbind {A B : Type} (c : K A) (k : A -> K B) : K B :=
  fun s =>
    match c s with
    | Finished a s' => k a s'
    | Asserted => Asserted
    | Starved => Starved
    end.

Declare Scope sys_scope.
Delimit Scope sys_scope with sys.
Notation "x <- c ;; k" := (kbind c (fun x => k))
  (at level 61, c at next level, right associativity) : sys_scope.
Notation "c ;; k" := (kbind c (fun _ => k))
  (at level 61, right associativity) : sys_scope.

(** A function of the part above, run in the system: the calls it made
    are the events it added to the trace. *)
Definition lift {A : Type} (c : M A) : K A :=
  fun s =>
    match c (drv s) with
    | Done a w' =>
        Finished a
          (add_calls (map CallDriver (skipn (length (trace (drv s))) (trace w')))
             (with_drv (fun _ => w') s))
    | AssertFailed => Asserted
    | OutOfFuel => Starved
    end.

Definition record (c : call) : K unit := fun s => Finished tt (add_call c s).

Definition look {A : Type} (f : system -> A) : K A := fun s => Finished (f s) s.

Definition change (f : system -> system) : K unit := fun s => Finished tt (f s).

Fixpoint kdo_while {B A : Type} (fuel : nat) (body : K (flow B A)) : K (B + A) :=
  fun s =>
    match fuel with
    | O => Starved
    | S fuel' =>
        match body s with
        | Finished Continue s' => kdo_while fuel' body s'
        | Finished (Break b) s' => Finished (inl b) s'
        | Finished (Return a) s' => Finished (inr a) s'
        | Asserted => Asserted
        | Starved => Starved
        end
    end.

Section System.

Context {hdr : Header} {rest : Header_rest}.
Variable fw : firmware.
Variable kn : kernel.

Local Open Scope sys_scope.

(** *** System calls, kernel services, memory *)

Definition syscall_gdrom_check_drive : K (Z * (Z * Z)) :=
  fun s =>
    Finished (gdrom_check_drive kn (n_check_drive s))
      (with_made bump_check_drive (add_call CallCheckDrive s)).

Definition syscall_gdrom_sector_mode (params : list Z) : K Z :=
  fun s =>
    Finished (gdrom_sector_mode kn (n_sector_mode s) params)
      (with_made bump_sector_mode (add_call (CallSectorMode params) s)).

Definition mutex_lock_irqsafe : K Z :=
  fun s =>
    Finished (lock_irqsafe_answer kn (n_lock_irqsafe s))
      (with_made bump_lock_irqsafe (add_call CallMutexLockIrqsafe s)).

Definition asic_evt_set_handler (evt hdl data : Z) : K (Z * Z) :=
  fun s =>
    Finished (replaced_handler kn (n_set_handler s))
      (with_made bump_set_handler (add_call (CallAsicSetHandler evt hdl data) s)).

Definition asic_evt_remove_handler (evt : Z) : K unit :=
  record (CallAsicRemoveHandler evt).
Definition asic_evt_enable (evt irq : Z) : K unit :=
  record (CallAsicEnable evt irq).
Definition asic_evt_disable (evt irq : Z) : K unit :=
  record (CallAsicDisable evt irq).

Definition vblank_handler_add (hdl : Z) : K Z :=
  fun s =>
    Finished (vblank_handle kn (n_vblank_add s))
      (with_made bump_vblank_add (add_call (CallVblankHandlerAdd hdl) s)).

Definition vblank_handler_remove (hnd : Z) : K unit :=
  record (CallVblankHandlerRemove hnd).

Definition icache_flush_range (addr size : Z) : K unit :=
  record (CallIcacheFlush addr size).

(** A 32-bit word of the memory, read and written through a plain
    pointer; a register written, and a word read, through a [volatile]
    pointer. *)
Definition load (addr : Z) : K Z := look (fun s => u32 (memory s addr)).

Definition write (addr val : Z) : K unit := change (with_memory (store addr val)).

Definition volatile_write (addr val : Z) : K unit :=
  record (VolatileWrite addr val) ;; write addr val.

Definition volatile_read (addr : Z) : K unit := record (VolatileRead addr).

Definition mutex_lock_scoped_sys {A : Type} (body : K A) : K A :=
  lift mutex_lock ;; r <- body ;; lift mutex_unlock ;; kret r.

(** *** [cdrom_get_status] *)

(** [status] and [disc_type] tell which of the two pointers are not
    [NULL]; the result is the value returned and, for each pointer, the
    value written through it. *)
Definition cdrom_get_status (fuel : nat) (status disc_type : bool)
  : K (Z * option Z * option Z) :=
  failed <- mutex_lock_irqsafe ;;
  if negb (failed =? 0) then kret (-1, None, None)
  else
    x <- kdo_while (A := unit) fuel
           (a <- syscall_gdrom_check_drive ;;
            if negb (fst a =? BUSY) then kret (Break a)
            else lift thd_pass ;; kret Continue) ;;
    lift mutex_unlock ;;
    match x with
    | inl (rv, (p0, p1)) =>
        if rv >=? 0 then
          kret (rv, if status then Some (int32 p0) else None,
                    if disc_type then Some (int32 p1) else None)
        else
          kret (rv, if status then Some (-1) else None,
                    if disc_type then Some (-1) else None)
    | inr _ => kret (0, None, None)
    end.

(** *** [cdrom_change_datatype] *)

Definition cdrom_change_datatype (sector_part cdxa sector_size : Z) : K Z :=
  mutex_lock_scoped_sys
    (chosen <-
       (if sector_size =? 2352 then
          let cdxa := if cdxa =? -1 then 0 else cdxa in
          let sector_part :=
            if sector_part =? -1 then CDROM_READ_WHOLE_SECTOR else sector_part in
          kret (sector_part, cdxa, sector_size)
        else
          cdxa <- (if cdxa =? -1 then
                     a <- syscall_gdrom_check_drive ;;
                     kret (if u32 (snd (snd a)) =? 32 then 2048 else 1024)
                   else kret cdxa) ;;
          let sector_part :=
            if sector_part =? -1 then CDROM_READ_DATA_AREA else sector_part in
          let sector_size := if sector_size =? -1 then 2048 else sector_size in
          kret (sector_part, cdxa, sector_size)) ;;
     let '(sector_part, cdxa, sector_size) := chosen in
     let params := [0; u32 sector_part; u32 cdxa; u32 sector_size] in
     lift (assign (set_cur_sector_size sector_size)) ;;
     syscall_gdrom_sector_mode params).

Definition cdrom_change_dataype (sector_part cdxa sector_size : Z) : K Z :=
  cdrom_change_datatype sector_part cdxa sector_size.

(** *** [cdrom_reinit_ex] and its shortcuts *)

Definition cdrom_reinit_ex (fuel : nat) (sector_part cdxa sector_size : Z)
  : K Z :=
  x <- kdo_while (A := unit) fuel
         (r <- lift (cdrom_exec_cmd_timed fw fuel CMD_INIT [] 10000) ;;
          if err_eqb r ERR_DISC_CHG then kret Continue else kret (Break r)) ;;
  match x with
  | inl r =>
      if err_eqb r ERR_NO_DISC || err_eqb r ERR_SYS || err_eqb r ERR_TIMEOUT
      then kret (err_code r)
      else cdrom_change_datatype sector_part cdxa sector_size
  | inr _ => kret 0
  end.

Definition cdrom_reinit (fuel : nat) : K Z := cdrom_reinit_ex fuel (-1) (-1) (-1).

Definition cdrom_set_sector_size (fuel : nat) (size : Z) : K Z :=
  cdrom_reinit_ex fuel (-1) (-1) size.

(** *** [unlock_dma_memory] *)

Definition G1_ATA_DMA_PROTECTION : Z := 6255800.
Definition G1_DMA_UNLOCK_CODE : Z := 34883.
Definition G1_DMA_UNLOCK_SYSMEM : Z := Z.lor (Z.shiftl G1_DMA_UNLOCK_CODE 16) 16511.
Definition G1_DMA_UNLOCK_ALLMEM : Z := Z.lor (Z.shiftl G1_DMA_UNLOCK_CODE 16) 127.

(** The [for] loop over the words from [cur_loc] up to [end_loc]; its
    value is [count]. *)
Fixpoint unlock_scan (fuel : nat) (cur_loc end_loc count : Z) : K Z :=
  match fuel with
  | O => fun _ => Starved
  | S fuel' =>
      if cur_loc <=? end_loc then
        v <- load cur_loc ;;
        count <- (if v =? u32 G1_DMA_UNLOCK_SYSMEM then
                    write cur_loc G1_DMA_UNLOCK_ALLMEM ;; kret (count + 1)
                  else kret count) ;;
        unlock_scan fuel' (u32 (cur_loc + 4)) end_loc count
      else kret count
  end.

Definition unlock_dma_memory (fuel : nat) : K unit :=
  let prot_reg := Z.lor G1_ATA_DMA_PROTECTION MEM_AREA_P2_BASE in
  let size_loc := Z.shiftl 16 10 in
  let start_loc := u32 (Z.lor 201326592 MEM_AREA_P2_BASE) in
  let end_loc := u32 (start_loc + size_loc) in
  count <- unlock_scan fuel start_loc end_loc 0 ;;
  (if negb (count =? 0) then
     icache_flush_range (Z.lor 201326592 MEM_AREA_P1_BASE) size_loc
   else kret tt) ;;
  volatile_write prot_reg G1_DMA_UNLOCK_ALLMEM.

(** *** [cdrom_init] and [cdrom_shutdown] *)

(** The memory is a function from the address of a 32-bit word to the
    word; the 16-bit read at [MEM_AREA_P2_BASE] is the low half of the
    first word, the machine being little-endian.

    The words [bios[p]], ..., [bios[p + n - 1]] read one after the
    other. *)
Fixpoint bios_sweep (n : nat) (p : Z) : K unit :=
  match n with
  | O => kret tt
  | S n' => volatile_read (MEM_AREA_P2_BASE + 4 * p) ;; bios_sweep n' (p + 1)
  end.

Definition cdrom_init (fuel : nat) : K unit :=
  let react := Z.lor 6255844 MEM_AREA_P2_BASE in
  done <- look inited ;;
  if done then kret tt
  else
    lift mutex_lock ;;
    first_word <- load MEM_AREA_P2_BASE ;;
    (if Z.land first_word 65535 =? 59135 then
       volatile_write react 1023 ;; bios_sweep (Z.to_nat (1024 / 4)) 0
     else
       volatile_write react 2097151 ;; bios_sweep (Z.to_nat (2097152 / 4)) 0) ;;
    lift syscall_gdrom_reset ;;
    lift syscall_gdrom_init ;;
    unlock_dma_memory fuel ;;
    lift mutex_unlock ;;
    old <- asic_evt_set_handler ASIC_EVT_GD_DMA (g1_dma_irq_hnd_entry kn) 0 ;;
    lift (assign (set_old_dma_irq (fst old) (snd old))) ;;
    asic_evt_set_handler ASIC_EVT_GD_DMA_OVERRUN (g1_dma_irq_hnd_entry kn) 0 ;;
    asic_evt_set_handler ASIC_EVT_GD_DMA_ILLADDR (g1_dma_irq_hnd_entry kn) 0 ;;
    hdl <- lift (read old_dma_irq_hdl) ;;
    (if hdl =? 0 then
       asic_evt_enable ASIC_EVT_GD_DMA ASIC_IRQB ;;
       asic_evt_enable ASIC_EVT_GD_DMA_OVERRUN ASIC_IRQB ;;
       asic_evt_enable ASIC_EVT_GD_DMA_ILLADDR ASIC_IRQB
     else kret tt) ;;
    hnd <- vblank_handler_add (cdrom_vblank_entry kn) ;;
    change (set_vblank_hnd hnd) ;;
    change (set_inited true) ;;
    cdrom_reinit fuel ;;
    kret tt.

Definition cdrom_shutdown : K unit :=
  done <- look inited ;;
  if negb done then kret tt
  else
    hnd <- look vblank_hnd ;;
    vblank_handler_remove hnd ;;
    hdl <- lift (read old_dma_irq_hdl) ;;
    data <- lift (read old_dma_irq_data) ;;
    (if negb (hdl =? 0) then
       asic_evt_set_handler ASIC_EVT_GD_DMA hdl data ;;
       asic_evt_set_handler ASIC_EVT_GD_DMA_OVERRUN hdl data ;;
       asic_evt_set_handler ASIC_EVT_GD_DMA_ILLADDR hdl data ;;
       lift (assign (set_old_dma_irq_hdl 0))
     else
       asic_evt_disable ASIC_EVT_GD_DMA ASIC_IRQB ;;
       asic_evt_remove_handler ASIC_EVT_GD_DMA ;;
       asic_evt_disable ASIC_EVT_GD_DMA_OVERRUN ASIC_IRQB ;;
       asic_evt_remove_handler ASIC_EVT_GD_DMA_OVERRUN ;;
       asic_evt_disable ASIC_EVT_GD_DMA_ILLADDR ASIC_IRQB ;;
       asic_evt_remove_handler ASIC_EVT_GD_DMA_ILLADDR) ;;
    change (set_inited false).

End System.

(** ** Vocabulary of the statements *)

(** The world after one attempt of [cdrom_req_cmd] that got no handle:
    the command was sent, the dispatcher advanced, the thread yielded. *)
Definition failed_attempt (cmd : Z) (param : list Z) (w : world) : world :=
  add_event EvThdPass
    (add_event EvExecServer
       (with_pos bump_send (add_event (EvSendCommand cmd param) w))).

Fixpoint after_failed_attempts (k : nat) (cmd : Z) (param : list Z) (w : world)
  : world :=
  match k with
  | O => w
  | S k' => after_failed_attempts k' cmd param (failed_attempt cmd param w)
  end.

(** The world after the attempt that got the handle. *)
Definition granted (cmd : Z) (param : list Z) (w : world) : world :=
  with_pos bump_send (add_event (EvSendCommand cmd param) w).

(** What the firmware mock answers: the response of the [n]-th check of
    the handle [h], and the time the driver computes at the [n]-th look
    at the clock, [timer_ms_gettime64() - begin] in 64 bits. *)
Definition response (fw : firmware) (n : nat) (h : Z) : Z :=
  fst (gdrom_check_command fw n h).

Definition status (fw : firmware) (n : nat) (h : Z) : list Z :=
  snd (gdrom_check_command fw n h).

Definition elapsed (fw : firmware) (begin : Z) (n : nat) : Z :=
  u64 (u64 (timer_ms fw n) - begin).

Definition clock (fw : firmware) (n : nat) : Z := u64 (timer_ms fw n).

Section Conditions.

Context {hdr : Header}.

(** The responses that keep [cdrom_poll_cmd] waiting, and those that
    end the wait of [cdrom_abort_cmd]. *)
Definition is_busy (r : Z) : bool := (r =? PROCESSING) || (r =? BUSY).
Definition is_over (r : Z) : bool := (r =? NO_ACTIVE) || (r =? COMPLETED).

End Conditions.

(** The world after [syscall_gdrom_exec_server()] and
    [cmd_response = syscall_gdrom_check_command(h, cmd_status)]. *)
Definition checked (fw : firmware) (h : Z) (w : world) : world :=
  with_vars (set_cmd_response (response fw (n_check w) h))
    (with_vars (set_cmd_status (status fw (n_check w) h))
       (with_pos bump_check
          (add_event (EvCheckCommand h) (add_event EvExecServer w)))).

(** [w'] comes after [w]: its trace is the trace of [w] and more. *)
Definition extends (w w' : world) : Prop :=
  exists evs, trace w' = trace w ++ evs.

(** [w'] comes after [w] and the mutex was not released in between. *)
Definition holds_on (w w' : world) : Prop :=
  exists evs, trace w' = trace w ++ evs /\ ~ In EvMutexUnlock evs.

(** No command was sent between [w] and [w']. *)
Definition no_send (w w' : world) : Prop := n_send w' = n_send w.

(** A computation every finished run of which relates the world it
    started in to the one it ended in. *)
Definition keeps {A : Type} (R : world -> world -> Prop) (c : M A) : Prop :=
  forall w a w', c w = Done a w' -> R w w'.

Section Summaries.

Context {hdr : Header}.
Variable fw : firmware.

(** The world [cdrom_stream_set_callback(cb, p)] leaves. *)
Definition callback_set (cb p : Z) (w : world) : world :=
  let w1 := with_vars (set_stream_cb cb p) w in
  if (stream_mode w =? CDROM_READ_PIO) || (stream_mode w =? CDROM_READ_PIO_IRQ)
  then add_event (EvPioCallback cb p) w1
  else w1.

(** [cdrom_abort_cmd] on its way to the loop, when it does not return
    early: the world in which the loop starts, and the value of
    [begin]. *)
Definition abort_started (timeout : Z) (abort_dma : bool) (w : world) : world :=
  let w0 := if abort_dma && dma_in_progress w then
              with_vars (set_dma_thd 0)
                (with_vars (set_cmd_in_progress false)
                   (with_vars (set_dma_in_progress false) w))
            else add_event EvMutexLock w in
  let w1 := add_event (EvAbortCommand (cmd_hnd w)) w0 in
  if negb (u32 timeout =? 0) then with_pos bump_time (add_event EvGetTime w1)
  else w1.

Definition abort_begin (timeout : Z) (w : world) : Z :=
  if negb (u32 timeout =? 0) then clock fw (n_time w) else 0.

(** [cdrom_abort_cmd] past the loop, which it left in [w1]. *)
Definition abort_cleanup (w1 : world) : world :=
  let w2 := with_vars (set_stream_mode (-1)) (with_vars (set_cmd_hnd 0) w1) in
  add_event EvMutexUnlock
    (if negb (stream_cb w1 =? 0) then callback_set 0 0 w2 else w2).

(** [k] turns of a loop, each of which goes on. *)
Fixpoint turns (k : nat) (turn : world -> world) (w : world) : world :=
  match k with
  | O => w
  | S k' => turns k' turn (turn w)
  end.

(** [cdrom_poll_cmd]: the world after [begin] is read; after a turn that
    goes on, without and with a look at the clock; and in turn [j],
    when the clock shows the timeout elapsed, as [cdrom_abort_cmd] is
    called. *)
Definition poll_started (w : world) : world :=
  with_pos bump_time (add_event EvGetTime w).

Definition idle_turn (hnd : Z) (w : world) : world :=
  add_event EvThdPass (checked fw hnd w).

Definition poll_turn (hnd : Z) (w : world) : world :=
  add_event EvThdPass
    (with_pos bump_time (add_event EvGetTime (checked fw hnd w))).

Definition poll_gave_up (hnd : Z) (j : nat) (w : world) : world :=
  with_pos bump_time
    (add_event EvGetTime (checked fw hnd (turns j (poll_turn hnd) w))).

(** [cdrom_exec_cmd_ex] between the handle and the result: the wait for
    the command, by interrupt or by polling. *)
Definition exec_wait (fuel : nat) (use_irq : bool) (timeout : Z) : M err :=
  if use_irq then
    syscall_gdrom_exec_server ;;
    h <- read cmd_hnd ;;
    r <- syscall_gdrom_check_command fw h ;;
    assign (set_cmd_response r) ;;
    (if (r =? PROCESSING) || (r =? BUSY) then
       assign (set_cmd_in_progress true) ;;
       sem_wait fw cmd_done set_cmd_done fuel
     else ret tt) ;;
    ret ERR_OK
  else
    h <- read cmd_hnd ;;
    cdrom_poll_cmd fw fuel h timeout.

(** A thread sleeps in [sem_wait(&cmd_done)]: a vertical blank that
    finds the command busy; the vertical blank that finds it done,
    signals and reschedules, after which the thread takes the
    semaphore. *)
Definition vblank_turn (h : Z) (w : world) : world :=
  checked fw h (with_pos bump_irq w).

Definition vblank_wakes (h : Z) (w : world) : world :=
  with_vars (set_cmd_done 0)
    (add_event EvThdSchedule
       (with_vars (set_cmd_done 1)
          (with_vars (set_cmd_in_progress false) (vblank_turn h w)))).

(** [cdrom_exec_cmd_ex] after the wait, which ended in [w2]: the handle
    is dropped unless the command streams, the mutex released. *)
Definition exec_finish (w2 : world) : world :=
  add_event EvMutexUnlock
    (if negb (cmd_response w2 =? STREAMING) then with_vars (set_cmd_hnd 0) w2
     else w2).

(** The result code as the specification words it: a timeout of the
    poll is passed on; else a completed or streaming command is a
    success, no active command is [ERR_NO_ACTIVE]; else the first status
    word tells no disc (2) or disc changed (6); anything else is
    [ERR_SYS]. *)
Definition result_of_outcome (timed_out : bool) (resp status0 : Z) : err :=
  if timed_out then ERR_TIMEOUT
  else if (resp =? COMPLETED) || (resp =? STREAMING) then ERR_OK
  else if resp =? NO_ACTIVE then ERR_NO_ACTIVE
  else if status0 =? 2 then ERR_NO_DISC
  else if status0 =? 6 then ERR_DISC_CHG
  else ERR_SYS.

(** A PIO stream request: the response keeps the transfer going (it is
    neither an error nor the end of the command); a turn of the loop in
    which the transfer check says "not yet"; the last turn, in which it
    says "done, nothing left" and the driver calls the callback. *)
Definition keeps_streaming (r : Z) : bool :=
  negb (r <? 0) && negb ((r =? COMPLETED) || (r =? NO_ACTIVE)).

Definition pio_checked (h : Z) (w : world) : world :=
  with_pos bump_pio_check (add_event (EvPioCheck h) (checked fw h w)).

Definition pio_turn (h : Z) (w : world) : world :=
  add_event EvThdPass (pio_checked h w).

Definition pio_last_turn (h : Z) (w : world) : world :=
  add_event (EvStreamCb (stream_cb w) (stream_cb_param w)) (pio_checked h w).

(** The calls of the driver itself to a stream callback, in a trace. *)
Definition is_stream_cb (e : event) : bool :=
  match e with
  | EvStreamCb _ _ => true
  | _ => false
  end.

Definition stream_cb_calls (evs : list event) : nat :=
  length (filter is_stream_cb evs).

(** [cdrom_stream_stop]: the responses that keep its loop waiting; the
    world in which, having seen [STREAMING] in turn [k], it releases the
    mutex and calls [cdrom_abort_cmd]; the world it leaves when the loop
    broke in [w1]. *)
Definition stop_waits (r : Z) : bool :=
  keeps_streaming r && negb (r =? STREAMING).

Definition stop_hands_over (h : Z) (k : nat) (w : world) : world :=
  add_event EvMutexUnlock
    (checked fw h (turns k (idle_turn h) (add_event EvMutexLock w))).

Definition stop_cleanup (w1 : world) : world :=
  let w2 := add_event EvMutexUnlock
              (with_vars (set_stream_mode (-1))
                 (with_vars (set_cmd_hnd 0) w1)) in
  if negb (stream_cb w1 =? 0) then callback_set 0 0 w2 else w2.

(** The wait of [cdrom_abort_cmd], entered from [w], is over by its
    turn [d]: the response of that turn is [NO_ACTIVE] or [COMPLETED],
    or the timeout is not zero and has elapsed by then. *)
Definition abort_settles (timeout : Z) (w : world) (d : nat) : Prop :=
  is_over (response fw (n_check w + d) (cmd_hnd w)) = true \/
  (u32 timeout <> 0 /\
   u32 timeout <= elapsed fw (clock fw (n_time w)) (S (n_time w) + d)).

End Summaries.

(** ** Vocabulary of the further properties *)

(** Every event a run added to the trace passes the test [ok]. *)
Definition adds (ok : event -> bool) (w w' : world) : Prop :=
  exists evs, trace w' = trace w ++ evs /\ forallb ok evs = true.

(** The events of a call that gives up on a command: a look at the
    clock, a hardware abort, a reset of the drive. *)
Definition is_quiet (e : event) : bool :=
  match e with
  | EvGetTime | EvAbortCommand _ | EvGdromReset | EvGdromInit => false
  | _ => true
  end.

Definition is_abort (e : event) : bool :=
  match e with
  | EvAbortCommand _ => true
  | _ => false
  end.

Definition is_reset (e : event) : bool :=
  match e with
  | EvGdromReset => true
  | _ => false
  end.

Definition is_pio_callback (e : event) : bool :=
  match e with
  | EvPioCallback _ _ => true
  | _ => false
  end.

Definition is_dcache_inval (e : event) : bool :=
  match e with
  | EvDcacheInval _ _ => true
  | _ => false
  end.

(** What an event does to the mutex as [mutex_lock] and [mutex_unlock]
    see it, and the sum over a list of events. *)
Definition lock_shift (e : event) : Z :=
  match e with
  | EvMutexLock => 1
  | EvMutexUnlock => -1
  | _ => 0
  end.

Definition locks (evs : list event) : Z :=
  fold_right (fun e n => lock_shift e + n) 0 evs.

(** Between [w] and [w'] the mutex was taken [n] times more than it was
    released; [balanced]: as often. *)
Definition shifted (n : Z) (w w' : world) : Prop :=
  exists evs, trace w' = trace w ++ evs /\ locks evs = n.

Definition balanced (w w' : world) : Prop := shifted 0 w w'.

(** A run that leaves the variable [f] as it found it. *)
Definition same {A : Type} (f : globals -> A) (w w' : world) : Prop :=
  f (vars w') = f (vars w).

(** The wake-ups the driver owes: a signal of [dma_done] that is pending
    or will come for the blocking transfer in progress, and a signal of
    [cmd_done] that is pending or will come for the command a thread
    sleeps on. *)
Definition dma_wakeups (s : globals) : Z :=
  dma_done s + (if dma_blocking s then 1 else 0).

Definition cmd_wakeups (s : globals) : Z :=
  cmd_done s + (if cmd_in_progress s && negb (dma_in_progress s) then 1 else 0).

(** How many events of a list pass a test; how many resets of the drive
    it holds. *)
Definition count (p : event -> bool) (evs : list event) : nat :=
  length (filter p evs).

Definition resets (evs : list event) : nat := count is_reset evs.

Definition is_lock (e : event) : bool :=
  match e with
  | EvMutexLock => true
  | _ => false
  end.

Definition is_unlock (e : event) : bool :=
  match e with
  | EvMutexUnlock => true
  | _ => false
  end.

Definition is_mutex_free (e : event) : bool := negb (is_lock e || is_unlock e).

Definition no_pio_callback (e : event) : bool := negb (is_pio_callback e).

Definition no_abort (e : event) : bool := negb (is_abort e).

Definition is_dma_callback (e : event) : bool :=
  match e with
  | EvDmaCallback _ _ => true
  | _ => false
  end.

(** A computation every finished run of which returns a value that
    has the property [P]. *)
Definition yields {A : Type} (P : A -> Prop) (c : M A) : Prop :=
  forall w a w', c w = Done a w' -> P a.

(** A result other than the two with which a call gives up. *)
Definition carried_through (rv : err) : Prop :=
  rv <> ERR_TIMEOUT /\ rv <> ERR_ABORTED.

(** ** The mutex as a plain one *)

(** An event that is no call on the mutex and no hardware abort. *)
Definition before_abort (e : event) : bool :=
  match e with
  | EvMutexLock | EvMutexUnlock | EvMutexUnlockAsThread _
  | EvAbortCommand _ => false
  | _ => true
  end.

(** Modelled from the spec: [_g1_ata_mutex] is "one mutual-exclusion
    lock", and a thread that takes it while it is held deadlocks unless
    it uses the variant that "fails outright rather than deadlocking if
    the mutex is already held".  The driver agrees:
    [mutex_t _g1_ata_mutex = MUTEX_INITIALIZER] is the plain kind,
    [cdrom_abort_cmd] skips its [mutex_lock] where the caller holds the
    mutex ("G1 ATA mutex already locked"), and [cdrom_stream_stop]
    releases the mutex before it calls [cdrom_abort_cmd(1000, false)].
    [mutex_lock] and [mutex_unlock] themselves are kernel code, not part
    of the sources at hand.

    [relock held evs] replays the mutex calls of one thread, [held]
    telling whether the thread holds the mutex at the start: the
    position of the first [mutex_lock] made while the thread holds the
    mutex, if there is one.  A release in the name of a thread, by the
    DMA interrupt handler, counts as a release, which can only make a
    later lock pass. *)
Fixpoint relock (held : bool) (evs : list event) : option nat :=
  match evs with
  | [] => None
  | e :: evs' =>
      match e with
      | EvMutexLock =>
          if held then Some O else option_map S (relock true evs')
      | EvMutexUnlock | EvMutexUnlockAsThread _ =>
          option_map S (relock false evs')
      | _ => option_map S (relock held evs')
      end
  end.

(** What becomes of a call made by a thread that does not hold the
    mutex: it returns; or it blocks for ever in a [mutex_lock] on the
    mutex it holds, having made the calls [before]; or the run of the
    model does not tell (an assertion failed, or the fuel ran out). *)
Inductive fate (A : Type) : Type :=
| Returns (a : A) (w : world)
| Blocks (before : list event)
| Untold.

Arguments Returns {A} a w.
Arguments Blocks {A} before.
Arguments Untold {A}.

Definition with_plain_mutex {A : Type} (c : M A) (w : world) : fate A :=
  match c w with
  | Done a w' =>
      let evs := skipn (length (trace w)) (trace w') in
      match relock false evs with
      | Some n => Blocks (firstn n evs)
      | None => Returns a w'
      end
  | _ => Untold
  end.

Section Reads.

Context {hdr : Header}.
Variable fw : firmware.

(** [cdrom_read_sectors_ex] in a DMA mode, before the command: the data
    cache is invalidated over the buffer unless the address lies in the
    P2 area. *)
Definition read_prepared (buffer cnt : Z) (w : world) : world :=
  if negb (Z.land (u32 buffer) MEM_AREA_P2_BASE =? MEM_AREA_P2_BASE)
  then add_event (EvDcacheInval (u32 buffer) (u32 (cnt * cur_sector_size w))) w
  else w.

(** [cdrom_read_sectors_dma_irq]: the world in which it starts to check
    the command it holds handle [h] of; the wait, from the first check
    to the end of the command; the world it leaves; and the result it
    reads off the last response and the first status word. *)
Definition read_dma_armed (h : Z) (w1 : world) : world :=
  with_vars (set_dma_blocking true)
    (with_vars (set_dma_in_progress true) (with_vars (set_cmd_hnd h) w1)).

Definition read_dma_wait (fuel : nat) : M unit :=
  check_until fw fuel (fun r => negb (r =? BUSY)) ;;
  r <- read cmd_response ;;
  if r =? PROCESSING then
    assign (set_cmd_in_progress true) ;;
    sem_wait fw dma_done set_dma_done fuel ;;
    r <- read cmd_response ;;
    if (r =? PROCESSING) || (r =? BUSY) then
      check_until fw fuel (fun r => negb (r =? PROCESSING) && negb (r =? BUSY))
    else ret tt
  else
    c <- read dma_done ;;
    if 0 <? c then sem_wait fw dma_done set_dma_done fuel else ret tt.

Definition read_dma_finish (w3 : world) : world :=
  add_event EvMutexUnlock (with_vars (set_cmd_hnd 0) w3).

Definition read_result (resp status0 : Z) : err :=
  if (resp =? COMPLETED) || (resp =? NO_ACTIVE) then ERR_OK
  else if status0 =? 2 then ERR_NO_DISC
  else if status0 =? 6 then ERR_DISC_CHG
  else ERR_SYS.

(** The interrupt that ends a blocking transfer, as [sem_wait] serves
    it to the handler of its kind, when the check of the handler finds
    the response [r] and the status [st]. *)
Definition wakes_dma (i : irq) (h : Z) (w : world) : world :=
  match i with
  | IrqVblank =>
      add_event EvThdSchedule
        (with_vars (set_dma_done (dma_done w + 1))
           (with_vars (set_dma_blocking false)
              (with_vars (set_dma_in_progress false)
                 (with_vars (set_cmd_in_progress false)
                    (checked fw h (with_pos bump_irq w))))))
  | IrqG1Dma =>
      let w1 := add_event EvThdSchedule
                  (with_vars (set_dma_done (dma_done w + 1))
                     (with_vars (set_dma_blocking false)
                        (checked fw h
                           (with_vars (set_cmd_in_progress false)
                              (with_vars (set_dma_in_progress false)
                                 (with_pos bump_irq w)))))) in
      let w2 := if negb (stream_mode w =? -1)
                then add_event (EvDmaCallback (stream_cb w) (stream_cb_param w)) w1
                else w1 in
      if negb (old_dma_irq_hdl w =? 0)
      then add_event (EvOldDmaIrq (old_dma_irq_hdl w) (old_dma_irq_data w)) w2
      else w2
  end.

End Reads.

(** ** Vocabulary of the properties of a system *)

(** A computation every finished run of which relates the system it
    started in to the one it ended in. *)
Definition kkeeps {A : Type} (R : system -> system -> Prop) (c : K A) : Prop :=
  forall s a s', c s = Finished a s' -> R s s'.

(** [k] turns of a loop in a system, each of which goes on. *)
Fixpoint kturns (k : nat) (turn : system -> system) (s : system) : system :=
  match k with
  | O => s
  | S k' => kturns k' turn (turn s)
  end.

(** A run that leaves [f] as it found it. *)
Definition ksame {A : Type} (f : system -> A) (s s' : system) : Prop :=
  f s' = f s.

(** What [cdrom_init] sets up and [cdrom_shutdown] takes down: the flag
    [inited], the handle of the vertical-blank hook, and the handler the
    driver displaced, [old_dma_irq]. *)
Definition old_irq (g : globals) : Z * Z :=
  (old_dma_irq_hdl g, old_dma_irq_data g).

Definition settings (s : system) : bool * Z * (Z * Z) :=
  (inited s, vblank_hnd s, old_irq s).

(** [s'] comes after [s]: its log is the log of [s] and more. *)
Definition kextends (s s' : system) : Prop :=
  exists cs, log s' = log s ++ cs.

(** A run that leaves the settings alone; and one that also makes none
    of the calls the [counters] count. *)
Definition settled (s s' : system) : Prop :=
  settings s' = settings s /\ kextends s s'.

Definition prepared (s s' : system) : Prop :=
  settled s s' /\ made s' = made s.

Section SystemSummaries.

Context {hdr : Header} {rest : Header_rest}.
Variable fw : firmware.
Variable kn : kernel.

(** [cdrom_get_status]: the answer of the [k]-th call of
    [syscall_gdrom_check_drive] from [s] on; the system after a turn of
    the loop that found the drive busy; what the call writes through a
    pointer, [present] telling whether the pointer is not [NULL]. *)
Definition drive_answer (s : system) (k : nat) : Z * (Z * Z) :=
  gdrom_check_drive kn (n_check_drive s + k).

Definition drive_checked (s : system) : system :=
  with_made bump_check_drive (add_call CallCheckDrive s).

Definition drive_busy_turn (s : system) : system :=
  add_call (CallDriver EvThdPass)
    (with_drv (add_event EvThdPass) (drive_checked s)).

Definition written (present : bool) (rv v : Z) : option Z :=
  if present then Some (if rv >=? 0 then int32 v else -1) else None.

(** [cdrom_change_datatype]: the parameters it settles on, [drive]
    being the disc type the drive reports, and whether it asks the
    drive. *)
Definition chosen_part (sector_part sector_size : Z) : Z :=
  if sector_part =? -1 then
    if sector_size =? 2352 then CDROM_READ_WHOLE_SECTOR
    else CDROM_READ_DATA_AREA
  else sector_part.

Definition chosen_cdxa (cdxa sector_size drive : Z) : Z :=
  if cdxa =? -1 then
    if sector_size =? 2352 then 0
    else if u32 drive =? 32 then 2048 else 1024
  else cdxa.

Definition chosen_size (sector_size : Z) : Z :=
  if sector_size =? -1 then 2048 else sector_size.

Definition asks_drive (cdxa sector_size : Z) : bool :=
  negb (sector_size =? 2352) && (cdxa =? -1).

(** [unlock_dma_memory]: the address the scan starts at, the words it
    looks at, the test it makes on a word, the register it writes last,
    and the memory it leaves. *)
Definition unlock_start : Z := u32 (Z.lor 201326592 MEM_AREA_P2_BASE).

Definition unlock_words : list Z :=
  map (fun i => unlock_start + 4 * Z.of_nat i) (seq 0 4097).

Definition locked_word (mem : Z -> Z) (a : Z) : bool :=
  u32 (mem a) =? u32 G1_DMA_UNLOCK_SYSMEM.

Definition unlock_reg : Z := Z.lor G1_ATA_DMA_PROTECTION MEM_AREA_P2_BASE.

Definition unlocked (mem : Z -> Z) (a : Z) : Z :=
  if a =? unlock_reg then G1_DMA_UNLOCK_ALLMEM
  else if existsb (Z.eqb a) unlock_words && locked_word mem a
       then G1_DMA_UNLOCK_ALLMEM
       else mem a.

(** [cdrom_init] and [cdrom_shutdown]: the calls that hook the three
    G1 DMA events, enable them, hook them back to the handler [hdl]
    with [data], and unhook them. *)
Definition hooks_installed : list call :=
  [CallAsicSetHandler ASIC_EVT_GD_DMA (g1_dma_irq_hnd_entry kn) 0;
   CallAsicSetHandler ASIC_EVT_GD_DMA_OVERRUN (g1_dma_irq_hnd_entry kn) 0;
   CallAsicSetHandler ASIC_EVT_GD_DMA_ILLADDR (g1_dma_irq_hnd_entry kn) 0].

Definition hooks_enabled : list call :=
  [CallAsicEnable ASIC_EVT_GD_DMA ASIC_IRQB;
   CallAsicEnable ASIC_EVT_GD_DMA_OVERRUN ASIC_IRQB;
   CallAsicEnable ASIC_EVT_GD_DMA_ILLADDR ASIC_IRQB].

Definition hooks_restored (hdl data : Z) : list call :=
  [CallAsicSetHandler ASIC_EVT_GD_DMA hdl data;
   CallAsicSetHandler ASIC_EVT_GD_DMA_OVERRUN hdl data;
   CallAsicSetHandler ASIC_EVT_GD_DMA_ILLADDR hdl data].

Definition hooks_removed : list call :=
  [CallAsicDisable ASIC_EVT_GD_DMA ASIC_IRQB;
   CallAsicRemoveHandler ASIC_EVT_GD_DMA;
   CallAsicDisable ASIC_EVT_GD_DMA_OVERRUN ASIC_IRQB;
   CallAsicRemoveHandler ASIC_EVT_GD_DMA_OVERRUN;
   CallAsicDisable ASIC_EVT_GD_DMA_ILLADDR ASIC_IRQB;
   CallAsicRemoveHandler ASIC_EVT_GD_DMA_ILLADDR].

(** [cdrom_reinit_ex]: [j] runs of [CMD_INIT] in a row, from [s] to
    [s'], each of which ended with [ERR_DISC_CHG]. *)
Inductive disc_changed (fuel : nat) : nat -> system -> system -> Prop :=
| changed_none (s : system) : disc_changed fuel O s s
| changed_more (j : nat) (s s1 s2 : system) :
    lift (cdrom_exec_cmd_timed fw fuel CMD_INIT [] 10000) s
    = Finished ERR_DISC_CHG s1 ->
    disc_changed fuel j s1 s2 ->
    disc_changed fuel (S j) s s2.

End SystemSummaries.

(** ** A sample header and sample mocks *)

(** Sample values for the header, after the KallistiOS headers; the
    theorems hold for every header. *)
Definition kos_header : Header := {|
  NO_ACTIVE := 0;
  PROCESSING := 1;
  COMPLETED := 2;
  STREAMING := 3;
  BUSY := 4;
  CMD_PIOREAD := 16;
  CMD_DMAREAD := 17;
  CMD_DMAREAD_STREAM := 28;
  CMD_PIOREAD_STREAM := 37;
  CMD_MAX := 47;
  CDROM_READ_PIO := 0;
  CDROM_READ_DMA := 1;
  CDROM_READ_PIO_IRQ := 2;
  CDROM_READ_DMA_IRQ := 3;
  MEM_AREA_CACHE_MASK := 536870911;
  MEM_AREA_P2_BASE := 2684354560;
  TOC_LBA := fun n => Z.land n 16777215;
  TOC_CTRL := fun n => Z.shiftr (Z.land n 4026531840) 28;
  TOC_TRACK := fun n => Z.shiftr (Z.land n 16711680) 16
|}.

(** A blocking DMA transfer of a stream is in flight: handle 7, mode
    [CDROM_READ_DMA_IRQ], callback 99 registered. *)
Definition blocking_dma_world : world :=
  mkWorld
    (mkGlobals 7 0 false 3 [0; 0; 0; 0] 3 99 5 true true 0 0 0 0 2048)
    cursor0 [].

(** A drive with nothing going on. *)
Definition idle_world : world :=
  mkWorld (initial_globals 0) cursor0 [].

(** A stream in mode [mode] with the live handle [hnd]. *)
Definition streaming_world (mode hnd : Z) : world :=
  with_vars (fun s => set_stream_mode mode (set_cmd_hnd hnd s)) idle_world.

(** A PIO stream with handle 7 and the callback 99 (parameter 5). *)
Definition pio_stream_world : world :=
  mkWorld
    (mkGlobals 7 0 false 3 [0; 0; 0; 0] 0 99 5 false false 0 0 0 0 2048)
    cursor0 [].

(** A mock made of the handle of the [n]-th send, the response of the
    [n]-th check, the answer of the [n]-th PIO transfer check and the
    clock.  Transfers are accepted; the status words are zero. *)
Definition mock (send : nat -> Z) (resp : nat -> Z) (pio : nat -> Z * Z)
  (time : nat -> Z) : firmware := {|
  gdrom_send_command := fun n _ => send n;
  gdrom_check_command := fun n _ => (resp n, [0; 0; 0; 0]);
  gdrom_dma_transfer := fun _ => 0;
  gdrom_pio_transfer := fun _ => 0;
  gdrom_dma_check := fun _ => (0, 0);
  gdrom_pio_check := pio;
  timer_ms := time;
  irq_line := fun _ => IrqVblank;
  thd_current := 1;
  irq_inside_int := false
|}.

(** Hands out handle 7 at once; every command is completed at its
    first check. *)
Definition prompt_fw : firmware :=
  mock (fun _ => 7) (fun _ => 2) (fun _ => (0, 0)) Z.of_nat.

(** Hands out the handles 7, 8, ...; the first command checked streams,
    every later check reports completion. *)
Definition stream_then_done_fw : firmware :=
  mock (fun n => 7 + Z.of_nat n)
       (fun n => match n with O => 3 | _ => 2 end)
       (fun _ => (0, 0)) Z.of_nat.

(** Busy at the first check, completed at the second. *)
Definition busy_once_fw : firmware :=
  mock (fun _ => 7) (fun n => match n with O => 1 | _ => 2 end)
       (fun _ => (0, 0)) Z.of_nat.

(** Never leaves [PROCESSING]; a second passes between two looks at the
    clock. *)
Definition stuck_fw : firmware :=
  mock (fun _ => 7) (fun _ => 1) (fun _ => (0, 0))
       (fun n => 1000 * Z.of_nat n).

(** Streams for ever; the PIO transfer is done, with nothing left, at
    its second check. *)
Definition two_chunk_fw : firmware :=
  mock (fun _ => 7) (fun _ => 3)
       (fun n => match n with O => (1, 2048) | _ => (0, 0) end) Z.of_nat.

(** Gives no handle twice, then handle 7. *)
Definition retry_fw : firmware :=
  mock (fun n => match n with O | 1%nat => 0 | _ => 7 end) (fun _ => 2)
       (fun _ => (0, 0)) Z.of_nat.

(** Reports every command gone ([NO_ACTIVE]) at its first check. *)
Definition gone_fw : firmware :=
  mock (fun _ => 7) (fun _ => 0) (fun _ => (0, 0)) Z.of_nat.

(** Refuses every transfer. *)
Definition refusing_fw : firmware := {|
  gdrom_send_command := fun _ _ => 7;
  gdrom_check_command := fun _ _ => (3, [0; 0; 0; 0]);
  gdrom_dma_transfer := fun _ => -1;
  gdrom_pio_transfer := fun _ => -1;
  gdrom_dma_check := fun _ => (0, 0);
  gdrom_pio_check := fun _ => (0, 0);
  timer_ms := Z.of_nat;
  irq_line := fun _ => IrqVblank;
  thd_current := 1;
  irq_inside_int := false
|}.

(** A DMA stream with handle 7 and the callback 99 (parameter 5), no
    transfer in progress; and the same stream with a transfer in
    progress that thread 1 does not wait for. *)
Definition dma_stream_world : world :=
  mkWorld
    (mkGlobals 7 0 false 3 [0; 0; 0; 0] 1 99 5 false false 0 0 0 0 2048)
    cursor0 [].

Definition nonblocking_dma_world : world :=
  mkWorld
    (mkGlobals 7 0 false 3 [0; 0; 0; 0] 1 99 5 true false 1 0 0 0 2048)
    cursor0 [].

(** Sample values for the rest of the header. *)
Definition kos_header_rest : Header_rest := {|
  CMD_INIT := 24;
  CMD_PLAY := 20;
  CMD_PLAY2 := 21;
  CDDA_TRACKS := 1;
  CDDA_SECTORS := 2;
  CDROM_READ_WHOLE_SECTOR := 4096;
  CDROM_READ_DATA_AREA := 8192;
  err_code := fun e =>
    match e with
    | ERR_OK => 0
    | ERR_NO_DISC => 1
    | ERR_DISC_CHG => 2
    | ERR_SYS => 3
    | ERR_ABORTED => 4
    | ERR_NO_ACTIVE => 5
    | ERR_TIMEOUT => 6
    end;
  ASIC_EVT_GD_DMA := 14;
  ASIC_EVT_GD_DMA_OVERRUN := 525;
  ASIC_EVT_GD_DMA_ILLADDR := 524;
  ASIC_IRQB := 1;
  MEM_AREA_P1_BASE := 2147483648
|}.

(** The first [CMD_INIT] fails with the status "disc changed", every
    later command is completed at its first check. *)
Definition changed_fw : firmware := {|
  gdrom_send_command := fun _ _ => 7;
  gdrom_check_command := fun n _ =>
    match n with
    | O => (-1, [6; 0; 0; 0])
    | _ => (2, [0; 0; 0; 0])
    end;
  gdrom_dma_transfer := fun _ => 0;
  gdrom_pio_transfer := fun _ => 0;
  gdrom_dma_check := fun _ => (0, 0);
  gdrom_pio_check := fun _ => (0, 0);
  timer_ms := Z.of_nat;
  irq_line := fun _ => IrqVblank;
  thd_current := 1;
  irq_inside_int := false
|}.

(** A kernel that grants the mutex, whose drive is busy at the first
    question and then reports a disc of type 32, and on whose G1 DMA
    event the handler 2001 (data 17) was hooked before the driver. *)
Definition calm_kernel : kernel := {|
  gdrom_check_drive := fun n =>
    match n with
    | O => (4, (0, 0))
    | _ => (0, (1, 32))
    end;
  gdrom_sector_mode := fun _ _ => 0;
  lock_irqsafe_answer := fun _ => 0;
  replaced_handler := fun _ => (2001, 17);
  vblank_handle := fun _ => 3;
  g1_dma_irq_hnd_entry := 1001;
  cdrom_vblank_entry := 1002
|}.

(** The driver before [cdrom_init], on a console with a custom BIOS
    (first half-word [0xe6ff]) whose third word in the scanned 16 KiB
    holds the code that locks the G1 DMA out of all but system
    memory. *)
Definition fresh_system : system :=
  initial_system idle_world
    (fun a => if a =? 2684354560 then 59135
              else if a =? 2885681160 then 2286108799
              else 0).

(** A disc with an audio track and a data track at LBA 11702. *)
Definition two_track_toc : CDROM_TOC :=
  mkToc ([16777366; 1090530742] ++ repeat 0 97) 65536 131072 0.

(** * Properties *)

Section Properties.

Context {hdr : Header}.
Variable fw : firmware.
Implicit Types (w : world) (fuel : nat).

(** *** Running the model inside a proof *)

Ltac unfold_calls :=
  cbv beta iota zeta delta
    [bind ret read assign emit assert mutex_lock_scoped leave_loop
     syscall_gdrom_send_command syscall_gdrom_exec_server
     syscall_gdrom_check_command syscall_gdrom_abort_command
     syscall_gdrom_reset syscall_gdrom_init syscall_gdrom_dma_transfer
     syscall_gdrom_pio_transfer syscall_gdrom_dma_check
     syscall_gdrom_pio_check syscall_gdrom_pio_callback
     syscall_gdrom_dma_callback timer_ms_gettime64 thd_pass thd_schedule
     mutex_lock mutex_unlock mutex_unlock_as_thread dcache_inval_range
     dbglog sem_signal].

Ltac fields :=
  cbn [vars pos trace with_vars with_pos add_event checked
       cmd_hnd cmd_done cmd_in_progress cmd_response cmd_status stream_mode
       stream_cb stream_cb_param dma_in_progress dma_blocking dma_thd
       dma_done old_dma_irq_hdl old_dma_irq_data cur_sector_size
       set_cmd_hnd set_cmd_done set_cmd_in_progress set_cmd_response
       set_cmd_status set_stream_mode set_stream_cb set_dma_in_progress
       set_dma_blocking set_dma_thd set_dma_done
       n_send n_check n_dma_transfer n_pio_transfer n_dma_check n_pio_check
       n_time n_irq bump_send bump_check bump_dma_transfer bump_pio_transfer
       bump_dma_check bump_pio_check bump_time bump_irq
       negb andb orb fst snd].

Ltac run := unfold_calls; fields.

Lemma eqb_false (a b : Z) : a <> b -> (a =? b) = false.
Proof. apply Z.eqb_neq. Qed.

Lemma leb_false (a b : Z) : b < a -> (a <=? b) = false.
Proof. apply Z.leb_gt. Qed.

Lemma ltb_false (a b : Z) : b <= a -> (a <? b) = false.
Proof. apply Z.ltb_ge. Qed.

(** *** Low bits of an address *)

Lemma int32_low_bits (x n : Z) :
  0 <= n <= 32 -> Z.land (int32 x) (Z.ones n) = Z.land x (Z.ones n).
Proof.
  intros Hn. rewrite !Z.land_ones by lia.
  assert (E : 2 ^ 32 = 2 ^ (32 - n) * 2 ^ n).
  { rewrite <- Z.pow_add_r by lia. f_equal. lia. }
  assert (P : 0 < 2 ^ n) by (apply Z.pow_pos_nonneg; lia).
  assert (Q : 0 < 2 ^ (32 - n)) by (apply Z.pow_pos_nonneg; lia).
  assert (R : (x mod 2 ^ 32) mod 2 ^ n = x mod 2 ^ n).
  { rewrite E. rewrite Z.mul_comm.
    rewrite Z.rem_mul_r by lia.
    rewrite Z.mul_comm, Z.mod_add by lia. apply Z.mod_mod. lia. }
  unfold int32. destruct (x mod 2 ^ 32 <? 2 ^ 31).
  - exact R.
  - rewrite <- R. rewrite E at 2.
    replace (x mod 2 ^ 32 - 2 ^ (32 - n) * 2 ^ n)
      with (x mod 2 ^ 32 + (- 2 ^ (32 - n)) * 2 ^ n) by ring.
    apply Z.mod_add. lia.
Qed.

Lemma u32_low_bits (x n : Z) :
  0 <= n <= 32 -> Z.land (u32 x) (Z.ones n) = Z.land x (Z.ones n).
Proof.
  intros Hn. rewrite !Z.land_ones by lia. unfold u32.
  assert (E : 2 ^ 32 = 2 ^ (32 - n) * 2 ^ n).
  { rewrite <- Z.pow_add_r by lia. f_equal. lia. }
  assert (P : 0 < 2 ^ n) by (apply Z.pow_pos_nonneg; lia).
  assert (Q : 0 < 2 ^ (32 - n)) by (apply Z.pow_pos_nonneg; lia).
  rewrite E, Z.mul_comm, Z.rem_mul_r by lia.
  rewrite Z.mul_comm, Z.mod_add by lia. apply Z.mod_mod. lia.
Qed.

(** The driver's test [params[0] & 0x01] of a PIO stream request reads
    the low bit of the address. *)
Lemma pio_address_bit (buffer : Z) :
  Z.land (int32 (u32 buffer)) 1 = Z.land buffer 1.
Proof.
  change 1 with (Z.ones 1).
  rewrite int32_low_bits, u32_low_bits by lia. reflexivity.
Qed.

(** The driver's test [params[0] & 0x1f] of a DMA stream request reads
    the low five bits of the address, when the cache mask keeps them. *)
Lemma dma_address_bits (buffer : Z) :
  Z.land MEM_AREA_CACHE_MASK 31 = 31 ->
  Z.land (int32 (Z.land (u32 buffer) MEM_AREA_CACHE_MASK)) 31 = Z.land buffer 31.
Proof.
  intros Hmask. change 31 with (Z.ones 5) at 1.
  rewrite int32_low_bits by lia. change (Z.ones 5) with 31.
  rewrite <- Z.land_assoc, Hmask. change 31 with (Z.ones 5).
  apply u32_low_bits. lia.
Qed.

Lemma read_address_bits (buffer n : Z) :
  0 <= n <= 32 -> Z.land (u32 buffer) (Z.ones n) = Z.land buffer (Z.ones n).
Proof. apply u32_low_bits. Qed.

(** *** Loops *)

(** A loop that holds [I] at its start and whose body keeps it leaves
    with [Q], provided every way out of the body establishes [Q]. *)
Lemma do_while_inv {B A : Type} (I : world -> Prop)
  (Q : B + A -> world -> Prop) (body : M (flow B A)) :
  (forall w r w', I w -> body w = Done r w' ->
     match r with
     | Continue => I w'
     | Break b => Q (inl b) w'
     | Return a => Q (inr a) w'
     end) ->
  forall fuel w x w', I w -> do_while fuel body w = Done x w' -> Q x w'.
Proof.
  intros Hbody. induction fuel as [|fuel IH]; intros w x w' HI; cbn.
  - discriminate.
  - destruct (body w) as [r w1| |] eqn:E; try discriminate.
    specialize (Hbody _ _ _ HI E).
    destruct r; [now apply IH| |]; intros [= <- <-]; exact Hbody.
Qed.

(** A loop leaves when a measure [P d] ("within [d] more turns") goes
    down at every turn that continues. *)
Lemma do_while_exits {B A : Type} (P : nat -> world -> Prop)
  (body : M (flow B A)) :
  (forall d w, P d w ->
     exists r w', body w = Done r w' /\
       match r with
       | Continue => match d with O => False | S d' => P d' w' end
       | _ => True
       end) ->
  forall d fuel w, (d < fuel)%nat -> P d w ->
    exists x w', do_while fuel body w = Done x w'.
Proof.
  intros Hbody. induction d as [|d IH]; intros fuel w Hfuel HP;
    (destruct fuel as [|fuel]; [lia|]); cbn;
    destruct (Hbody _ _ HP) as (r & w1 & E & Hr); rewrite E;
    destruct r; try (eexists _, _; reflexivity).
  - contradiction.
  - apply IH; [lia|exact Hr].
Qed.

(** *** Relations every step keeps *)

Section Keeps.

Variable R : world -> world -> Prop.
Hypothesis R_refl : forall w, R w w.
Hypothesis R_trans : forall a b c, R a b -> R b c -> R a c.

Lemma keeps_ret {A : Type} (a : A) : keeps R (ret a).
Proof. intros w a' w' [= _ <-]. apply R_refl. Qed.

Lemma keeps_bind {A B : Type} (c : M A) (k : A -> M B) :
  keeps R c -> (forall a, keeps R (k a)) -> keeps R (bind c k).
Proof.
  intros Hc Hk w b w'. unfold bind.
  destruct (c w) as [a w1| |] eqn:E; try discriminate.
  intros H. eapply R_trans; [eapply Hc, E|eapply Hk, H].
Qed.

Lemma keeps_do_while {B A : Type} fuel (body : M (flow B A)) :
  keeps R body -> keeps R (do_while fuel body).
Proof.
  intros Hbody. induction fuel as [|fuel IH]; intros w x w'; cbn.
  - discriminate.
  - destruct (body w) as [r w1| |] eqn:E; try discriminate.
    apply Hbody in E.
    destruct r; [intros H; apply IH in H; eauto| |];
      intros [= _ <-]; exact E.
Qed.

Lemma keeps_read {A : Type} (f : globals -> A) : keeps R (read f).
Proof. intros w a w' [= _ <-]. apply R_refl. Qed.

Lemma keeps_assert (b : bool) : keeps R (assert b).
Proof.
  intros w a w'. unfold assert. destruct b; [|discriminate].
  intros H. inversion H. apply R_refl.
Qed.

End Keeps.

Lemma extends_refl w : extends w w.
Proof. exists []. now rewrite app_nil_r. Qed.

Lemma extends_trans a b c : extends a b -> extends b c -> extends a c.
Proof.
  intros [e1 H1] [e2 H2]. exists (e1 ++ e2). now rewrite H2, H1, app_assoc.
Qed.

Lemma extends_In e w w' : extends w w' -> In e (trace w) -> In e (trace w').
Proof. intros [evs ->] H. apply in_or_app. now left. Qed.

Lemma no_send_refl w : no_send w w.
Proof. reflexivity. Qed.

Lemma no_send_trans a b c : no_send a b -> no_send b c -> no_send a c.
Proof. unfold no_send. congruence. Qed.

(** A step that is not built from others: its run is one world
    transformer, and the relation is read off it. *)
Ltac keeps_prim :=
  let w := fresh "w" in
  let E := fresh "E" in
  intros w ? ? E;
  cbv beta iota zeta delta
    [emit assign syscall_gdrom_send_command syscall_gdrom_exec_server
     syscall_gdrom_check_command syscall_gdrom_abort_command
     syscall_gdrom_reset syscall_gdrom_init syscall_gdrom_dma_transfer
     syscall_gdrom_pio_transfer syscall_gdrom_dma_check
     syscall_gdrom_pio_check syscall_gdrom_pio_callback
     syscall_gdrom_dma_callback timer_ms_gettime64 thd_pass thd_schedule
     mutex_lock mutex_unlock mutex_unlock_as_thread dcache_inval_range
     dbglog] in E;
  injection E as _ <-;
  first [ reflexivity
        | (unfold extends; fields; exists []; symmetry; apply app_nil_r)
        | (unfold extends; fields; eexists; reflexivity) ].

Ltac keeps_tac known :=
  repeat first
    [ apply keeps_ret; solve [eauto with keeps]
    | apply keeps_read; solve [eauto with keeps]
    | apply keeps_assert; solve [eauto with keeps]
    | apply keeps_bind; [solve [eauto with keeps]| |intros ?]
    | apply keeps_do_while; [solve [eauto with keeps]|]
    | known
    | match goal with
      | |- keeps _ (if ?b then _ else _) => destruct b
      | |- keeps _ (match ?x with _ => _ end) => destruct x
      | |- keeps _ (let _ := _ in _) => cbv zeta
      end
    | keeps_prim ].

Create HintDb keeps.
#[local] Hint Resolve extends_refl extends_trans no_send_refl no_send_trans
  : keeps.

(** *** Submitting a command *)

Lemma after_failed_attempts_vars k cmd param w :
  vars (after_failed_attempts k cmd param w) = vars w.
Proof. revert w. induction k as [|k IH]; intros w; cbn; [|rewrite IH]; reflexivity. Qed.

Lemma after_failed_attempts_sends k cmd param w :
  n_send (after_failed_attempts k cmd param w) = (n_send w + k)%nat.
Proof.
  revert w. induction k as [|k IH]; intros w; cbn [after_failed_attempts].
  - now rewrite Nat.add_0_r.
  - rewrite IH. cbn. lia.
Qed.

Lemma after_failed_attempts_checks k cmd param w :
  n_check (after_failed_attempts k cmd param w) = n_check w.
Proof. revert w. induction k as [|k IH]; intros w; cbn; [|rewrite IH]; reflexivity. Qed.

Lemma after_failed_attempts_trace k cmd param w :
  trace (after_failed_attempts k cmd param w)
  = trace w
    ++ concat (repeat [EvSendCommand cmd param; EvExecServer; EvThdPass] k).
Proof.
  revert w. induction k as [|k IH]; intros w; cbn [after_failed_attempts].
  - cbn. now rewrite app_nil_r.
  - rewrite IH. cbn. now rewrite <- !app_assoc.
Qed.

Lemma req_loop_step left cmd param hnd w :
  cdrom_req_cmd_loop fw (S left) cmd param hnd w
  = if negb (gdrom_send_command fw (n_send w) cmd =? 0)
    then Done (gdrom_send_command fw (n_send w) cmd) (granted cmd param w)
    else cdrom_req_cmd_loop fw left cmd param
           (gdrom_send_command fw (n_send w) cmd) (failed_attempt cmd param w).
Proof.
  cbn [cdrom_req_cmd_loop]. run.
  destruct (gdrom_send_command fw (n_send w) cmd =? 0); reflexivity.
Qed.

Lemma req_loop_all_fail left cmd param w :
  (forall i, (i < left)%nat -> gdrom_send_command fw (n_send w + i) cmd = 0) ->
  cdrom_req_cmd_loop fw left cmd param 0 w
  = Done 0 (after_failed_attempts left cmd param w).
Proof.
  revert w. induction left as [|left IH]; intros w Hzero; [reflexivity|].
  rewrite req_loop_step.
  assert (E : gdrom_send_command fw (n_send w) cmd = 0).
  { rewrite <- (Nat.add_0_r (n_send w)). apply Hzero. lia. }
  rewrite E. cbn [Z.eqb negb after_failed_attempts]. apply IH.
  intros i Hi. cbn. rewrite <- Nat.add_succ_r. apply Hzero. lia.
Qed.

Lemma req_loop_first_handle k left cmd param hnd w :
  (k < left)%nat ->
  (forall i, (i < k)%nat -> gdrom_send_command fw (n_send w + i) cmd = 0) ->
  gdrom_send_command fw (n_send w + k) cmd <> 0 ->
  cdrom_req_cmd_loop fw left cmd param hnd w
  = Done (gdrom_send_command fw (n_send w + k) cmd)
         (granted cmd param (after_failed_attempts k cmd param w)).
Proof.
  revert left hnd w. induction k as [|k IH]; intros left hnd w Hk Hzero Hh.
  - destruct left as [|left]; [lia|]. rewrite req_loop_step.
    rewrite Nat.add_0_r in *. now rewrite (eqb_false _ _ Hh).
  - destruct left as [|left]; [lia|]. rewrite req_loop_step.
    assert (E : gdrom_send_command fw (n_send w) cmd = 0).
    { rewrite <- (Nat.add_0_r (n_send w)). apply Hzero. lia. }
    rewrite E at 1. cbn [Z.eqb negb after_failed_attempts].
    replace (n_send w + S k)%nat
      with (n_send (failed_attempt cmd param w) + k)%nat by (cbn; lia).
    apply IH; [lia| |].
    + intros i Hi. cbn. rewrite <- Nat.add_succ_r. apply Hzero. lia.
    + cbn. rewrite <- Nat.add_succ_r. exact Hh.
Qed.

Lemma valid_cmd (cmd : Z) :
  0 < cmd < CMD_MAX -> (0 <? cmd) && (cmd <? CMD_MAX) = true.
Proof. intros H. apply andb_true_iff. rewrite !Z.ltb_lt. exact H. Qed.

Lemma req_cmd_unfold cmd param w :
  0 < cmd < CMD_MAX ->
  cdrom_req_cmd fw cmd param w = cdrom_req_cmd_loop fw 10 cmd param 0 w.
Proof.
  intros H. unfold cdrom_req_cmd. run. now rewrite (valid_cmd _ H).
Qed.

(** The loop touches neither the variables nor the check cursor. *)
Lemma req_loop_frame left cmd param hnd w h w1 :
  cdrom_req_cmd_loop fw left cmd param hnd w = Done h w1 ->
  vars w1 = vars w /\ n_check w1 = n_check w /\ n_time w1 = n_time w.
Proof.
  revert hnd w. induction left as [|left IH]; intros hnd w.
  - cbn. intros [= _ <-]. auto.
  - rewrite req_loop_step.
    destruct (negb _).
    + intros [= _ <-]. auto.
    + intros H. apply IH in H. exact H.
Qed.

Lemma exec_without_handle fuel cmd param timeout use_irq w h w1 :
  cdrom_req_cmd fw cmd param (add_event EvMutexLock w) = Done h w1 ->
  h <= 0 ->
  cdrom_exec_cmd_ex fw fuel cmd param timeout use_irq w
  = Done ERR_SYS (add_event EvMutexUnlock (with_vars (set_cmd_hnd h) w1)).
Proof.
  intros Hreq Hh. unfold cdrom_exec_cmd_ex. run. rewrite Hreq.
  apply Z.leb_le in Hh. rewrite Hh. reflexivity.
Qed.

(** C7: [cdrom_req_cmd] sends the command at most 10 times; after each
    attempt that returns 0 it advances the dispatcher and yields; it
    returns the first nonzero handle, or 0 after 10 attempts.  [k]
    failed attempts are [k] sends and leave the variables alone.  When
    the handle is not positive [cdrom_exec_cmd_ex] returns [ERR_SYS] and
    no check of the command is made. *)
Theorem req_cmd_bounded_retries cmd param w :
  0 < cmd < CMD_MAX ->
  (forall k,
      (k < 10)%nat ->
      (forall i, (i < k)%nat -> gdrom_send_command fw (n_send w + i) cmd = 0) ->
      gdrom_send_command fw (n_send w + k) cmd <> 0 ->
      cdrom_req_cmd fw cmd param w
      = Done (gdrom_send_command fw (n_send w + k) cmd)
             (granted cmd param (after_failed_attempts k cmd param w))) /\
  ((forall i, (i < 10)%nat -> gdrom_send_command fw (n_send w + i) cmd = 0) ->
   cdrom_req_cmd fw cmd param w
   = Done 0 (after_failed_attempts 10 cmd param w)) /\
  (forall k,
      trace (after_failed_attempts k cmd param w)
      = trace w
        ++ concat (repeat [EvSendCommand cmd param; EvExecServer; EvThdPass] k)
      /\ n_send (after_failed_attempts k cmd param w) = (n_send w + k)%nat
      /\ n_check (after_failed_attempts k cmd param w) = n_check w
      /\ vars (after_failed_attempts k cmd param w) = vars w) /\
  (forall fuel timeout use_irq h w1,
      cdrom_req_cmd fw cmd param (add_event EvMutexLock w) = Done h w1 ->
      h <= 0 ->
      cdrom_exec_cmd_ex fw fuel cmd param timeout use_irq w
      = Done ERR_SYS (add_event EvMutexUnlock (with_vars (set_cmd_hnd h) w1))
      /\ n_check w1 = n_check w).
Proof.
  intros Hcmd. split; [|split; [|split]].
  - intros k Hk Hzero Hh. rewrite req_cmd_unfold by exact Hcmd.
    now apply req_loop_first_handle.
  - intros Hzero. rewrite req_cmd_unfold by exact Hcmd.
    now apply req_loop_all_fail.
  - intros k. split; [apply after_failed_attempts_trace|].
    split; [apply after_failed_attempts_sends|].
    split; [apply after_failed_attempts_checks|apply after_failed_attempts_vars].
  - intros fuel timeout use_irq h w1 Hreq Hh. split.
    + now apply exec_without_handle.
    + rewrite req_cmd_unfold in Hreq by exact Hcmd.
      apply req_loop_frame in Hreq. now destruct Hreq as (_ & -> & _).
Qed.

(** *** [cdrom_abort_cmd] *)

(** One turn of the wait of [cdrom_abort_cmd], case by case. *)
Lemma abort_wait_body_run timeout begin w :
  abort_wait_body fw timeout begin w
  = let w1 := checked fw (cmd_hnd w) w in
    if is_over (cmd_response w1) then Done (Break ERR_OK) w1
    else if negb (timeout =? 0) then
      let w2 := with_pos bump_time (add_event EvGetTime w1) in
      if elapsed fw begin (n_time w) >=? timeout then
        Done (Break ERR_TIMEOUT)
          (add_event EvGdromInit (add_event EvGdromReset (add_event EvDbglog w2)))
      else Done Continue (add_event EvThdPass w2)
    else Done Continue (add_event EvThdPass w1).
Proof.
  unfold abort_wait_body, is_over, elapsed, response. run.
  destruct (_ || _); [reflexivity|].
  destruct (negb _); [|reflexivity].
  destruct (_ >=? _); reflexivity.
Qed.

Lemma set_callback_run cb p w :
  cdrom_stream_set_callback cb p w = Done tt (callback_set cb p w).
Proof.
  unfold cdrom_stream_set_callback, callback_set. run.
  destruct (_ || _); reflexivity.
Qed.

(** [cdrom_abort_cmd] with a live handle, off the blocking-DMA path:
    the way to the loop, the loop, the cleaning up. *)
Lemma abort_unfold fuel timeout abort_dma w :
  0 < cmd_hnd w ->
  abort_dma && dma_in_progress w && dma_blocking w = false ->
  cdrom_abort_cmd fw fuel timeout abort_dma w
  = match do_while fuel
            (abort_wait_body fw (u32 timeout) (abort_begin fw timeout w))
            (abort_started timeout abort_dma w) with
    | Done x w1 => Done (leave_loop x) (abort_cleanup w1)
    | AssertFailed => AssertFailed
    | OutOfFuel => OutOfFuel
    end.
Proof.
  intros Hh Hpath.
  unfold cdrom_abort_cmd, abort_started, abort_begin, abort_cleanup, clock.
  run. rewrite (leb_false _ _ Hh).
  destruct (abort_dma && dma_in_progress w); cbn [andb] in Hpath;
    [rewrite Hpath|]; run;
    (destruct (u32 timeout =? 0); run;
     match goal with
     | |- context [do_while fuel ?b ?w0] => destruct (do_while fuel b w0)
     end; try reflexivity;
     match goal with
     | |- context [stream_cb ?x =? 0] => destruct (stream_cb x =? 0)
     end; cbn [negb]; try reflexivity;
     rewrite set_callback_run; reflexivity).
Qed.

(** [cdrom_abort_cmd] on the blocking-DMA path: the hardware abort and
    nothing else. *)
Lemma abort_blocking_dma fuel timeout w :
  0 < cmd_hnd w ->
  dma_in_progress w = true ->
  dma_blocking w = true ->
  cdrom_abort_cmd fw fuel timeout true w
  = Done ERR_OK (add_event (EvAbortCommand (cmd_hnd w)) w).
Proof.
  intros Hh Hdip Hblk. unfold cdrom_abort_cmd. run.
  now rewrite (leb_false _ _ Hh), Hdip, Hblk.
Qed.

Lemma abort_cleanup_clears w1 :
  cmd_hnd (abort_cleanup w1) = 0 /\
  stream_mode (abort_cleanup w1) = -1 /\
  stream_cb (abort_cleanup w1) = 0.
Proof.
  unfold abort_cleanup, callback_set. fields.
  destruct (stream_cb w1 =? 0) eqn:E; cbn [negb].
  - apply Z.eqb_eq in E. fields. auto.
  - destruct (_ || _); fields; auto.
Qed.

Lemma abort_cleanup_extends w1 : extends w1 (abort_cleanup w1).
Proof.
  unfold abort_cleanup, callback_set, extends. fields.
  destruct (negb _); [destruct (_ || _)|]; fields;
    rewrite <- ?app_assoc; eexists; reflexivity.
Qed.

Lemma abort_cleanup_sends w1 : n_send (abort_cleanup w1) = n_send w1.
Proof.
  unfold abort_cleanup, callback_set.
  destruct (negb _); [destruct (_ || _)|]; reflexivity.
Qed.

Lemma abort_started_sends timeout abort_dma w :
  n_send (abort_started timeout abort_dma w) = n_send w.
Proof.
  unfold abort_started.
  destruct (negb _); destruct (abort_dma && dma_in_progress w); reflexivity.
Qed.

Lemma abort_wait_body_extends timeout begin :
  keeps extends (abort_wait_body fw timeout begin).
Proof. unfold abort_wait_body. keeps_tac fail. Qed.

Lemma abort_wait_body_no_send timeout begin :
  keeps no_send (abort_wait_body fw timeout begin).
Proof. unfold abort_wait_body. keeps_tac fail. Qed.

(** Whatever the wait saw, the way out of [cdrom_abort_cmd] past the
    loop clears the handle, the stream mode and the callback; the
    hardware abort of the handle is in the trace and no command was
    sent. *)
Lemma abort_post fuel timeout abort_dma w rv w' :
  0 < cmd_hnd w ->
  abort_dma && dma_in_progress w && dma_blocking w = false ->
  cdrom_abort_cmd fw fuel timeout abort_dma w = Done rv w' ->
  cmd_hnd w' = 0 /\ stream_mode w' = -1 /\ stream_cb w' = 0 /\
  In (EvAbortCommand (cmd_hnd w)) (trace w') /\ n_send w' = n_send w.
Proof.
  intros Hh Hpath. rewrite abort_unfold by assumption.
  destruct (do_while _ _ _) as [x w1| |] eqn:E; try discriminate.
  intros [= _ <-].
  destruct (abort_cleanup_clears w1) as (H1 & H2 & H3).
  repeat split; try assumption.
  - apply (extends_In _ w1); [apply abort_cleanup_extends|].
    apply (keeps_do_while extends extends_trans _ _
             (abort_wait_body_extends _ _)) in E.
    apply (extends_In _ _ _ E). unfold abort_started. fields.
    destruct (negb _); fields; rewrite ?in_app_iff; cbn; tauto.
  - apply (keeps_do_while no_send no_send_trans _ _
             (abort_wait_body_no_send _ _)) in E.
    unfold no_send in E.
    now rewrite abort_cleanup_sends, E, abort_started_sends.
Qed.

(** The wait is over within [d] turns. *)
Lemma abort_loop_exits timeout begin d fuel w :
  (d < fuel)%nat ->
  is_over (response fw (n_check w + d) (cmd_hnd w)) = true \/
  (timeout <> 0 /\ timeout <= elapsed fw begin (n_time w + d)) ->
  exists x w', do_while fuel (abort_wait_body fw timeout begin) w = Done x w'.
Proof.
  apply (do_while_exits
           (fun d w =>
              is_over (response fw (n_check w + d) (cmd_hnd w)) = true \/
              (timeout <> 0 /\ timeout <= elapsed fw begin (n_time w + d)))).
  clear d fuel w. intros d w HP. rewrite abort_wait_body_run. cbv zeta. fields.
  destruct (is_over (response fw (n_check w) (cmd_hnd w))) eqn:Eover;
    [eexists _, _; split; [reflexivity|exact I]|].
  destruct (timeout =? 0) eqn:Et; cbn [negb].
  - apply Z.eqb_eq in Et. eexists _, _. split; [reflexivity|].
    destruct d as [|d].
    + rewrite Nat.add_0_r in HP. destruct HP as [HP|[HP _]]; congruence.
    + destruct HP as [HP|[HP _]]; [|congruence]. left. fields.
      now rewrite Nat.add_succ_comm.
  - destruct (elapsed fw begin (n_time w) >=? timeout) eqn:Ee;
      [eexists _, _; split; [reflexivity|exact I]|].
    eexists _, _. split; [reflexivity|].
    assert (Hlt : elapsed fw begin (n_time w) < timeout).
    { destruct (Z.geb_spec (elapsed fw begin (n_time w)) timeout);
        [discriminate|assumption]. }
    destruct d as [|d].
    + rewrite !Nat.add_0_r in HP. destruct HP as [HP|[_ HP]]; [congruence|lia].
    + fields. rewrite !Nat.add_succ_comm. exact HP.
Qed.

(** [cdrom_abort_cmd] returns when its wait settles. *)
Lemma abort_returns fuel timeout abort_dma w d :
  0 < cmd_hnd w ->
  abort_dma && dma_in_progress w && dma_blocking w = false ->
  (d < fuel)%nat ->
  abort_settles fw timeout w d ->
  exists rv w', cdrom_abort_cmd fw fuel timeout abort_dma w = Done rv w'.
Proof.
  intros Hh Hpath Hd Hset. rewrite abort_unfold by assumption.
  destruct (abort_loop_exits (u32 timeout) (abort_begin fw timeout w) d fuel
              (abort_started timeout abort_dma w) Hd) as (x & w1 & E).
  - unfold abort_settles in Hset. unfold abort_started, abort_begin.
    destruct (abort_dma && dma_in_progress w);
      (destruct Hset as [Hover|[Hne Hel]];
       [left; destruct (negb _); exact Hover|]);
      right; (split; [exact Hne|]);
      rewrite (eqb_false _ _ Hne); cbn [negb]; fields;
      exact Hel.
  - rewrite E. eexists _, _. reflexivity.
Qed.

(** C2, amended: [cdrom_abort_cmd] with a live handle clears the handle,
    the stream mode and the callback on every way out but one: when
    [abort_dma] is asked for and a blocking DMA transfer is in progress
    it issues the hardware abort and returns, and leaves the three to
    the blocked caller.  Off that path it returns as soon as its wait
    settles. *)
Theorem abort_clears_unless_blocking_dma fuel timeout abort_dma w :
  0 < cmd_hnd w ->
  (abort_dma = true -> dma_in_progress w = true -> dma_blocking w = true ->
   cdrom_abort_cmd fw fuel timeout abort_dma w
   = Done ERR_OK (add_event (EvAbortCommand (cmd_hnd w)) w)) /\
  (abort_dma && dma_in_progress w && dma_blocking w = false ->
   (forall rv w',
       cdrom_abort_cmd fw fuel timeout abort_dma w = Done rv w' ->
       cmd_hnd w' = 0 /\ stream_mode w' = -1 /\ stream_cb w' = 0) /\
   (forall d,
       (d < fuel)%nat ->
       abort_settles fw timeout w d ->
       exists rv w',
         cdrom_abort_cmd fw fuel timeout abort_dma w = Done rv w' /\
         cmd_hnd w' = 0 /\ stream_mode w' = -1 /\ stream_cb w' = 0)).
Proof.
  intros Hh. split.
  - intros -> Hdip Hblk. now apply abort_blocking_dma.
  - intros Hpath. split.
    + intros rv w' Hrun.
      destruct (abort_post _ _ _ _ _ _ Hh Hpath Hrun) as (H1 & H2 & H3 & _).
      auto.
    + intros d Hd Hset.
      destruct (abort_returns _ _ _ _ _ Hh Hpath Hd Hset) as (rv & w' & Hrun).
      exists rv, w'. split; [exact Hrun|].
      destruct (abort_post _ _ _ _ _ _ Hh Hpath Hrun) as (H1 & H2 & H3 & _).
      auto.
Qed.

(** *** [cdrom_poll_cmd] and [cdrom_exec_cmd_ex] *)

Lemma poll_body_run fuel hnd timeout begin w :
  poll_body fw fuel hnd timeout begin w
  = let w1 := checked fw hnd w in
    if negb (is_busy (cmd_response w1)) then Done (Break tt) w1
    else if negb (timeout =? 0) then
      let w2 := with_pos bump_time (add_event EvGetTime w1) in
      if elapsed fw begin (n_time w) >=? u32 timeout then
        match cdrom_abort_cmd fw fuel 500 false w2 with
        | Done _ w3 => Done (Return ERR_TIMEOUT) (add_event EvDbglog w3)
        | AssertFailed => AssertFailed
        | OutOfFuel => OutOfFuel
        end
      else Done Continue (add_event EvThdPass w2)
    else Done Continue (add_event EvThdPass w1).
Proof.
  unfold poll_body, is_busy, elapsed, response. run. rewrite negb_orb.
  destruct (_ && _); [reflexivity|].
  destruct (negb _); [|reflexivity].
  destruct (_ >=? _); [|reflexivity].
  destruct (cdrom_abort_cmd _ _ _ _ _); reflexivity.
Qed.

Lemma turns_poll_cursor hnd j w :
  n_check (turns j (poll_turn fw hnd) w) = (n_check w + j)%nat /\
  n_time (turns j (poll_turn fw hnd) w) = (n_time w + j)%nat /\
  cmd_hnd (turns j (poll_turn fw hnd) w) = cmd_hnd w.
Proof.
  revert w. induction j as [|j IH]; intros w; cbn [turns].
  - now rewrite !Nat.add_0_r.
  - destruct (IH (poll_turn fw hnd w)) as (-> & -> & ->).
    unfold poll_turn. fields. rewrite !Nat.add_succ_comm. auto.
Qed.

Lemma turns_idle_cursor hnd k w :
  n_check (turns k (idle_turn fw hnd) w) = (n_check w + k)%nat /\
  n_time (turns k (idle_turn fw hnd) w) = n_time w.
Proof.
  revert w. induction k as [|k IH]; intros w; cbn [turns].
  - now rewrite !Nat.add_0_r.
  - destruct (IH (idle_turn fw hnd w)) as (-> & ->).
    unfold idle_turn. fields. rewrite !Nat.add_succ_comm. auto.
Qed.

(** The loop of a poll that has a timeout and sees nothing but busy
    responses until, in turn [j], the timeout has elapsed: it hands
    over to [cdrom_abort_cmd(500, false)]. *)
Lemma poll_loop_times_out fuel2 hnd timeout begin j :
  timeout <> 0 ->
  forall fuel w,
    (j < fuel)%nat ->
    (forall i, (i <= j)%nat ->
               is_busy (response fw (n_check w + i) hnd) = true) ->
    (forall i, (i < j)%nat ->
               elapsed fw begin (n_time w + i) < u32 timeout) ->
    u32 timeout <= elapsed fw begin (n_time w + j) ->
    do_while fuel (poll_body fw fuel2 hnd timeout begin) w
    = match cdrom_abort_cmd fw fuel2 500 false (poll_gave_up fw hnd j w) with
      | Done _ w3 => Done (inr ERR_TIMEOUT) (add_event EvDbglog w3)
      | AssertFailed => AssertFailed
      | OutOfFuel => OutOfFuel
      end.
Proof.
  intros Ht. induction j as [|j IH]; intros fuel w Hfuel Hbusy Hearly Hlate;
    (destruct fuel as [|fuel]; [lia|]); cbn [do_while];
    rewrite poll_body_run; cbv zeta; fields;
    (assert (B0 : is_busy (response fw (n_check w) hnd) = true)
       by (rewrite <- (Nat.add_0_r (n_check w)); apply Hbusy; lia));
    rewrite B0; cbn [negb];
    rewrite (eqb_false _ _ Ht); cbn [negb].
  - rewrite Nat.add_0_r in Hlate.
    apply Z.geb_le in Hlate. rewrite Hlate.
    unfold poll_gave_up. cbn [turns].
    destruct (cdrom_abort_cmd _ _ _ _ _); reflexivity.
  - assert (E : (elapsed fw begin (n_time w) >=? u32 timeout) = false).
    { specialize (Hearly O ltac:(lia)). rewrite Nat.add_0_r in Hearly.
      destruct (Z.geb_spec (elapsed fw begin (n_time w)) (u32 timeout));
        [lia|reflexivity]. }
    rewrite E. unfold poll_gave_up. cbn [turns].
    rewrite IH; [reflexivity|lia| | |]; unfold poll_turn; fields.
    + intros i Hi. rewrite Nat.add_succ_comm. apply Hbusy. lia.
    + intros i Hi. rewrite Nat.add_succ_comm. apply Hearly. lia.
    + rewrite Nat.add_succ_comm. exact Hlate.
Qed.

(** The loop of a poll without timeout, when the response stops being
    busy in turn [k]. *)
Lemma poll_loop_settles fuel2 hnd begin k :
  forall fuel w,
    (k < fuel)%nat ->
    (forall i, (i < k)%nat ->
               is_busy (response fw (n_check w + i) hnd) = true) ->
    is_busy (response fw (n_check w + k) hnd) = false ->
    do_while fuel (poll_body fw fuel2 hnd 0 begin) w
    = Done (inl tt) (checked fw hnd (turns k (idle_turn fw hnd) w)).
Proof.
  induction k as [|k IH]; intros fuel w Hfuel Hbusy Hfree;
    (destruct fuel as [|fuel]; [lia|]); cbn [do_while];
    rewrite poll_body_run; cbv zeta; fields.
  - rewrite Nat.add_0_r in Hfree. now rewrite Hfree.
  - assert (B0 : is_busy (response fw (n_check w) hnd) = true)
      by (rewrite <- (Nat.add_0_r (n_check w)); apply Hbusy; lia).
    rewrite B0. cbn [negb Z.eqb turns].
    apply IH; [lia| |]; unfold idle_turn; fields.
    + intros i Hi. rewrite Nat.add_succ_comm. apply Hbusy. lia.
    + rewrite Nat.add_succ_comm. exact Hfree.
Qed.

Lemma poll_unfold fuel hnd timeout w :
  cdrom_poll_cmd fw fuel hnd timeout w
  = match do_while fuel
            (poll_body fw fuel hnd timeout
               (if negb (timeout =? 0) then clock fw (n_time w) else 0))
            (if negb (timeout =? 0) then poll_started w else w) with
    | Done (inl _) w' => Done ERR_OK w'
    | Done (inr rv) w' => Done rv w'
    | AssertFailed => AssertFailed
    | OutOfFuel => OutOfFuel
    end.
Proof.
  unfold cdrom_poll_cmd, poll_started, clock. run.
  destruct (negb (timeout =? 0)); run;
    (destruct (do_while _ _ _) as [[?|?] ?| |]; reflexivity).
Qed.

(** A poll ends well or by timeout. *)
Lemma poll_result fuel hnd timeout w rv w' :
  cdrom_poll_cmd fw fuel hnd timeout w = Done rv w' ->
  rv = ERR_OK \/ rv = ERR_TIMEOUT.
Proof.
  rewrite poll_unfold.
  destruct (do_while _ _ _) as [x w1| |] eqn:E; try discriminate.
  destruct x as [u|rv1]; intros [= <- <-]; [now left|].
  revert E.
  apply (do_while_inv (fun _ => True)
           (fun x _ => match x with
                       | inl _ => True
                       | inr rv => rv = ERR_OK \/ rv = ERR_TIMEOUT
                       end)); [|exact I].
  intros w0 r w0' _. rewrite poll_body_run. cbv zeta.
  destruct (negb (is_busy _)); [now intros [= <- _]|].
  destruct (negb (timeout =? 0)); [|now intros [= <- _]].
  destruct (_ >=? _); [|now intros [= <- _]].
  destruct (cdrom_abort_cmd _ _ _ _ _); try discriminate.
  intros [= <- _]. now right.
Qed.

Lemma exec_wait_result fuel use_irq timeout w rv w' :
  exec_wait fw fuel use_irq timeout w = Done rv w' ->
  rv = ERR_OK \/ rv = ERR_TIMEOUT.
Proof.
  unfold exec_wait. destruct use_irq.
  - run.
    destruct (_ || _);
      [destruct (sem_wait _ _ _ _ _); try discriminate|];
      intros [= <- _]; now left.
  - run. apply poll_result.
Qed.

(** [cdrom_exec_cmd_ex] once it holds a handle: the wait, then the
    result read off the response and the first status word. *)
Lemma exec_unfold fuel cmd param timeout use_irq w h w1 :
  cdrom_req_cmd fw cmd param (add_event EvMutexLock w) = Done h w1 ->
  0 < h ->
  cdrom_exec_cmd_ex fw fuel cmd param timeout use_irq w
  = match exec_wait fw fuel use_irq timeout (with_vars (set_cmd_hnd h) w1) with
    | Done rv w2 =>
        Done (result_of_outcome (err_eqb rv ERR_TIMEOUT)
                (cmd_response w2) (nth 0 (cmd_status w2) 0))
             (exec_finish w2)
    | AssertFailed => AssertFailed
    | OutOfFuel => OutOfFuel
    end.
Proof.
  intros Hreq Hh.
  destruct (exec_wait fw fuel use_irq timeout (with_vars (set_cmd_hnd h) w1))
    as [rv w2| |] eqn:E.
  - pose proof (exec_wait_result _ _ _ _ _ _ E) as Hrv.
    revert E. unfold cdrom_exec_cmd_ex, exec_wait, exec_finish,
      result_of_outcome. run. rewrite Hreq, (leb_false _ _ Hh).
    destruct use_irq; run; intros ->; run;
      (destruct Hrv as [-> | ->]; cbn [err_eqb negb];
       repeat (run; match goal with
                    | |- context [if ?b then _ else _] => destruct b
                    end); reflexivity).
  - revert E. unfold cdrom_exec_cmd_ex, exec_wait. run.
    rewrite Hreq, (leb_false _ _ Hh).
    destruct use_irq; run; now intros ->.
  - revert E. unfold cdrom_exec_cmd_ex, exec_wait. run.
    rewrite Hreq, (leb_false _ _ Hh).
    destruct use_irq; run; now intros ->.
Qed.

(** *** Waiting for the vertical blank *)

Lemma vblank_busy_run w :
  cmd_in_progress w = true ->
  is_busy (response fw (n_check w) (cmd_hnd w)) = true ->
  cdrom_vblank fw w = Done tt (checked fw (cmd_hnd w) w).
Proof.
  intros Hcip Hbusy. unfold cdrom_vblank. run. rewrite Hcip. run.
  unfold is_busy, response in Hbusy. rewrite <- negb_orb, Hbusy. reflexivity.
Qed.

Lemma vblank_done_run w :
  cmd_in_progress w = true ->
  dma_in_progress w = false ->
  is_busy (response fw (n_check w) (cmd_hnd w)) = false ->
  cdrom_vblank fw w
  = Done tt
      (add_event EvThdSchedule
         (with_vars (set_cmd_done (cmd_done w + 1))
            (with_vars (set_cmd_in_progress false)
               (checked fw (cmd_hnd w) w)))).
Proof.
  intros Hcip Hdip Hfree. unfold cdrom_vblank. run. rewrite Hcip. run.
  unfold is_busy, response in Hfree. rewrite <- negb_orb, Hfree. run.
  rewrite Hdip. reflexivity.
Qed.

Lemma turns_vblank_frame h k w :
  let w' := turns k (vblank_turn fw h) w in
  n_check w' = (n_check w + k)%nat /\
  n_irq w' = (n_irq w + k)%nat /\
  cmd_hnd w' = cmd_hnd w /\
  cmd_done w' = cmd_done w /\
  cmd_in_progress w' = cmd_in_progress w /\
  dma_in_progress w' = dma_in_progress w.
Proof.
  revert w. induction k as [|k IH]; intros w; cbn [turns].
  - cbn. now rewrite !Nat.add_0_r.
  - destruct (IH (vblank_turn fw h w)) as (H1 & H2 & H3 & H4 & H5 & H6).
    cbv zeta. rewrite H1, H2, H3, H4, H5, H6. unfold vblank_turn. fields.
    rewrite !Nat.add_succ_comm. auto 10.
Qed.

Lemma vblank_wakes_response h w :
  cmd_response (vblank_wakes fw h w) = response fw (n_check w) h /\
  cmd_status (vblank_wakes fw h w) = status fw (n_check w) h.
Proof. split; reflexivity. Qed.

Lemma sem_wait_turn_vblank w :
  cmd_done w = 0 ->
  irq_line fw (n_irq w) = IrqVblank ->
  sem_wait_turn fw cmd_done set_cmd_done w
  = match cdrom_vblank fw (with_pos bump_irq w) with
    | Done _ w' => Done Continue w'
    | AssertFailed => AssertFailed
    | OutOfFuel => OutOfFuel
    end.
Proof.
  intros Hsem Hirq. unfold sem_wait_turn, deliver_irq. run.
  rewrite Hsem. cbn [Z.ltb Z.compare]. run. rewrite Hirq.
  destruct (cdrom_vblank _ _) as [[] ?| |]; reflexivity.
Qed.

(** [sem_wait(&cmd_done)] when the next [k] interrupts are vertical
    blanks that find the command busy and the one after them is a
    vertical blank that finds it done. *)
Lemma sem_wait_cmd_done_run k :
  forall fuel w,
    (S k < fuel)%nat ->
    cmd_in_progress w = true ->
    dma_in_progress w = false ->
    cmd_done w = 0 ->
    (forall i, (i <= k)%nat -> irq_line fw (n_irq w + i) = IrqVblank) ->
    (forall i, (i < k)%nat ->
       is_busy (response fw (n_check w + i) (cmd_hnd w)) = true) ->
    is_busy (response fw (n_check w + k) (cmd_hnd w)) = false ->
    do_while fuel (sem_wait_turn fw cmd_done set_cmd_done) w
    = Done (inl tt)
        (vblank_wakes fw (cmd_hnd w) (turns k (vblank_turn fw (cmd_hnd w)) w)).
Proof.
  induction k as [|k IH]; intros fuel w Hfuel Hcip Hdip Hsem Hirq Hbusy Hfree;
    (destruct fuel as [|fuel]; [lia|]); cbn [do_while];
    (rewrite sem_wait_turn_vblank;
     [|exact Hsem|rewrite <- (Nat.add_0_r (n_irq w)); apply Hirq; lia]).
  - rewrite Nat.add_0_r in Hfree.
    rewrite vblank_done_run; try assumption.
    destruct fuel as [|fuel]; [lia|]. cbn [do_while turns].
    unfold sem_wait_turn. run. rewrite Hsem. reflexivity.
  - rewrite vblank_busy_run;
      [|exact Hcip
       |fields; rewrite <- (Nat.add_0_r (n_check w)); apply Hbusy; lia].
    cbn [turns].
    change (checked fw (cmd_hnd (with_pos bump_irq w)) (with_pos bump_irq w))
      with (vblank_turn fw (cmd_hnd w) w).
    rewrite (IH fuel (vblank_turn fw (cmd_hnd w) w));
      [reflexivity|lia|exact Hcip|exact Hdip|exact Hsem| | |];
      unfold vblank_turn; fields.
    + intros i Hi. rewrite Nat.add_succ_comm. apply Hirq. lia.
    + intros i Hi. rewrite Nat.add_succ_comm. apply Hbusy. lia.
    + rewrite Nat.add_succ_comm. exact Hfree.
Qed.

Lemma exec_finish_clears w2 :
  cmd_response w2 <> STREAMING \/ cmd_hnd w2 = 0 ->
  cmd_hnd (exec_finish w2) = 0.
Proof.
  unfold exec_finish. intros [H|H].
  - now rewrite (eqb_false _ _ H).
  - destruct (negb _); fields; [reflexivity|exact H].
Qed.

Lemma exec_finish_extends w2 : extends w2 (exec_finish w2).
Proof.
  unfold exec_finish, extends. destruct (negb _); fields; eexists; reflexivity.
Qed.

(** C3: once [cdrom_exec_cmd_ex] holds a handle, its result is read
    off the end of the wait as the specification says: a timeout of the
    poll is passed on; else [COMPLETED] and [STREAMING] give [ERR_OK],
    [NO_ACTIVE] gives [ERR_NO_ACTIVE], else a first status word of 2
    gives [ERR_NO_DISC], of 6 [ERR_DISC_CHG], and the rest [ERR_SYS].
    The call returns whenever the wait does.  When it polls without
    timeout and the firmware leaves the busy responses in turn [k], it
    returns, and the response and status of that turn decide; when it
    waits for the interrupt, the first check decides if it is not busy,
    and else the first vertical blank that finds the command done. *)
Theorem exec_result_mapping fuel cmd param timeout use_irq w h w1 :
  cdrom_req_cmd fw cmd param (add_event EvMutexLock w) = Done h w1 ->
  0 < h ->
  cdrom_exec_cmd_ex fw fuel cmd param timeout use_irq w
  = match exec_wait fw fuel use_irq timeout (with_vars (set_cmd_hnd h) w1) with
    | Done rv w2 =>
        Done (result_of_outcome (err_eqb rv ERR_TIMEOUT)
                (cmd_response w2) (nth 0 (cmd_status w2) 0))
             (exec_finish w2)
    | AssertFailed => AssertFailed
    | OutOfFuel => OutOfFuel
    end
  /\
  (forall k,
      use_irq = false -> timeout = 0 -> (k < fuel)%nat ->
      (forall i, (i < k)%nat ->
                 is_busy (response fw (n_check w1 + i) h) = true) ->
      is_busy (response fw (n_check w1 + k) h) = false ->
      exists w',
        cdrom_exec_cmd_ex fw fuel cmd param timeout use_irq w
        = Done (result_of_outcome false
                  (response fw (n_check w1 + k) h)
                  (nth 0 (status fw (n_check w1 + k) h) 0)) w')
  /\
  (use_irq = true ->
   is_busy (response fw (n_check w1) h) = false ->
   exists w',
     cdrom_exec_cmd_ex fw fuel cmd param timeout use_irq w
     = Done (result_of_outcome false
               (response fw (n_check w1) h)
               (nth 0 (status fw (n_check w1) h) 0)) w')
  /\
  (forall k,
      use_irq = true -> (S k < fuel)%nat ->
      dma_in_progress w1 = false ->
      cmd_done w1 = 0 ->
      is_busy (response fw (n_check w1) h) = true ->
      (forall i, (i <= k)%nat -> irq_line fw (n_irq w1 + i) = IrqVblank) ->
      (forall i, (i < k)%nat ->
                 is_busy (response fw (S (n_check w1) + i) h) = true) ->
      is_busy (response fw (S (n_check w1) + k) h) = false ->
      exists w',
        cdrom_exec_cmd_ex fw fuel cmd param timeout use_irq w
        = Done (result_of_outcome false
                  (response fw (S (n_check w1) + k) h)
                  (nth 0 (status fw (S (n_check w1) + k) h) 0)) w').
Proof.
  intros Hreq Hh. split; [now apply exec_unfold|]. split; [|split].
  - intros k -> -> Hk Hbusy Hfree.
    rewrite (exec_unfold _ _ _ _ _ _ _ _ Hreq Hh).
    unfold exec_wait. run. rewrite poll_unfold. cbn [Z.eqb negb].
    rewrite (poll_loop_settles fuel h 0 k);
      [| exact Hk | exact Hbusy | exact Hfree].
    eexists. cbn [err_eqb]. fields.
    destruct (turns_idle_cursor h k (with_vars (set_cmd_hnd h) w1)) as (-> & _).
    reflexivity.
  - intros -> Hfree.
    rewrite (exec_unfold _ _ _ _ _ _ _ _ Hreq Hh).
    unfold exec_wait. run. unfold is_busy, response in Hfree. rewrite Hfree.
    eexists. reflexivity.
  - intros k -> Hk Hdip Hsem Hfirst Hirq Hbusy Hfree.
    rewrite (exec_unfold _ _ _ _ _ _ _ _ Hreq Hh).
    unfold exec_wait. run. unfold is_busy, response in Hfirst.
    rewrite Hfirst. unfold sem_wait. run.
    match goal with
    | |- context [do_while fuel _ ?w0] => set (ws := w0)
    end.
    rewrite (sem_wait_cmd_done_run k fuel ws); try assumption; try reflexivity.
    eexists. cbn [err_eqb].
    destruct (vblank_wakes_response (cmd_hnd ws)
                (turns k (vblank_turn fw (cmd_hnd ws)) ws)) as (-> & ->).
    destruct (turns_vblank_frame (cmd_hnd ws) k ws) as (-> & _).
    subst ws. fields. reflexivity.
Qed.

(** The timeout path of [cdrom_exec_cmd_ex], world by world. *)
Lemma exec_times_out fuel cmd param timeout w h w1 j d :
  cdrom_req_cmd fw cmd param (add_event EvMutexLock w) = Done h w1 ->
  0 < h ->
  timeout <> 0 ->
  let w2 := with_vars (set_cmd_hnd h) w1 in
  let begin := clock fw (n_time w2) in
  let wa := poll_gave_up fw h j (poll_started w2) in
  (forall i, (i <= j)%nat -> is_busy (response fw (n_check w2 + i) h) = true) ->
  (forall i, (i < j)%nat ->
             elapsed fw begin (S (n_time w2) + i) < u32 timeout) ->
  u32 timeout <= elapsed fw begin (S (n_time w2) + j) ->
  abort_settles fw 500 wa d ->
  (j < fuel)%nat ->
  (d < fuel)%nat ->
  cmd_hnd wa = h /\
  exists r wb,
    cdrom_abort_cmd fw fuel 500 false wa = Done r wb /\
    cdrom_poll_cmd fw fuel h timeout w2 = Done ERR_TIMEOUT (add_event EvDbglog wb) /\
    cdrom_exec_cmd_ex fw fuel cmd param timeout false w
    = Done ERR_TIMEOUT (exec_finish (add_event EvDbglog wb)).
Proof.
  intros Hreq Hh Ht w2 begin wa Hbusy Hearly Hlate Hset Hj Hd.
  assert (Hwa : cmd_hnd wa = h).
  { unfold wa, poll_gave_up. fields.
    destruct (turns_poll_cursor h j (poll_started w2)) as (_ & _ & ->).
    reflexivity. }
  split; [exact Hwa|].
  destruct (abort_returns fuel 500 false wa d) as (r & wb & Habort);
    [lia|reflexivity|exact Hd|exact Hset|].
  assert (Hpoll : cdrom_poll_cmd fw fuel h timeout w2
                  = Done ERR_TIMEOUT (add_event EvDbglog wb)).
  { rewrite poll_unfold, (eqb_false _ _ Ht). cbn [negb]. fold begin.
    rewrite (poll_loop_times_out fuel h timeout begin j Ht);
      [fold wa; now rewrite Habort|exact Hj|exact Hbusy|exact Hearly|exact Hlate]. }
  exists r, wb. split; [exact Habort|]. split; [exact Hpoll|].
  rewrite (exec_unfold _ _ _ _ _ _ _ _ Hreq Hh).
  unfold exec_wait. run. fold w2. rewrite Hpoll. reflexivity.
Qed.

(** The timeout path were the [mutex_lock] of [cdrom_abort_cmd] to
    return, as every [mutex_lock] does in a run of the model: a poll
    with a timeout that sees the command busy in every turn up to turn
    [j], the one in which the clock shows the timeout elapsed, calls
    [cdrom_abort_cmd(500, false)] and goes on to [ERR_TIMEOUT]; when
    that abort settles, the run of [cdrom_exec_cmd_ex] ends in
    [ERR_TIMEOUT] with the handle cleared and the hardware abort of the
    handle in its trace.  Where the call stops when the mutex is a plain
    one is told further down. *)
Theorem poll_timeout_aborts fuel cmd param timeout w h w1 j d :
  cdrom_req_cmd fw cmd param (add_event EvMutexLock w) = Done h w1 ->
  0 < h ->
  timeout <> 0 ->
  let w2 := with_vars (set_cmd_hnd h) w1 in
  let begin := clock fw (n_time w2) in
  let wa := poll_gave_up fw h j (poll_started w2) in
  (forall i, (i <= j)%nat -> is_busy (response fw (n_check w2 + i) h) = true) ->
  (forall i, (i < j)%nat ->
             elapsed fw begin (S (n_time w2) + i) < u32 timeout) ->
  u32 timeout <= elapsed fw begin (S (n_time w2) + j) ->
  abort_settles fw 500 wa d ->
  (j < fuel)%nat ->
  (d < fuel)%nat ->
  exists r wb,
    cdrom_abort_cmd fw fuel 500 false wa = Done r wb /\
    cdrom_poll_cmd fw fuel h timeout w2 = Done ERR_TIMEOUT (add_event EvDbglog wb) /\
    exists w',
      cdrom_exec_cmd_ex fw fuel cmd param timeout false w = Done ERR_TIMEOUT w' /\
      cmd_hnd w' = 0 /\
      In (EvAbortCommand h) (trace w').
Proof.
  intros Hreq Hh Ht w2 begin wa Hbusy Hearly Hlate Hset Hj Hd.
  destruct (exec_times_out fuel cmd param timeout w h w1 j d Hreq Hh Ht
              Hbusy Hearly Hlate Hset Hj Hd)
    as (Hwa & r & wb & Habort & Hpoll & Hexec).
  fold w2 wa in Hwa, Habort, Hpoll, Hexec.
  destruct (abort_post fuel 500 false wa r wb
              ltac:(rewrite Hwa; exact Hh) eq_refl Habort)
    as (Hclr & _ & _ & Hin & _).
  rewrite Hwa in Hin.
  exists r, wb. split; [exact Habort|]. split; [exact Hpoll|].
  eexists. split; [exact Hexec|]. split.
  - apply exec_finish_clears. right. exact Hclr.
  - apply (extends_In _ _ _ (exec_finish_extends _)). fields.
    apply in_or_app. now left.
Qed.

(** *** The mutex on the timeout path *)

Lemma holds_on_refl w : holds_on w w.
Proof. exists []. split; [now rewrite app_nil_r|intros []]. Qed.

Lemma holds_on_trans a b c : holds_on a b -> holds_on b c -> holds_on a c.
Proof.
  intros (e1 & H1 & N1) (e2 & H2 & N2). exists (e1 ++ e2). split.
  - now rewrite H2, H1, app_assoc.
  - rewrite in_app_iff. tauto.
Qed.

Lemma holds_on_event e w : e <> EvMutexUnlock -> holds_on w (add_event e w).
Proof.
  intros He. exists [e]. split; [reflexivity|].
  intros [H|[]]. now apply He.
Qed.

Lemma req_loop_holds_on left cmd param hnd w h w1 :
  cdrom_req_cmd_loop fw left cmd param hnd w = Done h w1 -> holds_on w w1.
Proof.
  revert hnd w. induction left as [|left IH]; intros hnd w.
  - intros [= _ <-]. apply holds_on_refl.
  - rewrite req_loop_step.
    assert (Hsend : holds_on w (granted cmd param w)).
    { exists [EvSendCommand cmd param]. split; [reflexivity|].
      intros [H|[]]. discriminate H. }
    destruct (negb _).
    + intros [= _ <-]. exact Hsend.
    + intros H. apply IH in H. refine (holds_on_trans _ _ _ _ H).
      unfold failed_attempt.
      apply (holds_on_trans _ _ _ Hsend).
      apply (holds_on_trans _ (add_event EvExecServer (granted cmd param w)));
        apply holds_on_event; discriminate.
Qed.

Lemma checked_holds_on h w : holds_on w (checked fw h w).
Proof.
  exists [EvExecServer; EvCheckCommand h]. split.
  - unfold checked. fields. now rewrite <- app_assoc.
  - cbn. intros [H|[H|[]]]; discriminate H.
Qed.

Lemma poll_turn_holds_on h w : holds_on w (poll_turn fw h w).
Proof.
  unfold poll_turn.
  apply (holds_on_trans _ _ _ (checked_holds_on h w)).
  apply (holds_on_trans _ (with_pos bump_time
                             (add_event EvGetTime (checked fw h w)))).
  - exists [EvGetTime]. split; [reflexivity|].
    intros [H|[]]. discriminate H.
  - apply holds_on_event. discriminate.
Qed.

Lemma turns_poll_holds_on h j w : holds_on w (turns j (poll_turn fw h) w).
Proof.
  revert w. induction j as [|j IH]; intros w; cbn [turns].
  - apply holds_on_refl.
  - apply (holds_on_trans _ _ _ (poll_turn_holds_on h w)), IH.
Qed.

Lemma poll_gave_up_holds_on h j w : holds_on w (poll_gave_up fw h j w).
Proof.
  unfold poll_gave_up.
  apply (holds_on_trans _ _ _ (turns_poll_holds_on h j w)).
  apply (holds_on_trans _ _ _ (checked_holds_on h _)).
  exists [EvGetTime]. split; [reflexivity|].
  intros [H|[]]. discriminate H.
Qed.

(** On the timeout path [cdrom_abort_cmd] takes the mutex that
    [cdrom_exec_cmd_ex] took and has not released: in the trace of the
    call two [mutex_lock] come with no [mutex_unlock] between them. *)
Theorem timeout_path_locks_twice fuel cmd param timeout w h w1 j d :
  cdrom_req_cmd fw cmd param (add_event EvMutexLock w) = Done h w1 ->
  0 < h ->
  timeout <> 0 ->
  let w2 := with_vars (set_cmd_hnd h) w1 in
  let begin := clock fw (n_time w2) in
  let wa := poll_gave_up fw h j (poll_started w2) in
  (forall i, (i <= j)%nat -> is_busy (response fw (n_check w2 + i) h) = true) ->
  (forall i, (i < j)%nat ->
             elapsed fw begin (S (n_time w2) + i) < u32 timeout) ->
  u32 timeout <= elapsed fw begin (S (n_time w2) + j) ->
  abort_settles fw 500 wa d ->
  (j < fuel)%nat ->
  (d < fuel)%nat ->
  exists w' held rest,
    cdrom_exec_cmd_ex fw fuel cmd param timeout false w = Done ERR_TIMEOUT w' /\
    trace w'
    = trace w
      ++ EvMutexLock :: held ++ EvMutexLock :: EvAbortCommand h :: rest /\
    ~ In EvMutexUnlock held.
Proof.
  intros Hreq Hh Ht w2 begin wa Hbusy Hearly Hlate Hset Hj Hd.
  destruct (exec_times_out fuel cmd param timeout w h w1 j d Hreq Hh Ht
              Hbusy Hearly Hlate Hset Hj Hd)
    as (Hwa & r & wb & Habort & _ & Hexec).
  fold w2 wa in Hwa, Habort, Hexec.
  assert (Hheld : holds_on (add_event EvMutexLock w) wa).
  { apply (holds_on_trans _ w1).
    - revert Hreq. unfold cdrom_req_cmd. run.
      destruct (_ && _); [|discriminate]. apply req_loop_holds_on.
    - apply (holds_on_trans _ (poll_started w2)).
      + exists [EvGetTime]. split; [reflexivity|].
        intros [H|[]]. discriminate H.
      + apply poll_gave_up_holds_on. }
  destruct Hheld as (held & Htrace & Hno).
  assert (Hrest : extends (abort_started 500 false wa) wb).
  { revert Habort. rewrite abort_unfold by (rewrite ?Hwa; auto).
    destruct (do_while _ _ _) as [x wl| |] eqn:E; try discriminate.
    intros [= _ <-].
    apply (keeps_do_while extends extends_trans _ _
             (abort_wait_body_extends _ _)) in E.
    apply (extends_trans _ _ _ E), abort_cleanup_extends. }
  destruct Hrest as (evs & Hevs).
  destruct (exec_finish_extends (add_event EvDbglog wb)) as (fin & Hfin).
  exists (exec_finish (add_event EvDbglog wb)), held.
  eexists. split; [exact Hexec|]. split; [|exact Hno].
  rewrite Hfin. fields. rewrite Hevs. unfold abort_started.
  change (negb (u32 500 =? 0)) with true. fields.
  rewrite Htrace. fields. rewrite Hwa.
  rewrite <- !app_assoc. cbn [app]. reflexivity.
Qed.

(** *** The callback of a PIO stream request *)

Lemma stream_pio_body_run w :
  stream_pio_body fw w
  = let h := cmd_hnd w in
    let w1 := checked fw h w in
    if negb (keeps_streaming (cmd_response w1)) then
      if cmd_response w1 <? 0 then Done (Break ERR_SYS) w1
      else Done (Break ERR_OK) (with_vars (set_cmd_hnd 0) w1)
    else
      let c := gdrom_pio_check fw (n_pio_check w) in
      if fst c =? 0 then
        Done (Break ERR_OK)
          (if (snd c =? 0) && negb (stream_cb w =? 0) then pio_last_turn fw h w
           else pio_checked fw h w)
      else Done Continue (pio_turn fw h w).
Proof.
  unfold stream_pio_body, keeps_streaming, pio_last_turn, pio_turn, pio_checked.
  run. destruct (_ <? 0); [reflexivity|]. cbn [negb andb].
  destruct (_ || _); [reflexivity|]. cbn [negb].
  destruct (fst _ =? 0); [|reflexivity].
  destruct (_ && _); reflexivity.
Qed.

Lemma turns_pio_frame h k w :
  let w' := turns k (pio_turn fw h) w in
  n_check w' = (n_check w + k)%nat /\
  n_pio_check w' = (n_pio_check w + k)%nat /\
  cmd_hnd w' = cmd_hnd w /\
  stream_cb w' = stream_cb w /\
  stream_cb_param w' = stream_cb_param w /\
  trace w'
  = trace w
    ++ concat (repeat [EvExecServer; EvCheckCommand h; EvPioCheck h; EvThdPass] k).
Proof.
  revert w. induction k as [|k IH]; intros w; cbn [turns].
  - cbn. now rewrite !Nat.add_0_r, app_nil_r.
  - destruct (IH (pio_turn fw h w)) as (H1 & H2 & H3 & H4 & H5 & H6).
    cbv zeta. rewrite H1, H2, H3, H4, H5, H6. unfold pio_turn, pio_checked.
    fields. rewrite !Nat.add_succ_comm. cbn [repeat concat].
    rewrite <- !app_assoc. cbn [app]. auto 10.
Qed.

(** The loop of a PIO request whose transfer check says "done, nothing
    left" in turn [k], with a callback registered. *)
Lemma pio_loop_last_chunk k :
  forall fuel w,
    (k < fuel)%nat ->
    stream_cb w <> 0 ->
    (forall i, (i <= k)%nat ->
       keeps_streaming (response fw (n_check w + i) (cmd_hnd w)) = true) ->
    (forall i, (i < k)%nat ->
       fst (gdrom_pio_check fw (n_pio_check w + i)) <> 0) ->
    gdrom_pio_check fw (n_pio_check w + k) = (0, 0) ->
    do_while fuel (stream_pio_body fw) w
    = Done (inl ERR_OK)
        (pio_last_turn fw (cmd_hnd w) (turns k (pio_turn fw (cmd_hnd w)) w)).
Proof.
  induction k as [|k IH]; intros fuel w Hfuel Hcb Hgo Hwait Hlast;
    (destruct fuel as [|fuel]; [lia|]); cbn [do_while];
    rewrite stream_pio_body_run; cbv zeta; fields;
    (assert (G0 : keeps_streaming (response fw (n_check w) (cmd_hnd w)) = true)
       by (rewrite <- (Nat.add_0_r (n_check w)); apply Hgo; lia));
    rewrite G0; cbn [negb].
  - rewrite Nat.add_0_r in Hlast. rewrite Hlast. cbn [fst snd Z.eqb andb].
    now rewrite (eqb_false _ _ Hcb).
  - rewrite eqb_false
      by (rewrite <- (Nat.add_0_r (n_pio_check w)); apply Hwait; lia).
    cbn [turns].
    replace (cmd_hnd w) with (cmd_hnd (pio_turn fw (cmd_hnd w) w)) at 2 3
      by reflexivity.
    apply IH; [lia|exact Hcb| | |]; unfold pio_turn, pio_checked; fields.
    + intros i Hi. rewrite Nat.add_succ_comm. apply Hgo. lia.
    + intros i Hi. rewrite Nat.add_succ_comm. apply Hwait. lia.
    + rewrite Nat.add_succ_comm. exact Hlast.
Qed.

Lemma stream_cb_calls_app (a b : list event) :
  stream_cb_calls (a ++ b) = (stream_cb_calls a + stream_cb_calls b)%nat.
Proof. unfold stream_cb_calls. now rewrite filter_app, length_app. Qed.

Lemma stream_cb_calls_turns h k :
  stream_cb_calls
    (concat (repeat [EvExecServer; EvCheckCommand h; EvPioCheck h; EvThdPass] k))
  = O.
Proof.
  induction k as [|k IH]; [reflexivity|].
  cbn [repeat concat]. rewrite stream_cb_calls_app, IH. reflexivity.
Qed.

(** C6: a PIO stream request whose transfer check reports completion
    with nothing left, while a callback is registered, makes the driver
    call the callback, with its parameter, exactly once: in the last
    turn of the loop, after the check. *)
Theorem pio_last_chunk_calls_back fuel buffer size block w k :
  CDROM_READ_PIO <> CDROM_READ_DMA ->
  CDROM_READ_PIO <> CDROM_READ_DMA_IRQ ->
  stream_mode w = CDROM_READ_PIO ->
  0 < cmd_hnd w ->
  dma_in_progress w = false ->
  Z.land buffer 1 = 0 ->
  0 <= gdrom_pio_transfer fw (n_pio_transfer w) ->
  stream_cb w <> 0 ->
  (forall i, (i <= k)%nat ->
     keeps_streaming (response fw (n_check w + i) (cmd_hnd w)) = true) ->
  (forall i, (i < k)%nat -> fst (gdrom_pio_check fw (n_pio_check w + i)) <> 0) ->
  gdrom_pio_check fw (n_pio_check w + k) = (0, 0) ->
  (k < fuel)%nat ->
  exists w' evs,
    cdrom_stream_request fw fuel buffer size block w = Done ERR_OK w' /\
    trace w' = trace w ++ evs /\
    evs = [EvMutexLock;
           EvPioTransfer (cmd_hnd w) (int32 (u32 buffer)) (int32 size)]
          ++ concat (repeat [EvExecServer; EvCheckCommand (cmd_hnd w);
                             EvPioCheck (cmd_hnd w); EvThdPass] k)
          ++ [EvExecServer; EvCheckCommand (cmd_hnd w); EvPioCheck (cmd_hnd w);
              EvStreamCb (stream_cb w) (stream_cb_param w); EvMutexUnlock] /\
    stream_cb_calls evs = 1%nat.
Proof.
  intros Hdma Hdmai Hmode Hh Hdip Heven Hrs Hcb Hgo Hwait Hlast Hfuel.
  unfold cdrom_stream_request. run.
  rewrite (leb_false _ _ Hh), Hdip, Hmode.
  rewrite (eqb_false _ _ Hdma), (eqb_false _ _ Hdmai). fields.
  rewrite pio_address_bit, Heven, (Z.eqb_refl CDROM_READ_PIO).
  cbn [Z.eqb negb]. run.
  rewrite (ltb_false _ _ Hrs).
  match goal with
  | |- context [do_while fuel _ ?w0] => set (ws := w0)
  end.
  rewrite (pio_loop_last_chunk k fuel ws); try assumption.
  eexists _, _. split; [reflexivity|].
  unfold pio_last_turn, pio_checked. fields.
  destruct (turns_pio_frame (cmd_hnd ws) k ws) as (_ & _ & _ & -> & -> & ->).
  subst ws. fields. split; [|split; [reflexivity|]].
  - rewrite <- !app_assoc. reflexivity.
  - rewrite !stream_cb_calls_app, stream_cb_calls_turns. reflexivity.
Qed.

(** *** Stopping a live stream *)

Lemma stream_stop_body_run fuel w :
  stream_stop_body fw fuel w
  = let h := cmd_hnd w in
    let w1 := checked fw h w in
    let r := cmd_response w1 in
    if stop_waits r then Done Continue (idle_turn fw h w)
    else if r <? 0 then Done (Break ERR_SYS) w1
    else if (r =? COMPLETED) || (r =? NO_ACTIVE) then Done (Break ERR_OK) w1
    else
      match cdrom_abort_cmd fw fuel 1000 false (add_event EvMutexUnlock w1) with
      | Done rv w2 => Done (Return rv) w2
      | AssertFailed => AssertFailed
      | OutOfFuel => OutOfFuel
      end.
Proof.
  unfold stream_stop_body, stop_waits, keeps_streaming, idle_turn. run.
  destruct (_ <? 0); [reflexivity|]. cbn [negb andb].
  destruct (_ || _); [reflexivity|]. cbn [negb andb].
  destruct (_ =? STREAMING) eqn:E; cbn [negb]; [|reflexivity].
  destruct (cdrom_abort_cmd _ _ _ _ _); reflexivity.
Qed.

Lemma turns_idle_frame h k w :
  let w' := turns k (idle_turn fw h) w in
  n_check w' = (n_check w + k)%nat /\
  n_time w' = n_time w /\
  n_send w' = n_send w /\
  cmd_hnd w' = cmd_hnd w.
Proof.
  revert w. induction k as [|k IH]; intros w; cbn [turns].
  - cbn. now rewrite !Nat.add_0_r.
  - destruct (IH (idle_turn fw h w)) as (H1 & H2 & H3 & H4).
    cbv zeta. rewrite H1, H2, H3, H4. unfold idle_turn. fields.
    rewrite !Nat.add_succ_comm. auto.
Qed.

(** The loop of [cdrom_stream_stop] when the response stops making it
    wait in turn [k]. *)
Lemma stop_loop_run fuel2 k :
  forall fuel w,
    (k < fuel)%nat ->
    (forall i, (i < k)%nat ->
       stop_waits (response fw (n_check w + i) (cmd_hnd w)) = true) ->
    stop_waits (response fw (n_check w + k) (cmd_hnd w)) = false ->
    do_while fuel (stream_stop_body fw fuel2) w
    = let h := cmd_hnd w in
      let w1 := checked fw h (turns k (idle_turn fw h) w) in
      let r := response fw (n_check w + k) h in
      if r <? 0 then Done (inl ERR_SYS) w1
      else if (r =? COMPLETED) || (r =? NO_ACTIVE) then Done (inl ERR_OK) w1
      else
        match cdrom_abort_cmd fw fuel2 1000 false (add_event EvMutexUnlock w1) with
        | Done rv w2 => Done (inr rv) w2
        | AssertFailed => AssertFailed
        | OutOfFuel => OutOfFuel
        end.
Proof.
  induction k as [|k IH]; intros fuel w Hfuel Hwait Hstop;
    (destruct fuel as [|fuel]; [lia|]); cbn [do_while];
    rewrite stream_stop_body_run; cbv zeta; fields.
  - rewrite Nat.add_0_r in *. rewrite Hstop. cbn [turns]. fields.
    destruct (_ <? 0); [reflexivity|].
    destruct (_ || _); [reflexivity|].
    destruct (cdrom_abort_cmd _ _ _ _ _); reflexivity.
  - rewrite <- (Nat.add_0_r (n_check w)) at 1. rewrite Hwait by lia.
    cbn [turns]. rewrite IH; unfold idle_turn; fields; [|lia| |].
    + rewrite !Nat.add_succ_comm. reflexivity.
    + intros i Hi. rewrite Nat.add_succ_comm. apply Hwait. lia.
    + rewrite Nat.add_succ_comm. exact Hstop.
Qed.

Lemma stream_stop_unfold fuel w :
  0 < cmd_hnd w ->
  cdrom_stream_stop fw fuel false w
  = match do_while fuel (stream_stop_body fw fuel) (add_event EvMutexLock w) with
    | Done (inl rv) w1 => Done rv (stop_cleanup w1)
    | Done (inr rv) w1 => Done rv w1
    | AssertFailed => AssertFailed
    | OutOfFuel => OutOfFuel
    end.
Proof.
  intros Hh. unfold cdrom_stream_stop, stop_cleanup. run.
  rewrite (leb_false _ _ Hh).
  destruct (do_while _ _ _) as [[rv|rv] w1| |]; try reflexivity.
  destruct (stream_cb w1 =? 0); cbn [negb]; [reflexivity|].
  now rewrite set_callback_run.
Qed.

Lemma stop_cleanup_clears w1 :
  cmd_hnd (stop_cleanup w1) = 0 /\
  stream_mode (stop_cleanup w1) = -1 /\
  n_send (stop_cleanup w1) = n_send w1.
Proof.
  unfold stop_cleanup, callback_set.
  destruct (negb _); [destruct (_ || _)|]; fields; auto.
Qed.

(** [cdrom_stream_stop(false)] on a live handle, when its loop stops
    waiting in turn [k] and the abort it may call settles in turn [d]:
    it returns, the handle is cleared, the stream mode is [-1], and no
    command was sent. *)
Lemma stream_stop_stops fuel w k d :
  0 < cmd_hnd w ->
  (forall i, (i < k)%nat ->
     stop_waits (response fw (n_check w + i) (cmd_hnd w)) = true) ->
  stop_waits (response fw (n_check w + k) (cmd_hnd w)) = false ->
  (keeps_streaming (response fw (n_check w + k) (cmd_hnd w)) = true ->
   abort_settles fw 1000 (stop_hands_over fw (cmd_hnd w) k w) d) ->
  (k < fuel)%nat ->
  (d < fuel)%nat ->
  exists rv w1,
    cdrom_stream_stop fw fuel false w = Done rv w1 /\
    cmd_hnd w1 = 0 /\ stream_mode w1 = -1 /\ n_send w1 = n_send w.
Proof.
  intros Hh Hwait Hstop Habort Hk Hd.
  rewrite (stream_stop_unfold _ _ Hh).
  rewrite (stop_loop_run fuel k fuel (add_event EvMutexLock w) Hk Hwait Hstop).
  cbv zeta. fields.
  destruct (turns_idle_frame (cmd_hnd w) k (add_event EvMutexLock w))
    as (_ & _ & Hsend & Hhnd).
  cbv zeta in Hsend, Hhnd. fields.
  unfold keeps_streaming in Habort.
  destruct (_ <? 0) eqn:E1.
  { eexists _, _. split; [reflexivity|].
    destruct (stop_cleanup_clears
                (checked fw (cmd_hnd w)
                   (turns k (idle_turn fw (cmd_hnd w)) (add_event EvMutexLock w))))
      as (-> & -> & ->). fields. auto. }
  destruct (_ || _) eqn:E2.
  { eexists _, _. split; [reflexivity|].
    destruct (stop_cleanup_clears
                (checked fw (cmd_hnd w)
                   (turns k (idle_turn fw (cmd_hnd w)) (add_event EvMutexLock w))))
      as (-> & -> & ->). fields. auto. }
  specialize (Habort eq_refl).
  fold (stop_hands_over fw (cmd_hnd w) k w) in *.
  assert (Hlive : 0 < cmd_hnd (stop_hands_over fw (cmd_hnd w) k w)).
  { unfold stop_hands_over. fields. now rewrite Hhnd. }
  destruct (abort_returns fuel 1000 false _ d Hlive eq_refl Hd Habort)
    as (rv & w1 & Hrun).
  rewrite Hrun. exists rv, w1. split; [reflexivity|].
  destruct (abort_post fuel 1000 false _ rv w1 Hlive eq_refl Hrun)
    as (H1 & H2 & _ & _ & H5).
  repeat split; try assumption.
  rewrite H5. unfold stop_hands_over. fields. exact Hsend.
Qed.

(** *** Starting a stream over a live one *)

Lemma stream_start_after_stop fuel sector cnt mode w r1 w1 :
  stream_mode w <> -1 ->
  cdrom_stream_stop fw fuel false w = Done r1 w1 ->
  stream_mode w1 = -1 ->
  cdrom_stream_start fw fuel sector cnt mode w
  = cdrom_stream_start fw fuel sector cnt mode w1.
Proof.
  intros Hlive Hstop Hdead. unfold cdrom_stream_start. run.
  rewrite (eqb_false _ _ Hlive), Hdead. cbn [Z.eqb negb Pos.eqb].
  now rewrite Hstop.
Qed.

(** [cdrom_req_cmd] does not look at the variables. *)
Lemma req_loop_with_vars f left cmd param hnd w :
  cdrom_req_cmd_loop fw left cmd param hnd (with_vars f w)
  = match cdrom_req_cmd_loop fw left cmd param hnd w with
    | Done h w1 => Done h (with_vars f w1)
    | AssertFailed => AssertFailed
    | OutOfFuel => OutOfFuel
    end.
Proof.
  revert hnd w. induction left as [|left IH]; intros hnd w; [reflexivity|].
  rewrite !req_loop_step. fields.
  destruct (negb _); [reflexivity|].
  change (failed_attempt cmd param (with_vars f w))
    with (with_vars f (failed_attempt cmd param w)).
  apply IH.
Qed.

(** [cdrom_exec_cmd_ex] does not look at the handle it finds: it
    overwrites it with the one it is given. *)
Lemma exec_overwrites_handle fuel cmd param timeout use_irq v w :
  cdrom_exec_cmd_ex fw fuel cmd param timeout use_irq
    (with_vars (set_cmd_hnd v) w)
  = cdrom_exec_cmd_ex fw fuel cmd param timeout use_irq w.
Proof.
  unfold cdrom_exec_cmd_ex, cdrom_req_cmd. run.
  destruct (_ && _); [|reflexivity].
  change (add_event EvMutexLock (with_vars (set_cmd_hnd v) w))
    with (with_vars (set_cmd_hnd v) (add_event EvMutexLock w)).
  rewrite req_loop_with_vars.
  destruct (cdrom_req_cmd_loop _ _ _ _ _ _) as [h w1| |]; reflexivity.
Qed.

(** C1, amended: the driver keeps one handle.  [cdrom_stream_start],
    called while a stream is live ([stream_mode <> -1], handle
    positive), first runs [cdrom_stream_stop(false)]: once that settles
    the handle is 0 and the stream mode [-1], no command has been sent
    meanwhile, and the start goes on from that stopped world.
    [cdrom_exec_cmd_ex] itself stops nothing: it overwrites whatever
    handle it finds. *)
Theorem stream_start_stops_live_stream fuel sector cnt mode w k d :
  stream_mode w <> -1 ->
  0 < cmd_hnd w ->
  (forall i, (i < k)%nat ->
     stop_waits (response fw (n_check w + i) (cmd_hnd w)) = true) ->
  stop_waits (response fw (n_check w + k) (cmd_hnd w)) = false ->
  (keeps_streaming (response fw (n_check w + k) (cmd_hnd w)) = true ->
   abort_settles fw 1000 (stop_hands_over fw (cmd_hnd w) k w) d) ->
  (k < fuel)%nat ->
  (d < fuel)%nat ->
  (exists r1 w1,
      cdrom_stream_stop fw fuel false w = Done r1 w1 /\
      cmd_hnd w1 = 0 /\ stream_mode w1 = -1 /\ n_send w1 = n_send w /\
      cdrom_stream_start fw fuel sector cnt mode w
      = cdrom_stream_start fw fuel sector cnt mode w1) /\
  (forall cmd param timeout use_irq v,
      cdrom_exec_cmd_ex fw fuel cmd param timeout use_irq
        (with_vars (set_cmd_hnd v) w)
      = cdrom_exec_cmd_ex fw fuel cmd param timeout use_irq w).
Proof.
  intros Hlive Hh Hwait Hstop Habort Hk Hd. split.
  - destruct (stream_stop_stops fuel w k d Hh Hwait Hstop Habort Hk Hd)
      as (r1 & w1 & Hrun & H1 & H2 & H3).
    exists r1, w1. repeat split; try assumption.
    now apply (stream_start_after_stop _ _ _ _ _ r1).
  - intros. apply exec_overwrites_handle.
Qed.

(** *** Stopping a stream that is not there *)

(** [cdrom_stream_stop] with no live handle is a successful no-op,
    whatever [abort_dma] says. *)
Lemma cdrom_stream_stop_idle fuel abort_dma w :
  cmd_hnd w <= 0 ->
  cdrom_stream_stop fw fuel abort_dma w = Done ERR_OK w.
Proof.
  intros H. unfold cdrom_stream_stop. run.
  apply Z.leb_le in H. rewrite H. reflexivity.
Qed.

(** C8: with no command in flight ([cmd_hnd <= 0]),
    [cdrom_stream_stop(true)] returns [ERR_OK] and leaves the variables,
    the firmware and the trace as they were; so do two calls in a row. *)
Theorem stream_stop_idle_idempotent fuel w :
  cmd_hnd w <= 0 ->
  cdrom_stream_stop fw fuel true w = Done ERR_OK w /\
  (cdrom_stream_stop fw fuel true ;; cdrom_stream_stop fw fuel true) w
  = Done ERR_OK w.
Proof.
  intros H. split.
  - now apply cdrom_stream_stop_idle.
  - unfold bind. now rewrite !cdrom_stream_stop_idle.
Qed.

(** *** Requests the driver answers without the firmware *)

(** C9: a stream request in the mode [CDROM_READ_PIO_IRQ], with a live
    handle, no DMA in progress and an even address, returns [ERR_OK];
    all it does is take and release the mutex: no transfer call, no
    check, no change of the variables. *)
Theorem stream_request_pio_irq_transfers_nothing fuel buffer size block w :
  CDROM_READ_PIO_IRQ <> CDROM_READ_PIO ->
  CDROM_READ_PIO_IRQ <> CDROM_READ_DMA ->
  CDROM_READ_PIO_IRQ <> CDROM_READ_DMA_IRQ ->
  stream_mode w = CDROM_READ_PIO_IRQ ->
  0 < cmd_hnd w ->
  dma_in_progress w = false ->
  Z.land buffer 1 = 0 ->
  cdrom_stream_request fw fuel buffer size block w
  = Done ERR_OK (add_event EvMutexUnlock (add_event EvMutexLock w)).
Proof.
  intros Hpio Hdma Hdmai Hmode Hh Hdip Heven.
  unfold cdrom_stream_request. run.
  rewrite (leb_false _ _ Hh), Hdip, Hmode.
  rewrite (eqb_false _ _ Hpio), (eqb_false _ _ Hdma), (eqb_false _ _ Hdmai).
  fields. rewrite pio_address_bit, Heven. reflexivity.
Qed.

(** Unaligned sector reads, DMA modes: refused after the log line. *)
Lemma read_sectors_dma_unaligned fuel buffer sector cnt mode w :
  mode = CDROM_READ_DMA \/ mode = CDROM_READ_DMA_IRQ ->
  Z.land buffer 31 <> 0 ->
  cdrom_read_sectors_ex fw fuel buffer sector cnt mode w
  = Done ERR_SYS (add_event EvDbglog w).
Proof.
  intros Hmode Hbits. unfold cdrom_read_sectors_ex.
  assert (E : (mode =? CDROM_READ_DMA) || (mode =? CDROM_READ_DMA_IRQ) = true).
  { apply orb_true_iff. now rewrite !Z.eqb_eq. }
  rewrite E. change 31 with (Z.ones 5). rewrite read_address_bits by lia.
  change (Z.ones 5) with 31. rewrite (eqb_false _ _ Hbits). reflexivity.
Qed.

(** Unaligned sector reads, the other modes. *)
Lemma read_sectors_pio_unaligned fuel buffer sector cnt mode w :
  mode <> CDROM_READ_DMA ->
  mode <> CDROM_READ_DMA_IRQ ->
  Z.land buffer 1 <> 0 ->
  cdrom_read_sectors_ex fw fuel buffer sector cnt mode w
  = Done ERR_SYS (add_event EvDbglog w).
Proof.
  intros H1 H2 Hbit. unfold cdrom_read_sectors_ex.
  rewrite (eqb_false _ _ H1), (eqb_false _ _ H2). fields.
  change 1 with (Z.ones 1). rewrite read_address_bits by lia.
  change (Z.ones 1) with 1. rewrite (eqb_false _ _ Hbit). reflexivity.
Qed.

(** A stream request refused for its address: the handle is looked at
    first. *)
Lemma stream_request_dma_unaligned fuel buffer size block w :
  Z.land MEM_AREA_CACHE_MASK 31 = 31 ->
  stream_mode w = CDROM_READ_DMA \/ stream_mode w = CDROM_READ_DMA_IRQ ->
  Z.land buffer 31 <> 0 ->
  cdrom_stream_request fw fuel buffer size block w
  = if cmd_hnd w <=? 0 then Done ERR_NO_ACTIVE w
    else Done ERR_SYS (add_event EvDbglog w).
Proof.
  intros Hmask Hmode Hbits. unfold cdrom_stream_request. run.
  destruct (cmd_hnd w <=? 0); [reflexivity|].
  destruct (dma_in_progress w); [reflexivity|].
  assert (E : (stream_mode w =? CDROM_READ_DMA)
              || (stream_mode w =? CDROM_READ_DMA_IRQ) = true).
  { apply orb_true_iff. now rewrite !Z.eqb_eq. }
  rewrite E, dma_address_bits by exact Hmask.
  rewrite (eqb_false _ _ Hbits). reflexivity.
Qed.

Lemma stream_request_pio_unaligned fuel buffer size block w :
  stream_mode w <> CDROM_READ_DMA ->
  stream_mode w <> CDROM_READ_DMA_IRQ ->
  Z.land buffer 1 <> 0 ->
  cdrom_stream_request fw fuel buffer size block w
  = if cmd_hnd w <=? 0 then Done ERR_NO_ACTIVE w
    else Done ERR_SYS (add_event EvDbglog w).
Proof.
  intros H1 H2 Hbit. unfold cdrom_stream_request. run.
  destruct (cmd_hnd w <=? 0); [reflexivity|].
  destruct (dma_in_progress w); [reflexivity|].
  rewrite (eqb_false _ _ H1), (eqb_false _ _ H2). fields.
  rewrite pio_address_bit, (eqb_false _ _ Hbit). reflexivity.
Qed.

(** C5, amended: a DMA-mode sector read or stream request whose address
    has one of its low five bits set, and a read or request of another
    mode whose address is odd, is refused before any firmware call: the
    trace gains at most the log line.  The result is [ERR_SYS], but a
    stream request made with no live handle is answered
    [ERR_NO_ACTIVE], the handle being tested before the address. *)
Theorem unaligned_buffer_refused fuel buffer w :
  Z.land MEM_AREA_CACHE_MASK 31 = 31 ->
  (forall sector cnt mode,
      mode = CDROM_READ_DMA \/ mode = CDROM_READ_DMA_IRQ ->
      Z.land buffer 31 <> 0 ->
      cdrom_read_sectors_ex fw fuel buffer sector cnt mode w
      = Done ERR_SYS (add_event EvDbglog w)) /\
  (forall sector cnt mode,
      mode <> CDROM_READ_DMA -> mode <> CDROM_READ_DMA_IRQ ->
      Z.land buffer 1 <> 0 ->
      cdrom_read_sectors_ex fw fuel buffer sector cnt mode w
      = Done ERR_SYS (add_event EvDbglog w)) /\
  (forall size block,
      stream_mode w = CDROM_READ_DMA \/ stream_mode w = CDROM_READ_DMA_IRQ ->
      Z.land buffer 31 <> 0 ->
      cdrom_stream_request fw fuel buffer size block w
      = if cmd_hnd w <=? 0 then Done ERR_NO_ACTIVE w
        else Done ERR_SYS (add_event EvDbglog w)) /\
  (forall size block,
      stream_mode w <> CDROM_READ_DMA -> stream_mode w <> CDROM_READ_DMA_IRQ ->
      Z.land buffer 1 <> 0 ->
      cdrom_stream_request fw fuel buffer size block w
      = if cmd_hnd w <=? 0 then Done ERR_NO_ACTIVE w
        else Done ERR_SYS (add_event EvDbglog w)).
Proof.
  intros Hmask. repeat split; intros.
  - now apply read_sectors_dma_unaligned.
  - now apply read_sectors_pio_unaligned.
  - now apply stream_request_dma_unaligned.
  - now apply stream_request_pio_unaligned.
Qed.

(** *** The data track *)

Lemma locate_scan_none toc lo n :
  (forall i, lo <= i < lo + Z.of_nat n -> track_ctrl toc i <> 4) ->
  locate_scan toc lo n = 0.
Proof.
  induction n as [|n IH]; intros Hno; [reflexivity|].
  cbn [locate_scan]. rewrite eqb_false by (apply Hno; lia).
  apply IH. intros i Hi. apply Hno. lia.
Qed.

Lemma locate_scan_found toc lo n i :
  lo <= i < lo + Z.of_nat n ->
  track_ctrl toc i = 4 ->
  (forall j, i < j < lo + Z.of_nat n -> track_ctrl toc j <> 4) ->
  locate_scan toc lo n = track_lba toc i.
Proof.
  induction n as [|n IH]; intros Hi Hctrl Habove; [lia|].
  cbn [locate_scan].
  destruct (Z.eq_dec i (lo + Z.of_nat n)) as [->|Hne].
  - now rewrite Hctrl.
  - rewrite eqb_false by (apply Habove; lia).
    apply IH; [lia|exact Hctrl|]. intros j Hj. apply Habove. lia.
Qed.

(** C10: [cdrom_locate_data_track] returns 0 when the first track is
    below 1, the last above 99 or the first above the last; otherwise
    the LBA of the highest track of the TOC whose control field is 4,
    and 0 when no track has it. *)
Theorem locate_data_track_spec (toc : CDROM_TOC) :
  let lo := TOC_TRACK (first toc) in
  let hi := TOC_TRACK (last toc) in
  (lo < 1 \/ hi > 99 \/ lo > hi -> cdrom_locate_data_track toc = 0) /\
  (1 <= lo /\ lo <= hi /\ hi <= 99 ->
   (forall i,
       lo <= i <= hi ->
       track_ctrl toc i = 4 ->
       (forall j, i < j <= hi -> track_ctrl toc j <> 4) ->
       cdrom_locate_data_track toc = track_lba toc i) /\
   ((forall i, lo <= i <= hi -> track_ctrl toc i <> 4) ->
    cdrom_locate_data_track toc = 0)).
Proof.
  intros lo hi. unfold cdrom_locate_data_track. fold lo hi. split.
  - intros Hbad.
    assert (E : (lo <? 1) || (hi >? 99) || (lo >? hi) = true).
    { rewrite !orb_true_iff, Z.ltb_lt, !Z.gtb_gt. lia. }
    now rewrite E.
  - intros (H1 & H2 & H3).
    assert (E : (lo <? 1) || (hi >? 99) || (lo >? hi) = false).
    { rewrite !orb_false_iff, Z.ltb_ge. split; [split|]; [lia| |].
      - destruct (Z.gtb_spec hi 99); [lia|reflexivity].
      - destruct (Z.gtb_spec lo hi); [lia|reflexivity]. }
    rewrite E. split.
    + intros i Hi Hctrl Habove. apply locate_scan_found; try assumption.
      * rewrite Z2Nat.id by lia. lia.
      * intros j Hj. apply Habove. rewrite Z2Nat.id in Hj by lia. lia.
    + intros Hno. apply locate_scan_none. intros i Hi. apply Hno.
      rewrite Z2Nat.id in Hi by lia. lia.
Qed.

(** * Further properties of the driver *)

(** *** Relations on the trace and on the variables *)

Lemma adds_refl ok w : adds ok w w.
Proof. exists []. split; [now rewrite app_nil_r|reflexivity]. Qed.

Lemma adds_trans ok a b c : adds ok a b -> adds ok b c -> adds ok a c.
Proof.
  intros (e1 & H1 & N1) (e2 & H2 & N2). exists (e1 ++ e2). split.
  - now rewrite H2, H1, app_assoc.
  - now rewrite forallb_app, N1, N2.
Qed.

Lemma adds_extends ok w w' : adds ok w w' -> extends w w'.
Proof. intros (evs & H & _). now exists evs. Qed.

Lemma locks_app (a b : list event) : locks (a ++ b) = locks a + locks b.
Proof.
  unfold locks. induction a as [|e a IH]; cbn [app fold_right];
    [reflexivity|rewrite IH; ring].
Qed.

Lemma shifted_trans n m a b c :
  shifted n a b -> shifted m b c -> shifted (n + m) a c.
Proof.
  intros (e1 & H1 & N1) (e2 & H2 & N2). exists (e1 ++ e2). split.
  - now rewrite H2, H1, app_assoc.
  - now rewrite locks_app, N1, N2.
Qed.

Lemma shifted_event e w : shifted (lock_shift e) w (add_event e w).
Proof. exists [e]. split; [reflexivity|cbn; ring]. Qed.

Lemma balanced_refl w : balanced w w.
Proof. exists []. split; [now rewrite app_nil_r|reflexivity]. Qed.

Lemma balanced_trans a b c : balanced a b -> balanced b c -> balanced a c.
Proof. apply (shifted_trans 0 0). Qed.

Lemma same_refl {A : Type} (f : globals -> A) w : same f w w.
Proof. reflexivity. Qed.

Lemma same_trans {A : Type} (f : globals -> A) a b c :
  same f a b -> same f b c -> same f a c.
Proof. unfold same. congruence. Qed.

#[local] Hint Resolve adds_refl adds_trans balanced_refl balanced_trans
  same_refl same_trans holds_on_refl holds_on_trans : keeps.

(** A step that is one world transformer, for the relations above. *)
Ltac step_prim :=
  let w := fresh "w" in
  let E := fresh "E" in
  intros w ? ? E;
  cbv beta iota zeta delta
    [emit assign syscall_gdrom_send_command syscall_gdrom_exec_server
     syscall_gdrom_check_command syscall_gdrom_abort_command
     syscall_gdrom_reset syscall_gdrom_init syscall_gdrom_dma_transfer
     syscall_gdrom_pio_transfer syscall_gdrom_dma_check
     syscall_gdrom_pio_check syscall_gdrom_pio_callback
     syscall_gdrom_dma_callback timer_ms_gettime64 thd_pass thd_schedule
     mutex_lock mutex_unlock mutex_unlock_as_thread dcache_inval_range
     dbglog] in E;
  injection E as _ <-;
  first [ reflexivity
        | (unfold extends; fields; exists []; symmetry; apply app_nil_r)
        | (unfold extends; fields; eexists; reflexivity)
        | (unfold adds, balanced, shifted, holds_on; fields; exists []; split;
           [symmetry; apply app_nil_r|first [reflexivity|intros []]])
        | (unfold adds, balanced, shifted; fields; eexists; split; reflexivity)
        | (unfold holds_on; fields; eexists; split;
           [reflexivity|intros [?H|[]]; discriminate]) ].

(** A computation built from such steps, from loops and from
    computations already known to keep the relation. *)
Ltac frames :=
  repeat first
    [ solve [eauto 3 with keeps]
    | apply keeps_ret; solve [eauto 3 with keeps]
    | apply keeps_read; solve [eauto 3 with keeps]
    | apply keeps_assert; solve [eauto 3 with keeps]
    | apply keeps_bind; [solve [eauto 3 with keeps]| |intros ?]
    | apply keeps_do_while; [solve [eauto 3 with keeps]|]
    | match goal with
      | |- keeps _ (if ?b then _ else _) => destruct b
      | |- keeps _ (match ?x with _ => _ end) => destruct x
      | |- keeps _ (let _ := _ in _) => cbv zeta
      end
    | progress unfold sem_signal, sem_wait, check_until, mutex_lock_scoped,
        cdrom_exec_cmd, cdrom_exec_cmd_timed, cdrom_read_sectors
    | step_prim ].

Section Interrupts.

Variable R : world -> world -> Prop.
Hypothesis R_refl : forall w, R w w.
Hypothesis R_trans : forall a b c, R a b -> R b c -> R a c.
Hypothesis R_irq : forall w, R w (with_pos bump_irq w).
Hypothesis R_vblank : keeps R (cdrom_vblank fw).
Hypothesis R_g1_dma : keeps R (g1_dma_irq_hnd fw).

Lemma keeps_deliver_irq : keeps R (deliver_irq fw).
Proof.
  intros w a w'. unfold deliver_irq.
  destruct (irq_line fw (n_irq w)); intros H;
    (eapply R_trans; [apply R_irq|]); [eapply R_vblank|eapply R_g1_dma]; exact H.
Qed.

Lemma keeps_sem_wait count set fuel :
  (forall v, keeps R (assign (set v))) ->
  keeps R (sem_wait fw count set fuel).
Proof.
  intros Hset. unfold sem_wait.
  apply keeps_bind; [exact R_trans| |intros ?; now apply keeps_ret].
  apply keeps_do_while; [exact R_trans|]. unfold sem_wait_turn.
  apply keeps_bind; [exact R_trans|now apply keeps_read|intros c].
  destruct (0 <? c).
  - apply keeps_bind; [exact R_trans|apply Hset|intros ?; now apply keeps_ret].
  - apply keeps_bind;
      [exact R_trans|apply keeps_deliver_irq|intros ?; now apply keeps_ret].
Qed.

End Interrupts.

(** *** The interrupt handlers *)

Lemma vblank_quiet : keeps (adds is_quiet) (cdrom_vblank fw).
Proof. unfold cdrom_vblank. frames. Qed.

Lemma g1_dma_quiet : keeps (adds is_quiet) (g1_dma_irq_hnd fw).
Proof. unfold g1_dma_irq_hnd. frames. Qed.

Lemma vblank_balanced : keeps balanced (cdrom_vblank fw).
Proof. unfold cdrom_vblank. frames. Qed.

Lemma g1_dma_balanced : keeps balanced (g1_dma_irq_hnd fw).
Proof. unfold g1_dma_irq_hnd. frames. Qed.

Lemma vblank_same_mode : keeps (same stream_mode) (cdrom_vblank fw).
Proof. unfold cdrom_vblank. frames. Qed.

Lemma g1_dma_same_mode : keeps (same stream_mode) (g1_dma_irq_hnd fw).
Proof. unfold g1_dma_irq_hnd. frames. Qed.

Lemma vblank_same_hnd : keeps (same cmd_hnd) (cdrom_vblank fw).
Proof. unfold cdrom_vblank. frames. Qed.

Lemma g1_dma_same_hnd : keeps (same cmd_hnd) (g1_dma_irq_hnd fw).
Proof. unfold g1_dma_irq_hnd. frames. Qed.

(** Both handlers return, and whatever they find they conserve the
    wake-ups owed on the two semaphores: a semaphore is signalled exactly
    when the flag that announces the signal is cleared.  They leave the
    handle, the stream mode and the callback alone. *)
Theorem handlers_conserve_wakeups w :
  (exists w',
      cdrom_vblank fw w = Done tt w' /\
      dma_wakeups w' = dma_wakeups w /\ cmd_wakeups w' = cmd_wakeups w /\
      cmd_hnd w' = cmd_hnd w /\ stream_mode w' = stream_mode w /\
      stream_cb w' = stream_cb w /\ stream_cb_param w' = stream_cb_param w) /\
  (exists w',
      g1_dma_irq_hnd fw w = Done tt w' /\
      dma_wakeups w' = dma_wakeups w /\ cmd_wakeups w' = cmd_wakeups w /\
      cmd_hnd w' = cmd_hnd w /\ stream_mode w' = stream_mode w /\
      stream_cb w' = stream_cb w /\ stream_cb_param w' = stream_cb_param w).
Proof.
  split.
  - unfold cdrom_vblank. run.
    destruct (cmd_in_progress w) eqn:Hcip; run.
    + destruct (negb _ && negb _); run.
      * destruct (dma_in_progress w) eqn:Hdip; run;
          [destruct (dma_blocking w) eqn:Hblk; run|];
          (eexists; split; [reflexivity|]);
          unfold dma_wakeups, cmd_wakeups; fields;
          rewrite ?Hcip, ?Hdip, ?Hblk; cbn [negb andb];
          repeat split; ring.
      * eexists; split; [reflexivity|].
        unfold dma_wakeups, cmd_wakeups; fields. repeat split.
    + eexists. split; [reflexivity|]. repeat split.
  - unfold g1_dma_irq_hnd. run.
    destruct (dma_in_progress w) eqn:Hdip; run.
    + destruct (cmd_in_progress w) eqn:Hcip; run;
        (destruct (dma_blocking w) eqn:Hblk; run;
         [|destruct (dma_thd w =? 0); run];
         (destruct (stream_mode w =? -1); run);
         (destruct (old_dma_irq_hdl w =? 0); run);
         (eexists; split; [reflexivity|]);
         unfold dma_wakeups, cmd_wakeups; fields;
         rewrite ?Hcip, ?Hdip, ?Hblk; cbn [negb andb];
         repeat split; ring).
    + destruct (old_dma_irq_hdl w =? 0); run;
        (eexists; split; [reflexivity|]); repeat split.
Qed.

(** *** The timeout path under a plain mutex *)

Lemma skipn_length_app {A : Type} (a b : list A) :
  skipn (length a) (a ++ b) = b.
Proof. induction a as [|x a IH]; [reflexivity|exact IH]. Qed.

Lemma firstn_length_app {A : Type} (a b : list A) :
  firstn (length a) (a ++ b) = a.
Proof. induction a as [|x a IH]; [reflexivity|cbn; now rewrite IH]. Qed.

(** A thread that holds the mutex and makes no call on it meets the
    next [mutex_lock] holding it. *)
Lemma relock_held (a rest : list event) :
  forallb before_abort a = true ->
  relock true (a ++ EvMutexLock :: rest) = Some (length a).
Proof.
  induction a as [|e a IH]; [reflexivity|].
  cbn [forallb]. intros H. apply andb_prop in H. destruct H as [He Ha].
  cbn [app length]. destruct e; try discriminate He;
    cbn [relock]; now rewrite (IH Ha).
Qed.

Lemma req_loop_before_abort left cmd param hnd :
  keeps (adds before_abort) (cdrom_req_cmd_loop fw left cmd param hnd).
Proof.
  revert hnd. induction left as [|left IH]; intros hnd;
    cbn [cdrom_req_cmd_loop]; frames.
Qed.

Lemma req_cmd_before_abort cmd param :
  keeps (adds before_abort) (cdrom_req_cmd fw cmd param).
Proof.
  unfold cdrom_req_cmd.
  apply keeps_bind;
    [eauto with keeps|frames|intros _; apply req_loop_before_abort].
Qed.

Lemma checked_before_abort h w : adds before_abort w (checked fw h w).
Proof.
  exists [EvExecServer; EvCheckCommand h]. split; [|reflexivity].
  unfold checked. fields. now rewrite <- app_assoc.
Qed.

Lemma poll_turn_before_abort h w : adds before_abort w (poll_turn fw h w).
Proof.
  unfold poll_turn.
  apply (adds_trans _ _ _ _ (checked_before_abort h w)).
  exists [EvGetTime; EvThdPass]. split; [|reflexivity].
  fields. now rewrite <- app_assoc.
Qed.

Lemma turns_poll_before_abort h j w :
  adds before_abort w (turns j (poll_turn fw h) w).
Proof.
  revert w. induction j as [|j IH]; intros w; cbn [turns].
  - apply adds_refl.
  - apply (adds_trans _ _ _ _ (poll_turn_before_abort h w)), IH.
Qed.

Lemma poll_gave_up_before_abort h j w :
  adds before_abort w (poll_gave_up fw h j w).
Proof.
  unfold poll_gave_up.
  apply (adds_trans _ _ _ _ (turns_poll_before_abort h j w)).
  apply (adds_trans _ _ _ _ (checked_before_abort h _)).
  exists [EvGetTime]. split; reflexivity.
Qed.

(** C4: a poll with a timeout that sees the command busy in every turn
    up to turn [j], the one in which the clock shows the timeout
    elapsed, calls [cdrom_abort_cmd(500, false)] while
    [cdrom_exec_cmd_ex] holds the mutex it took on entry, and the first
    call of that abort on the outside is [mutex_lock] on the same mutex.
    With the mutex a plain one the call of [cdrom_exec_cmd_ex] does not
    return [ERR_TIMEOUT]: it blocks there, having made, after its own
    [mutex_lock], calls [held] that touch neither the mutex nor the
    hardware abort, and the handle [h] is still live. *)
Theorem poll_timeout_blocks_on_held_mutex fuel cmd param timeout w h w1 j d :
  cdrom_req_cmd fw cmd param (add_event EvMutexLock w) = Done h w1 ->
  0 < h ->
  timeout <> 0 ->
  let w2 := with_vars (set_cmd_hnd h) w1 in
  let begin := clock fw (n_time w2) in
  let wa := poll_gave_up fw h j (poll_started w2) in
  (forall i, (i <= j)%nat -> is_busy (response fw (n_check w2 + i) h) = true) ->
  (forall i, (i < j)%nat ->
             elapsed fw begin (S (n_time w2) + i) < u32 timeout) ->
  u32 timeout <= elapsed fw begin (S (n_time w2) + j) ->
  abort_settles fw 500 wa d ->
  (j < fuel)%nat ->
  (d < fuel)%nat ->
  exists held,
    with_plain_mutex (cdrom_exec_cmd_ex fw fuel cmd param timeout false) w
    = Blocks (EvMutexLock :: held) /\
    trace wa = trace w ++ EvMutexLock :: held /\
    forallb before_abort held = true /\
    cmd_hnd wa = h.
Proof.
  intros Hreq Hh Ht w2 begin wa Hbusy Hearly Hlate Hset Hj Hd.
  destruct (exec_times_out fuel cmd param timeout w h w1 j d Hreq Hh Ht
              Hbusy Hearly Hlate Hset Hj Hd)
    as (Hwa & r & wb & Habort & _ & Hexec).
  fold w2 wa in Hwa, Habort, Hexec.
  assert (Hheld : adds before_abort (add_event EvMutexLock w) wa).
  { apply (adds_trans _ _ w1).
    - exact (req_cmd_before_abort _ _ _ _ _ Hreq).
    - apply (adds_trans _ _ (poll_started w2)).
      + exists [EvGetTime]. split; reflexivity.
      + apply poll_gave_up_before_abort. }
  destruct Hheld as (held & Htrace & Hcalm).
  assert (Hrest : extends (abort_started 500 false wa) wb).
  { revert Habort. rewrite abort_unfold by (rewrite ?Hwa; auto).
    destruct (do_while _ _ _) as [x wl| |] eqn:E; try discriminate.
    intros [= _ <-].
    apply (keeps_do_while extends extends_trans _ _
             (abort_wait_body_extends _ _)) in E.
    apply (extends_trans _ _ _ E), abort_cleanup_extends. }
  destruct Hrest as (evs & Hevs).
  destruct (exec_finish_extends (add_event EvDbglog wb)) as (fin & Hfin).
  assert (Hwa_trace : trace wa = trace w ++ EvMutexLock :: held).
  { rewrite Htrace. fields. now rewrite <- app_assoc. }
  exists held. split; [|split; [exact Hwa_trace|split; [exact Hcalm|exact Hwa]]].
  unfold with_plain_mutex. rewrite Hexec. cbv zeta.
  assert (Hall : trace (exec_finish (add_event EvDbglog wb))
                 = trace w
                   ++ EvMutexLock
                      :: held
                         ++ EvMutexLock
                            :: EvAbortCommand h
                               :: EvGetTime :: evs ++ EvDbglog :: fin).
  { rewrite Hfin. fields. rewrite Hevs. unfold abort_started.
    change (negb (u32 500 =? 0)) with true. fields.
    rewrite Hwa_trace, Hwa.
    rewrite <- !app_assoc. cbn [app]. reflexivity. }
  rewrite Hall, skipn_length_app.
  cbn [relock]. rewrite (relock_held _ _ Hcalm). cbn [option_map firstn].
  now rewrite firstn_length_app.
Qed.

(** *** Commands without a timeout *)

#[local] Hint Resolve vblank_quiet g1_dma_quiet vblank_balanced g1_dma_balanced
  vblank_same_mode g1_dma_same_mode vblank_same_hnd g1_dma_same_hnd : keeps.

Lemma sem_wait_quiet count set fuel :
  keeps (adds is_quiet) (sem_wait fw count set fuel).
Proof.
  apply keeps_sem_wait; eauto with keeps; try (intros ?; step_prim).
  intros w. exists []. split; [symmetry; apply app_nil_r|reflexivity].
Qed.

Lemma poll_body_quiet fuel hnd begin :
  keeps (adds is_quiet) (poll_body fw fuel hnd 0 begin).
Proof. unfold poll_body. cbn [Z.eqb negb]. frames. Qed.

Lemma req_loop_quiet left cmd param hnd :
  keeps (adds is_quiet) (cdrom_req_cmd_loop fw left cmd param hnd).
Proof.
  revert hnd. induction left as [|left IH]; intros hnd;
    cbn [cdrom_req_cmd_loop]; frames.
Qed.

Lemma req_cmd_quiet cmd param : keeps (adds is_quiet) (cdrom_req_cmd fw cmd param).
Proof.
  unfold cdrom_req_cmd.
  apply keeps_bind; [eauto with keeps|frames|intros _; apply req_loop_quiet].
Qed.

#[local] Hint Resolve sem_wait_quiet poll_body_quiet req_cmd_quiet : keeps.

Lemma exec_quiet fuel cmd param use_irq :
  keeps (adds is_quiet) (cdrom_exec_cmd_ex fw fuel cmd param 0 use_irq).
Proof.
  unfold cdrom_exec_cmd_ex, cdrom_poll_cmd. cbn [Z.eqb negb]. frames.
Qed.

(** A poll without timeout leaves its loop by [break] only. *)
Lemma poll_without_timeout fuel hnd w rv w' :
  cdrom_poll_cmd fw fuel hnd 0 w = Done rv w' -> rv = ERR_OK.
Proof.
  rewrite poll_unfold. cbn [Z.eqb negb].
  destruct (do_while _ _ _) as [x w1| |] eqn:E; try discriminate.
  destruct x as [u|rv1]; intros [= <- <-]; [reflexivity|].
  exfalso. revert E.
  apply (do_while_inv (fun _ => True)
           (fun x _ => match x with inl _ => True | inr _ => False end));
    [|exact I].
  intros w0 r w0' _. rewrite poll_body_run. cbv zeta. cbn [Z.eqb negb].
  destruct (negb (is_busy _)); now intros [= <- _].
Qed.

Lemma exec_wait_without_timeout fuel use_irq w rv w' :
  exec_wait fw fuel use_irq 0 w = Done rv w' -> rv = ERR_OK.
Proof.
  unfold exec_wait. destruct use_irq.
  - run.
    destruct (_ || _);
      [destruct (sem_wait _ _ _ _ _); try discriminate|];
      now intros [= <- _].
  - run. apply poll_without_timeout.
Qed.

(** What [cdrom_exec_cmd_ex] returns, whatever path it takes. *)
Lemma exec_cases fuel cmd param timeout use_irq w rv w' :
  cdrom_exec_cmd_ex fw fuel cmd param timeout use_irq w = Done rv w' ->
  exists h w1,
    cdrom_req_cmd fw cmd param (add_event EvMutexLock w) = Done h w1 /\
    ((h <= 0 /\ rv = ERR_SYS /\
      w' = add_event EvMutexUnlock (with_vars (set_cmd_hnd h) w1)) \/
     (0 < h /\
      exists rv0 w2,
        exec_wait fw fuel use_irq timeout (with_vars (set_cmd_hnd h) w1)
        = Done rv0 w2 /\
        rv = result_of_outcome (err_eqb rv0 ERR_TIMEOUT)
               (cmd_response w2) (nth 0 (cmd_status w2) 0) /\
        w' = exec_finish w2)).
Proof.
  intros H.
  destruct (cdrom_req_cmd fw cmd param (add_event EvMutexLock w))
    as [h w1| |] eqn:Hreq.
  - exists h, w1. split; [reflexivity|].
    destruct (Z_le_gt_dec h 0) as [Hh|Hh].
    + left. rewrite (exec_without_handle _ _ _ _ _ _ _ _ Hreq Hh) in H.
      injection H as <- <-. auto.
    + right. split; [lia|].
      rewrite (exec_unfold _ _ _ _ _ _ _ _ Hreq ltac:(lia)) in H.
      destruct (exec_wait _ _ _ _ _) as [rv0 w2| |]; try discriminate.
      injection H as <- <-. eauto.
  - revert H. unfold cdrom_exec_cmd_ex. run. now rewrite Hreq.
  - revert H. unfold cdrom_exec_cmd_ex. run. now rewrite Hreq.
Qed.

Lemma result_of_outcome_cases (resp status0 : Z) :
  let rv := result_of_outcome false resp status0 in
  rv <> ERR_TIMEOUT /\ rv <> ERR_ABORTED.
Proof.
  unfold result_of_outcome.
  repeat match goal with
         | |- context [if ?b then _ else _] => destruct b
         end; split; discriminate.
Qed.

Lemma exec_result_without_timeout fuel cmd param use_irq w rv w' :
  cdrom_exec_cmd_ex fw fuel cmd param 0 use_irq w = Done rv w' ->
  rv <> ERR_TIMEOUT /\ rv <> ERR_ABORTED.
Proof.
  intros H.
  destruct (exec_cases _ _ _ _ _ _ _ _ H)
    as (h & w1 & _ & [(_ & -> & _)|(_ & rv0 & w2 & Hwait & -> & _)]).
  - split; discriminate.
  - apply exec_wait_without_timeout in Hwait. subst rv0. cbn [err_eqb].
    apply result_of_outcome_cases.
Qed.

(** Without a timeout [cdrom_exec_cmd_ex] (and so [cdrom_exec_cmd])
    never gives up on a command: it returns neither [ERR_TIMEOUT] nor
    [ERR_ABORTED], and its run has no look at the clock, no hardware
    abort and no reset of the drive. *)
Theorem exec_without_timeout_never_gives_up fuel cmd param use_irq w rv w' :
  cdrom_exec_cmd_ex fw fuel cmd param 0 use_irq w = Done rv w' ->
  rv <> ERR_TIMEOUT /\ rv <> ERR_ABORTED /\ adds is_quiet w w'.
Proof.
  intros H.
  destruct (exec_result_without_timeout _ _ _ _ _ _ _ H) as (H1 & H2).
  split; [exact H1|]. split; [exact H2|].
  exact (exec_quiet _ _ _ _ _ _ _ H).
Qed.

(** *** The handle a command leaves behind *)

Lemma abort_idle fuel timeout abort_dma w :
  cmd_hnd w <= 0 ->
  cdrom_abort_cmd fw fuel timeout abort_dma w = Done ERR_NO_ACTIVE w.
Proof.
  intros H. unfold cdrom_abort_cmd. run.
  apply Z.leb_le in H. now rewrite H.
Qed.

Lemma abort_handle_after fuel timeout w rv w' :
  cdrom_abort_cmd fw fuel timeout false w = Done rv w' -> cmd_hnd w' <= 0.
Proof.
  destruct (Z_le_gt_dec (cmd_hnd w) 0) as [Hh|Hh].
  - rewrite abort_idle by exact Hh. now intros [= _ <-].
  - intros H.
    destruct (abort_post fuel timeout false w rv w' ltac:(lia) eq_refl H)
      as (-> & _).
    lia.
Qed.

Lemma poll_timeout_handle fuel hnd timeout w w' :
  cdrom_poll_cmd fw fuel hnd timeout w = Done ERR_TIMEOUT w' -> cmd_hnd w' <= 0.
Proof.
  rewrite poll_unfold.
  destruct (do_while _ _ _) as [x w1| |] eqn:E; try discriminate.
  destruct x as [u|rv1]; [discriminate|]. intros [= -> <-]. revert E.
  apply (do_while_inv (fun _ => True)
           (fun x w => match x with inl _ => True | inr _ => cmd_hnd w <= 0 end));
    [|exact I].
  intros w0 r w0' _. rewrite poll_body_run. cbv zeta.
  destruct (negb (is_busy _)); [now intros [= <- _]|].
  destruct (negb (timeout =? 0)); [|now intros [= <- _]].
  destruct (_ >=? _); [|now intros [= <- _]].
  destruct (cdrom_abort_cmd _ _ _ _ _) as [r0 w3| |] eqn:Ea; try discriminate.
  intros [= <- <-]. fields. now apply abort_handle_after in Ea.
Qed.

Lemma exec_wait_timeout_handle fuel use_irq timeout w w' :
  exec_wait fw fuel use_irq timeout w = Done ERR_TIMEOUT w' -> cmd_hnd w' <= 0.
Proof.
  unfold exec_wait. destruct use_irq.
  - run.
    destruct (_ || _);
      [destruct (sem_wait _ _ _ _ _); try discriminate|]; discriminate.
  - run. apply poll_timeout_handle.
Qed.

Lemma exec_live_handle fuel cmd param timeout use_irq w rv w' :
  cdrom_exec_cmd_ex fw fuel cmd param timeout use_irq w = Done rv w' ->
  0 < cmd_hnd w' -> rv = ERR_OK /\ cmd_response w' = STREAMING.
Proof.
  intros H.
  destruct (exec_cases _ _ _ _ _ _ _ _ H)
    as (h & w1 & _ & [(Hh & -> & ->)|(Hh & rv0 & w2 & Hwait & -> & ->)]).
  - fields. lia.
  - unfold exec_finish. fields.
    destruct (cmd_response w2 =? STREAMING) eqn:Es; cbn [negb]; fields;
      [|lia].
    apply Z.eqb_eq in Es. intros Hpos. split; [|exact Es].
    destruct (exec_wait_result _ _ _ _ _ _ Hwait) as [-> | ->].
    + unfold result_of_outcome. cbn [err_eqb].
      now rewrite Es, Z.eqb_refl, orb_true_r.
    + apply exec_wait_timeout_handle in Hwait. lia.
Qed.

(** When [cdrom_exec_cmd_ex] returns, the handle is live only if the
    command was answered [STREAMING] and the call returned [ERR_OK]:
    a call that fails leaves no live handle. *)
Theorem exec_keeps_handle_only_when_streaming
  fuel cmd param timeout use_irq w rv w' :
  cdrom_exec_cmd_ex fw fuel cmd param timeout use_irq w = Done rv w' ->
  (0 < cmd_hnd w' -> rv = ERR_OK /\ cmd_response w' = STREAMING) /\
  (rv <> ERR_OK -> cmd_hnd w' <= 0).
Proof.
  intros H. pose proof (exec_live_handle _ _ _ _ _ _ _ _ H) as Hlive.
  split; [exact Hlive|].
  intros Hrv. destruct (Z_le_gt_dec (cmd_hnd w') 0) as [Hle|Hgt]; [exact Hle|].
  destruct (Hlive ltac:(lia)) as (E & _). contradiction.
Qed.

(** *** What the result of [cdrom_abort_cmd] says *)

Lemma resets_app (a b : list event) : resets (a ++ b) = (resets a + resets b)%nat.
Proof. unfold resets, count. now rewrite filter_app, length_app. Qed.

(** The wait of [cdrom_abort_cmd]: it is left with [ERR_OK] on a
    response that ends the command and without a reset, or with
    [ERR_TIMEOUT] after the one reset. *)
Lemma abort_loop_result timeout begin fuel w x w' :
  do_while fuel (abort_wait_body fw timeout begin) w = Done x w' ->
  exists evs,
    trace w' = trace w ++ evs /\
    ((leave_loop x = ERR_OK /\ resets evs = O /\
      is_over (cmd_response w') = true) \/
     (leave_loop x = ERR_TIMEOUT /\ resets evs = 1%nat /\ timeout <> 0)).
Proof.
  apply (do_while_inv
           (fun w1 => exists evs, trace w1 = trace w ++ evs /\ resets evs = O)
           (fun x w1 =>
              exists evs,
                trace w1 = trace w ++ evs /\
                ((leave_loop x = ERR_OK /\ resets evs = O /\
                  is_over (cmd_response w1) = true) \/
                 (leave_loop x = ERR_TIMEOUT /\ resets evs = 1%nat /\
                  timeout <> 0))));
    [|exists []; split; [symmetry; apply app_nil_r|reflexivity]].
  intros w0 r w0' (evs & Ht & Hr). rewrite abort_wait_body_run. cbv zeta.
  destruct (is_over _) eqn:Eover.
  - intros [= <- <-]. exists (evs ++ [EvExecServer; EvCheckCommand (cmd_hnd w0)]).
    split; [unfold checked; fields; rewrite Ht, <- !app_assoc; reflexivity|].
    left. rewrite resets_app, Hr. auto.
  - destruct (timeout =? 0) eqn:Et; cbn [negb].
    + intros [= <- <-].
      exists (evs ++ [EvExecServer; EvCheckCommand (cmd_hnd w0); EvThdPass]).
      split; [unfold checked; fields; rewrite Ht, <- !app_assoc; reflexivity|].
      rewrite resets_app, Hr. reflexivity.
    + apply Z.eqb_neq in Et. destruct (_ >=? _).
      * intros [= <- <-].
        exists (evs ++ [EvExecServer; EvCheckCommand (cmd_hnd w0); EvGetTime;
                        EvDbglog; EvGdromReset; EvGdromInit]).
        split; [unfold checked; fields; rewrite Ht, <- !app_assoc; reflexivity|].
        right. rewrite resets_app, Hr. auto.
      * intros [= <- <-].
        exists (evs ++ [EvExecServer; EvCheckCommand (cmd_hnd w0); EvGetTime;
                        EvThdPass]).
        split; [unfold checked; fields; rewrite Ht, <- !app_assoc; reflexivity|].
        rewrite resets_app, Hr. reflexivity.
Qed.

Lemma abort_started_trace timeout abort_dma w :
  exists evs,
    trace (abort_started timeout abort_dma w) = trace w ++ evs /\
    resets evs = O.
Proof.
  unfold abort_started.
  destruct (negb _); destruct (abort_dma && dma_in_progress w); fields;
    rewrite <- ?app_assoc; eexists; split; reflexivity.
Qed.

Lemma abort_cleanup_trace w1 :
  exists evs,
    trace (abort_cleanup w1) = trace w1 ++ evs /\ resets evs = O.
Proof.
  unfold abort_cleanup, callback_set. fields.
  destruct (negb _); [destruct (_ || _)|]; fields;
    rewrite <- ?app_assoc; eexists; split; reflexivity.
Qed.

Lemma abort_cleanup_response w1 :
  cmd_response (abort_cleanup w1) = cmd_response w1.
Proof.
  unfold abort_cleanup, callback_set. fields.
  destruct (negb _); [destruct (_ || _)|]; reflexivity.
Qed.

(** The result of [cdrom_abort_cmd] tells what it did.  With no live
    handle it is [ERR_NO_ACTIVE] and nothing was done.  With a live
    handle it is [ERR_TIMEOUT] when the drive was reset, which happens
    once and only with a timeout that is not zero; and [ERR_OK] when it
    was not: then the last response of the command was [NO_ACTIVE] or
    [COMPLETED], or the abort was handed to a blocking DMA transfer. *)
Theorem abort_result_tells_reset fuel timeout abort_dma w rv w' :
  cdrom_abort_cmd fw fuel timeout abort_dma w = Done rv w' ->
  (cmd_hnd w <= 0 -> rv = ERR_NO_ACTIVE /\ w' = w) /\
  (0 < cmd_hnd w ->
   exists evs,
     trace w' = trace w ++ evs /\
     ((rv = ERR_OK /\ resets evs = O /\
       (is_over (cmd_response w') = true \/
        abort_dma && dma_in_progress w && dma_blocking w = true)) \/
      (rv = ERR_TIMEOUT /\ resets evs = 1%nat /\ u32 timeout <> 0))).
Proof.
  intros H. split.
  - intros Hh. rewrite abort_idle in H by exact Hh. now injection H as <- <-.
  - intros Hh.
    destruct (abort_dma && dma_in_progress w && dma_blocking w) eqn:Hpath.
    + apply andb_true_iff in Hpath. destruct Hpath as (Hpath & Hblk).
      apply andb_true_iff in Hpath. destruct Hpath as (-> & Hdip).
      rewrite abort_blocking_dma in H by assumption.
      injection H as <- <-. exists [EvAbortCommand (cmd_hnd w)].
      split; [reflexivity|]. left. auto.
    + rewrite abort_unfold in H by assumption.
      destruct (do_while _ _ _) as [x w1| |] eqn:E; try discriminate.
      injection H as <- <-.
      destruct (abort_started_trace timeout abort_dma w) as (e0 & H0 & R0).
      destruct (abort_loop_result _ _ _ _ _ _ E) as (e1 & H1 & Hres).
      destruct (abort_cleanup_trace w1) as (e2 & H2 & R2).
      exists (e0 ++ e1 ++ e2). split.
      * now rewrite H2, H1, H0, <- !app_assoc.
      * rewrite !resets_app, R0, R2, abort_cleanup_response.
        destruct Hres as [(-> & -> & Hover)|(-> & -> & Ht)]; [left|right];
          auto.
Qed.

(** *** Aborting a DMA transfer nobody waits for *)

Lemma count_app p (a b : list event) : count p (a ++ b) = (count p a + count p b)%nat.
Proof. unfold count. now rewrite filter_app, length_app. Qed.

Lemma mutex_free_counts (evs : list event) :
  forallb is_mutex_free evs = true ->
  count is_lock evs = O /\ count is_unlock evs = O.
Proof.
  induction evs as [|e evs IH]; [auto|]. cbn [forallb].
  intros H. apply andb_true_iff in H. destruct H as (He & Hevs).
  destruct (IH Hevs) as (IH1 & IH2).
  change (e :: evs) with ([e] ++ evs). rewrite !count_app, IH1, IH2.
  destruct e; try discriminate He; auto.
Qed.

Lemma abort_wait_body_mutex_free timeout begin :
  keeps (adds is_mutex_free) (abort_wait_body fw timeout begin).
Proof. unfold abort_wait_body. frames. Qed.

Lemma abort_wait_body_same {A : Type} (f : globals -> A) timeout begin :
  (forall r s, f (set_cmd_response r s) = f s) ->
  (forall st s, f (set_cmd_status st s) = f s) ->
  keeps (same f) (abort_wait_body fw timeout begin).
Proof.
  intros Hr Hs. unfold abort_wait_body.
  assert (Hcheck : forall h, keeps (same f) (syscall_gdrom_check_command fw h)).
  { intros h w a w' [= _ <-]. unfold same. fields. apply Hs. }
  assert (Hset : forall r, keeps (same f) (assign (set_cmd_response r))).
  { intros r w a w' [= _ <-]. unfold same. fields. apply Hr. }
  frames.
Qed.

(** [cdrom_abort_cmd(timeout, true)] while a DMA transfer that is not
    blocking is in progress: the transfer and the command are declared
    over and the owning thread forgotten; in the run the mutex is
    released once and never taken. *)
Theorem abort_dma_releases_without_taking fuel timeout w rv w' :
  0 < cmd_hnd w ->
  dma_in_progress w = true ->
  dma_blocking w = false ->
  cdrom_abort_cmd fw fuel timeout true w = Done rv w' ->
  dma_in_progress w' = false /\ cmd_in_progress w' = false /\ dma_thd w' = 0 /\
  exists evs,
    trace w' = trace w ++ evs /\
    count is_lock evs = O /\ count is_unlock evs = 1%nat.
Proof.
  intros Hh Hdip Hblk.
  rewrite abort_unfold by (rewrite ?Hdip, ?Hblk; auto).
  destruct (do_while _ _ _) as [x w1| |] eqn:E; try discriminate.
  intros [= _ <-].
  pose proof (keeps_do_while _ (same_trans dma_in_progress) _ _
                (abort_wait_body_same dma_in_progress _ _
                   (fun _ _ => eq_refl) (fun _ _ => eq_refl)) _ _ _ E) as F1.
  pose proof (keeps_do_while _ (same_trans cmd_in_progress) _ _
                (abort_wait_body_same cmd_in_progress _ _
                   (fun _ _ => eq_refl) (fun _ _ => eq_refl)) _ _ _ E) as F2.
  pose proof (keeps_do_while _ (same_trans dma_thd) _ _
                (abort_wait_body_same dma_thd _ _
                   (fun _ _ => eq_refl) (fun _ _ => eq_refl)) _ _ _ E) as F3.
  pose proof (keeps_do_while _ (adds_trans is_mutex_free) _ _
                (abort_wait_body_mutex_free _ _) _ _ _ E) as (e1 & H1 & N1).
  unfold same in F1, F2, F3.
  assert (Hflags : dma_in_progress (abort_cleanup w1) = false /\
                   cmd_in_progress (abort_cleanup w1) = false /\
                   dma_thd (abort_cleanup w1) = 0).
  { unfold abort_cleanup, callback_set.
    destruct (negb _); [destruct (_ || _)|]; fields;
      rewrite F1, F2, F3; unfold abort_started; rewrite Hdip;
      destruct (negb _); auto. }
  destruct Hflags as (G1 & G2 & G3). repeat split; try assumption.
  destruct (mutex_free_counts _ N1) as (C1 & C2).
  assert (H0 : exists e0, trace (abort_started timeout true w) = trace w ++ e0 /\
                          count is_lock e0 = O /\ count is_unlock e0 = O).
  { unfold abort_started. rewrite Hdip. cbn [andb].
    destruct (negb _); fields; rewrite <- ?app_assoc; eexists;
      (split; [reflexivity|split; reflexivity]). }
  destruct H0 as (e0 & H0 & L0 & U0).
  assert (H2 : exists e2, trace (abort_cleanup w1) = trace w1 ++ e2 /\
                          count is_lock e2 = O /\ count is_unlock e2 = 1%nat).
  { unfold abort_cleanup, callback_set. fields.
    destruct (negb _); [destruct (_ || _)|]; fields; rewrite <- ?app_assoc;
      eexists; (split; [reflexivity|split; reflexivity]). }
  destruct H2 as (e2 & H2 & L2 & U2).
  exists (e0 ++ e1 ++ e2). split.
  - now rewrite H2, H1, H0, <- !app_assoc.
  - now rewrite !count_app, L0, U0, C1, C2, L2, U2.
Qed.

(** *** Taking and releasing the mutex *)

Lemma balanced_scoped {A : Type} (body : M A) :
  keeps balanced body -> keeps balanced (mutex_lock_scoped body).
Proof.
  intros Hbody w a w'. unfold mutex_lock_scoped. run.
  destruct (body (add_event EvMutexLock w)) as [r w1| |] eqn:E; try discriminate.
  intros [= _ <-]. apply Hbody in E.
  apply (shifted_trans 1 (-1) _ (add_event EvMutexLock w));
    [apply (shifted_event EvMutexLock)|].
  apply (shifted_trans 0 (-1) _ w1); [exact E|apply (shifted_event EvMutexUnlock)].
Qed.

Lemma sem_wait_balanced count set fuel :
  (forall v, keeps balanced (assign (set v))) ->
  keeps balanced (sem_wait fw count set fuel).
Proof.
  intros Hset. apply keeps_sem_wait; eauto with keeps.
  intros w. exists []. split; [symmetry; apply app_nil_r|reflexivity].
Qed.

Lemma req_loop_balanced left cmd param hnd :
  keeps balanced (cdrom_req_cmd_loop fw left cmd param hnd).
Proof.
  revert hnd. induction left as [|left IH]; intros hnd;
    cbn [cdrom_req_cmd_loop]; frames.
Qed.

Lemma req_cmd_balanced cmd param : keeps balanced (cdrom_req_cmd fw cmd param).
Proof.
  unfold cdrom_req_cmd.
  apply keeps_bind; [eauto with keeps|frames|intros _; apply req_loop_balanced].
Qed.

Lemma abort_wait_body_balanced timeout begin :
  keeps balanced (abort_wait_body fw timeout begin).
Proof. unfold abort_wait_body. frames. Qed.

Lemma set_callback_balanced cb p : keeps balanced (cdrom_stream_set_callback cb p).
Proof. unfold cdrom_stream_set_callback. frames. Qed.

(** [cdrom_abort_cmd] off the path that aborts a DMA transfer nobody
    waits for. *)
Lemma abort_balanced fuel timeout abort_dma w rv w' :
  abort_dma && dma_in_progress w && negb (dma_blocking w) = false ->
  cdrom_abort_cmd fw fuel timeout abort_dma w = Done rv w' ->
  balanced w w'.
Proof.
  intros Hpath.
  destruct (Z_le_gt_dec (cmd_hnd w) 0) as [Hh|Hh].
  { rewrite abort_idle by exact Hh. intros [= _ <-]. apply balanced_refl. }
  destruct (abort_dma && dma_in_progress w) eqn:Hdma; cbn [andb] in Hpath.
  - apply negb_false_iff in Hpath.
    apply andb_true_iff in Hdma. destruct Hdma as (-> & Hdip).
    rewrite abort_blocking_dma by (assumption || lia).
    intros [= _ <-]. apply (shifted_event (EvAbortCommand (cmd_hnd w))).
  - rewrite abort_unfold by (rewrite ?Hdma; auto; lia).
    destruct (do_while _ _ _) as [x w1| |] eqn:E; try discriminate.
    intros [= _ <-].
    apply (keeps_do_while _ balanced_trans _ _
             (abort_wait_body_balanced _ _)) in E.
    apply (shifted_trans 1 (-1) _ (abort_started timeout abort_dma w)).
    + unfold abort_started, shifted. rewrite Hdma.
      destruct (negb _); fields; eexists;
        (split; [rewrite <- ?app_assoc; reflexivity|reflexivity]).
    + apply (shifted_trans 0 (-1) _ w1); [exact E|].
      unfold abort_cleanup, callback_set, shifted. fields.
      destruct (negb _); [destruct (_ || _)|]; fields; eexists;
        (split; [rewrite <- ?app_assoc; reflexivity|reflexivity]).
Qed.

Lemma abort_cmd_balanced fuel timeout :
  keeps balanced (cdrom_abort_cmd fw fuel timeout false).
Proof. intros w rv w'. now apply abort_balanced. Qed.

#[local] Hint Resolve req_cmd_balanced abort_cmd_balanced set_callback_balanced
  : keeps.

Lemma exec_balanced fuel cmd param timeout use_irq :
  keeps balanced (cdrom_exec_cmd_ex fw fuel cmd param timeout use_irq).
Proof.
  unfold cdrom_exec_cmd_ex. apply balanced_scoped.
  assert (Hsem : keeps balanced (sem_wait fw cmd_done set_cmd_done fuel))
    by (apply sem_wait_balanced; intros v; step_prim).
  unfold cdrom_poll_cmd, poll_body. frames.
Qed.

#[local] Hint Resolve exec_balanced : keeps.

Lemma read_sectors_balanced fuel buffer sector cnt mode :
  keeps balanced (cdrom_read_sectors_ex fw fuel buffer sector cnt mode).
Proof.
  assert (Hsem : keeps balanced (sem_wait fw dma_done set_dma_done fuel))
    by (apply sem_wait_balanced; intros v; step_prim).
  assert (Hdma : forall params,
             keeps balanced (cdrom_read_sectors_dma_irq fw fuel params)).
  { intros params. unfold cdrom_read_sectors_dma_irq. apply balanced_scoped.
    unfold check_until. frames. }
  unfold cdrom_read_sectors_ex. frames.
Qed.

(** The loop of [cdrom_stream_stop]: it is left with the mutex still
    held by [break], and with the mutex released by the [return] that
    hands over to [cdrom_abort_cmd]. *)
Lemma stop_loop_shifted fuel2 fuel w x w' :
  do_while fuel (stream_stop_body fw fuel2) w = Done x w' ->
  match x with
  | inl _ => balanced w w'
  | inr _ => shifted (-1) w w'
  end.
Proof.
  apply (do_while_inv (fun w1 => balanced w w1)
           (fun x w1 => match x with
                        | inl _ => balanced w w1
                        | inr _ => shifted (-1) w w1
                        end)); [|apply balanced_refl].
  intros w0 r w0' HI. rewrite stream_stop_body_run. cbv zeta.
  assert (Hc : balanced w (checked fw (cmd_hnd w0) w0)).
  { apply (balanced_trans _ _ _ HI). unfold checked, balanced, shifted. fields.
    eexists. split; [rewrite <- app_assoc; reflexivity|reflexivity]. }
  destruct (stop_waits _).
  { intros [= <- <-]. apply (balanced_trans _ _ _ Hc).
    apply (shifted_event EvThdPass). }
  destruct (_ <? 0); [now intros [= <- <-]|].
  destruct (_ || _); [now intros [= <- <-]|].
  destruct (cdrom_abort_cmd _ _ _ _ _) as [rv w2| |] eqn:Ea; try discriminate.
  intros [= <- <-].
  apply (shifted_trans 0 (-1) _ _ _ Hc).
  apply (shifted_trans (-1) 0 _ _ _ (shifted_event EvMutexUnlock _)).
  now apply abort_balanced in Ea.
Qed.

Lemma stream_stop_as_false fuel abort_dma w :
  abort_dma && dma_in_progress w = false ->
  cdrom_stream_stop fw fuel abort_dma w = cdrom_stream_stop fw fuel false w.
Proof.
  intros H. unfold cdrom_stream_stop. run.
  destruct (cmd_hnd w <=? 0); [reflexivity|]. now rewrite H.
Qed.

Lemma stream_stop_as_abort fuel w :
  0 < cmd_hnd w ->
  dma_in_progress w = true ->
  cdrom_stream_stop fw fuel true w = cdrom_abort_cmd fw fuel 1000 true w.
Proof.
  intros Hh Hdip. unfold cdrom_stream_stop. run.
  now rewrite (leb_false _ _ Hh), Hdip.
Qed.

Lemma stop_cleanup_shifted w1 : shifted (-1) w1 (stop_cleanup w1).
Proof.
  unfold stop_cleanup, callback_set, shifted. fields.
  destruct (negb _); [destruct (_ || _)|]; fields; eexists;
    (split; [rewrite <- ?app_assoc; reflexivity|reflexivity]).
Qed.

Lemma stream_stop_balanced fuel abort_dma w rv w' :
  abort_dma && dma_in_progress w && negb (dma_blocking w) = false ->
  cdrom_stream_stop fw fuel abort_dma w = Done rv w' ->
  balanced w w'.
Proof.
  intros Hpath.
  destruct (Z_le_gt_dec (cmd_hnd w) 0) as [Hh|Hh].
  { rewrite cdrom_stream_stop_idle by exact Hh.
    intros [= _ <-]. apply balanced_refl. }
  destruct (abort_dma && dma_in_progress w) eqn:Hdma.
  - apply andb_true_iff in Hdma. destruct Hdma as (-> & Hdip).
    rewrite stream_stop_as_abort by (assumption || lia).
    apply abort_balanced. now rewrite Hdip.
  - rewrite stream_stop_as_false by exact Hdma.
    rewrite stream_stop_unfold by lia.
    destruct (do_while _ _ _) as [x w1| |] eqn:E; try discriminate.
    apply stop_loop_shifted in E.
    destruct x as [r|r]; intros [= _ <-].
    + apply (shifted_trans 1 (-1) _ _ _ (shifted_event EvMutexLock _)).
      apply (shifted_trans 0 (-1) _ _ _ E), stop_cleanup_shifted.
    + apply (shifted_trans 1 (-1) _ _ _ (shifted_event EvMutexLock _) E).
Qed.

Lemma stream_stop_false_balanced fuel : keeps balanced (cdrom_stream_stop fw fuel false).
Proof. intros w rv w'. now apply stream_stop_balanced. Qed.

#[local] Hint Resolve stream_stop_false_balanced : keeps.

Lemma stream_start_balanced fuel sector cnt mode :
  keeps balanced (cdrom_stream_start fw fuel sector cnt mode).
Proof. unfold cdrom_stream_start. frames. Qed.

Lemma stream_request_balanced fuel buffer size block :
  keeps balanced (cdrom_stream_request fw fuel buffer size block).
Proof.
  assert (Hsem : keeps balanced (sem_wait fw dma_done set_dma_done fuel))
    by (apply sem_wait_balanced; intros v; step_prim).
  assert (Hdma : keeps balanced (stream_dma_body fw))
    by (unfold stream_dma_body; frames).
  assert (Hpio : keeps balanced (stream_pio_body fw))
    by (unfold stream_pio_body; frames).
  unfold cdrom_stream_request. cbv zeta.
  apply keeps_bind; [eauto with keeps|frames|intros h].
  destruct (h <=? 0); [frames|].
  apply keeps_bind; [eauto with keeps|frames|intros dip].
  destruct dip; [frames|].
  apply keeps_bind; [eauto with keeps|frames|intros sm].
  apply keeps_bind; [eauto with keeps|frames|intros prepared].
  destruct prepared as [p0|]; [|frames].
  apply balanced_scoped. frames.
Qed.

(** Every call of the driver that returns has released the mutex as
    often as it has taken it ([mutex_lock], [mutex_lock_scoped] and
    [mutex_unlock]; the [mutex_unlock_as_thread] of the DMA interrupt is
    not counted).  The one exception is an abort of a DMA transfer that
    is in progress and not blocking, by [cdrom_abort_cmd] or by
    [cdrom_stream_stop] with [abort_dma] set. *)
Theorem mutex_released_as_often_as_taken fuel :
  (forall cmd param timeout use_irq,
      keeps balanced (cdrom_exec_cmd_ex fw fuel cmd param timeout use_irq)) /\
  (forall buffer sector cnt mode,
      keeps balanced (cdrom_read_sectors_ex fw fuel buffer sector cnt mode)) /\
  (forall sector cnt mode,
      keeps balanced (cdrom_stream_start fw fuel sector cnt mode)) /\
  (forall buffer size block,
      keeps balanced (cdrom_stream_request fw fuel buffer size block)) /\
  (forall timeout abort_dma w rv w',
      abort_dma && dma_in_progress w && negb (dma_blocking w) = false ->
      cdrom_abort_cmd fw fuel timeout abort_dma w = Done rv w' ->
      balanced w w') /\
  (forall abort_dma w rv w',
      abort_dma && dma_in_progress w && negb (dma_blocking w) = false ->
      cdrom_stream_stop fw fuel abort_dma w = Done rv w' ->
      balanced w w').
Proof.
  split; [intros; apply exec_balanced|].
  split; [intros; apply read_sectors_balanced|].
  split; [intros; apply stream_start_balanced|].
  split; [intros; apply stream_request_balanced|].
  split; intros.
  - eapply abort_balanced; eassumption.
  - eapply stream_stop_balanced; eassumption.
Qed.

(** *** The callback the firmware knows *)

Lemma abort_wait_body_no_pio_callback timeout begin :
  keeps (adds no_pio_callback) (abort_wait_body fw timeout begin).
Proof. unfold abort_wait_body. frames. Qed.

(** The cleaning up of [cdrom_abort_cmd] and of [cdrom_stream_stop]
    resets the stream mode before it drops the callback, so
    [cdrom_stream_set_callback] finds no PIO stream to tell the firmware
    about. *)
Lemma callback_dropped_silently w2 :
  CDROM_READ_PIO <> -1 ->
  CDROM_READ_PIO_IRQ <> -1 ->
  stream_mode w2 = -1 ->
  callback_set 0 0 w2 = with_vars (set_stream_cb 0 0) w2.
Proof.
  intros H1 H2 Hm. unfold callback_set. rewrite Hm.
  rewrite (eqb_false (-1) CDROM_READ_PIO), (eqb_false (-1) CDROM_READ_PIO_IRQ);
    [reflexivity|congruence|congruence].
Qed.

Lemma abort_no_pio_callback fuel timeout abort_dma :
  CDROM_READ_PIO <> -1 ->
  CDROM_READ_PIO_IRQ <> -1 ->
  keeps (adds no_pio_callback) (cdrom_abort_cmd fw fuel timeout abort_dma).
Proof.
  intros H1 H2 w rv w'.
  destruct (Z_le_gt_dec (cmd_hnd w) 0) as [Hh|Hh].
  { rewrite abort_idle by exact Hh. intros [= _ <-]. apply adds_refl. }
  destruct (abort_dma && dma_in_progress w && dma_blocking w) eqn:Hpath.
  - apply andb_true_iff in Hpath. destruct Hpath as (Hpath & Hblk).
    apply andb_true_iff in Hpath. destruct Hpath as (-> & Hdip).
    rewrite abort_blocking_dma by (assumption || lia).
    intros [= _ <-]. exists [EvAbortCommand (cmd_hnd w)]. split; reflexivity.
  - rewrite abort_unfold by (assumption || lia).
    destruct (do_while _ _ _) as [x w1| |] eqn:E; try discriminate.
    intros [= _ <-].
    apply (keeps_do_while _ (adds_trans no_pio_callback) _ _
             (abort_wait_body_no_pio_callback _ _)) in E.
    apply (adds_trans _ _ (abort_started timeout abort_dma w)).
    + unfold abort_started, adds.
      destruct (negb _); destruct (abort_dma && dma_in_progress w); fields;
        eexists; (split; [rewrite <- ?app_assoc; reflexivity|reflexivity]).
    + apply (adds_trans _ _ _ _ E). unfold abort_cleanup, adds.
      rewrite callback_dropped_silently by (assumption || reflexivity).
      destruct (negb _); fields; eexists;
        (split; [rewrite <- ?app_assoc; reflexivity|reflexivity]).
Qed.

Lemma stop_body_no_pio_callback fuel :
  CDROM_READ_PIO <> -1 ->
  CDROM_READ_PIO_IRQ <> -1 ->
  keeps (adds no_pio_callback) (stream_stop_body fw fuel).
Proof.
  intros H1 H2.
  pose proof (abort_no_pio_callback fuel 1000 false H1 H2) as Habort.
  unfold stream_stop_body. frames.
Qed.

Lemma stop_no_pio_callback fuel abort_dma :
  CDROM_READ_PIO <> -1 ->
  CDROM_READ_PIO_IRQ <> -1 ->
  keeps (adds no_pio_callback) (cdrom_stream_stop fw fuel abort_dma).
Proof.
  intros H1 H2 w rv w'.
  destruct (Z_le_gt_dec (cmd_hnd w) 0) as [Hh|Hh].
  { rewrite cdrom_stream_stop_idle by exact Hh.
    intros [= _ <-]. apply adds_refl. }
  destruct (abort_dma && dma_in_progress w) eqn:Hdma.
  - apply andb_true_iff in Hdma. destruct Hdma as (-> & Hdip).
    rewrite stream_stop_as_abort by (assumption || lia).
    now apply abort_no_pio_callback.
  - rewrite stream_stop_as_false by exact Hdma.
    rewrite stream_stop_unfold by lia.
    destruct (do_while _ _ _) as [x w1| |] eqn:E; try discriminate.
    apply (keeps_do_while _ (adds_trans no_pio_callback) _ _
             (stop_body_no_pio_callback fuel H1 H2)) in E.
    assert (E0 : adds no_pio_callback w (add_event EvMutexLock w))
      by (exists [EvMutexLock]; split; reflexivity).
    destruct x as [r|r]; intros [= _ <-].
    + apply (adds_trans _ _ _ _ E0), (adds_trans _ _ _ _ E).
      unfold stop_cleanup, adds.
      rewrite callback_dropped_silently by (assumption || reflexivity).
      destruct (negb _); fields; eexists;
        (split; [rewrite <- ?app_assoc; reflexivity|reflexivity]).
    + apply (adds_trans _ _ _ _ E0 E).
Qed.

(** When [cdrom_abort_cmd] or [cdrom_stream_stop] has dropped the
    callback of a stream, the driver has forgotten it ([stream_cb] is
    [NULL]) but the firmware was not told: the run holds no call of
    [syscall_gdrom_pio_callback], whatever the mode of the stream was.
    ([-1], the mode of "no stream", is none of the PIO modes.) *)
Theorem dropped_callback_stays_with_firmware fuel w rv w' :
  CDROM_READ_PIO <> -1 ->
  CDROM_READ_PIO_IRQ <> -1 ->
  0 < cmd_hnd w ->
  dma_in_progress w = false ->
  (forall timeout abort_dma,
      cdrom_abort_cmd fw fuel timeout abort_dma w = Done rv w' ->
      stream_cb w' = 0 /\ adds no_pio_callback w w') /\
  (forall abort_dma,
      cdrom_stream_stop fw fuel abort_dma w = Done rv w' ->
      stream_cb w' = 0 /\ adds no_pio_callback w w').
Proof.
  intros H1 H2 Hh Hdip. split.
  - intros timeout abort_dma H. split.
    + assert (Hpath : abort_dma && dma_in_progress w && dma_blocking w = false)
        by (rewrite Hdip; now destruct abort_dma).
      now destruct (abort_post _ _ _ _ _ _ Hh Hpath H) as (_ & _ & E & _).
    + revert H. now apply abort_no_pio_callback.
  - intros abort_dma H. split.
    + rewrite stream_stop_as_false in H
        by (rewrite Hdip; now destruct abort_dma).
      rewrite stream_stop_unfold in H by exact Hh.
      destruct (do_while _ _ _) as [x w1| |] eqn:E; try discriminate.
      destruct x as [r|r]; injection H as <- <-.
      * unfold stop_cleanup, callback_set.
        destruct (stream_cb w1 =? 0) eqn:Ecb; cbn [negb]; fields;
          [now apply Z.eqb_eq in Ecb|].
        destruct (_ || _); reflexivity.
      * revert E.
        apply (do_while_inv (fun w0 => 0 < cmd_hnd w0)
                 (fun x w1 => match x with
                              | inl _ => True
                              | inr _ => stream_cb w1 = 0
                              end)); [|exact Hh].
        intros w0 r0 w0' Hlive. rewrite stream_stop_body_run. cbv zeta.
        destruct (stop_waits _); [intros [= <- <-]; exact Hlive|].
        destruct (_ <? 0); [now intros [= <- _]|].
        destruct (_ || _); [now intros [= <- _]|].
        destruct (cdrom_abort_cmd _ _ _ _ _) as [rv2 w2| |] eqn:Ea;
          try discriminate.
        intros [= <- <-].
        now destruct (abort_post fuel 1000 false
                        (add_event EvMutexUnlock (checked fw (cmd_hnd w0) w0))
                        rv2 w2 Hlive eq_refl Ea)
          as (_ & _ & Ecb & _).
    + revert H. now apply stop_no_pio_callback.
Qed.

(** *** A DMA request that does not wait *)

(** The DMA interrupt of a transfer nobody waits for: the mutex is
    released in the name of the recorded thread and the callback of the
    stream handed to the firmware. *)
Lemma g1_dma_irq_nonblocking_run w :
  dma_in_progress w = true ->
  cmd_in_progress w = false ->
  dma_blocking w = false ->
  dma_thd w <> 0 ->
  stream_mode w <> -1 ->
  old_dma_irq_hdl w = 0 ->
  g1_dma_irq_hnd fw w
  = Done tt
      (add_event (EvDmaCallback (stream_cb w) (stream_cb_param w))
         (with_vars (set_dma_thd 0)
            (add_event (EvMutexUnlockAsThread (dma_thd w))
               (with_vars (set_dma_in_progress false) w)))).
Proof.
  intros Hdip Hcip Hblk Hthd Hsm Hold. unfold g1_dma_irq_hnd. run.
  rewrite Hdip. run. rewrite Hcip. run. rewrite Hblk.
  rewrite (eqb_false _ _ Hthd). run.
  rewrite (eqb_false _ _ Hsm). run.
  rewrite Hold. reflexivity.
Qed.

(** A stream request in a DMA mode with [block] false, when the
    firmware accepts the transfer. *)
Lemma stream_request_nonblocking_run fuel buffer size w :
  Z.land MEM_AREA_CACHE_MASK 31 = 31 ->
  stream_mode w = CDROM_READ_DMA \/ stream_mode w = CDROM_READ_DMA_IRQ ->
  0 < cmd_hnd w ->
  dma_in_progress w = false ->
  Z.land buffer 31 = 0 ->
  0 <= gdrom_dma_transfer fw (n_dma_transfer w) ->
  let p0 := int32 (Z.land (u32 buffer) MEM_AREA_CACHE_MASK) in
  let thd := if irq_inside_int fw then 4294967295 else thd_current fw in
  let w0 := if Z.shiftr p0 24 =? 12
            then add_event (EvDcacheInval (u32 buffer) (u32 size)) w else w in
  cdrom_stream_request fw fuel buffer size false w
  = Done ERR_OK
      (add_event EvMutexUnlock
         (with_pos bump_dma_transfer
            (add_event (EvDmaTransfer (cmd_hnd w) p0 (int32 size))
               (with_vars (set_dma_thd thd)
                  (with_vars (set_dma_blocking false)
                     (with_vars (set_dma_in_progress true)
                        (add_event EvMutexLock w0))))))).
Proof.
  intros Hmask Hmode Hh Hdip Halign Hrs p0 thd w0.
  unfold cdrom_stream_request. run.
  rewrite (leb_false _ _ Hh), Hdip.
  assert (E : (stream_mode w =? CDROM_READ_DMA)
              || (stream_mode w =? CDROM_READ_DMA_IRQ) = true).
  { apply orb_true_iff. now rewrite !Z.eqb_eq. }
  rewrite E, dma_address_bits, Halign by exact Hmask.
  cbn [Z.eqb negb]. fold p0. subst w0 thd.
  destruct (Z.shiftr p0 24 =? 12); run;
    (destruct (irq_inside_int fw); run; rewrite (ltb_false _ _ Hrs);
     reflexivity).
Qed.

(** A stream request in a DMA mode with [block] false returns [ERR_OK]
    as soon as the firmware has accepted the transfer: it has checked
    nothing, the transfer is in progress and the calling thread (or
    [0xFFFFFFFF] inside an interrupt) recorded; the mutex it took is
    released as it returns.  The DMA interrupt that follows ends the
    transfer, releases the mutex once more, in the name of the recorded
    thread, and hands the callback of the stream to the firmware. *)
Theorem dma_request_without_wait fuel buffer size w :
  Z.land MEM_AREA_CACHE_MASK 31 = 31 ->
  stream_mode w = CDROM_READ_DMA \/ stream_mode w = CDROM_READ_DMA_IRQ ->
  stream_mode w <> -1 ->
  0 < cmd_hnd w ->
  dma_in_progress w = false ->
  cmd_in_progress w = false ->
  old_dma_irq_hdl w = 0 ->
  Z.land buffer 31 = 0 ->
  0 <= gdrom_dma_transfer fw (n_dma_transfer w) ->
  let p0 := int32 (Z.land (u32 buffer) MEM_AREA_CACHE_MASK) in
  let thd := if irq_inside_int fw then 4294967295 else thd_current fw in
  thd <> 0 ->
  exists w1 w2 cache,
    cdrom_stream_request fw fuel buffer size false w = Done ERR_OK w1 /\
    trace w1
    = trace w ++ cache
      ++ [EvMutexLock; EvDmaTransfer (cmd_hnd w) p0 (int32 size); EvMutexUnlock] /\
    cache = (if Z.shiftr p0 24 =? 12
             then [EvDcacheInval (u32 buffer) (u32 size)] else []) /\
    n_check w1 = n_check w /\
    dma_in_progress w1 = true /\ dma_blocking w1 = false /\ dma_thd w1 = thd /\
    g1_dma_irq_hnd fw w1 = Done tt w2 /\
    trace w2
    = trace w1
      ++ [EvMutexUnlockAsThread thd;
          EvDmaCallback (stream_cb w) (stream_cb_param w)] /\
    dma_in_progress w2 = false /\ dma_thd w2 = 0 /\ cmd_hnd w2 = cmd_hnd w.
Proof.
  intros Hmask Hmode Hsm Hh Hdip Hcip Hold Halign Hrs p0 thd Hthd.
  rewrite (stream_request_nonblocking_run fuel buffer size w Hmask Hmode Hh
             Hdip Halign Hrs).
  cbv zeta. fold p0 thd.
  destruct (Z.shiftr p0 24 =? 12);
    [eexists _, _, [EvDcacheInval (u32 buffer) (u32 size)]
    |eexists _, _, []];
    (split; [reflexivity|];
     split; [fields; rewrite <- !app_assoc; reflexivity|];
     split; [reflexivity|];
     split; [reflexivity|]; split; [reflexivity|]; split; [reflexivity|];
     split; [reflexivity|];
     split; [apply g1_dma_irq_nonblocking_run; fields;
             assumption || reflexivity|];
     fields; split; [rewrite <- !app_assoc; cbn [app]; reflexivity|];
     repeat split).
Qed.

(** *** A transfer the firmware refuses *)

(** When the firmware refuses the transfer of a stream request (a
    negative result of [syscall_gdrom_dma_transfer] or
    [syscall_gdrom_pio_transfer]), the request returns [ERR_SYS] without
    a single check of the command; the handle and the stream mode stay.
    In the DMA modes the transfer is declared not in progress, not
    blocking and without a thread again; in the mode [CDROM_READ_PIO]
    no variable has changed. *)
Theorem refused_transfer_is_rolled_back fuel buffer size block w :
  Z.land MEM_AREA_CACHE_MASK 31 = 31 ->
  0 < cmd_hnd w ->
  dma_in_progress w = false ->
  (stream_mode w = CDROM_READ_DMA \/ stream_mode w = CDROM_READ_DMA_IRQ ->
   Z.land buffer 31 = 0 ->
   gdrom_dma_transfer fw (n_dma_transfer w) < 0 ->
   exists w',
     cdrom_stream_request fw fuel buffer size block w = Done ERR_SYS w' /\
     dma_in_progress w' = false /\ dma_blocking w' = false /\ dma_thd w' = 0 /\
     cmd_hnd w' = cmd_hnd w /\ stream_mode w' = stream_mode w /\
     n_check w' = n_check w) /\
  (stream_mode w = CDROM_READ_PIO ->
   CDROM_READ_PIO <> CDROM_READ_DMA ->
   CDROM_READ_PIO <> CDROM_READ_DMA_IRQ ->
   Z.land buffer 1 = 0 ->
   gdrom_pio_transfer fw (n_pio_transfer w) < 0 ->
   exists w',
     cdrom_stream_request fw fuel buffer size block w = Done ERR_SYS w' /\
     vars w' = vars w /\ n_check w' = n_check w).
Proof.
  intros Hmask Hh Hdip. split.
  - intros Hmode Halign Hrs. unfold cdrom_stream_request. run.
    rewrite (leb_false _ _ Hh), Hdip.
    assert (E : (stream_mode w =? CDROM_READ_DMA)
                || (stream_mode w =? CDROM_READ_DMA_IRQ) = true).
    { apply orb_true_iff. now rewrite !Z.eqb_eq. }
    rewrite E, dma_address_bits, Halign by exact Hmask.
    cbn [Z.eqb negb]. apply Z.ltb_lt in Hrs.
    destruct (Z.shiftr _ 24 =? 12); run;
      (destruct block; run;
       [|destruct (irq_inside_int fw); run]; rewrite Hrs; run;
       eexists; (split; [reflexivity|]); repeat split).
  - intros Hmode Hdma Hdmai Heven Hrs. unfold cdrom_stream_request. run.
    rewrite (leb_false _ _ Hh), Hdip, Hmode.
    rewrite (eqb_false _ _ Hdma), (eqb_false _ _ Hdmai). fields.
    rewrite pio_address_bit, Heven, (Z.eqb_refl CDROM_READ_PIO).
    cbn [Z.eqb negb]. run. apply Z.ltb_lt in Hrs. rewrite Hrs. run.
    eexists. split; [reflexivity|]. split; reflexivity.
Qed.

(** *** A request that sees the command end *)

(** The loop of a PIO request when the response of turn [k] is an
    error or the end of the command. *)
Lemma pio_loop_command_ends k :
  forall fuel w,
    (k < fuel)%nat ->
    (forall i, (i < k)%nat ->
       keeps_streaming (response fw (n_check w + i) (cmd_hnd w)) = true) ->
    (forall i, (i < k)%nat ->
       fst (gdrom_pio_check fw (n_pio_check w + i)) <> 0) ->
    keeps_streaming (response fw (n_check w + k) (cmd_hnd w)) = false ->
    do_while fuel (stream_pio_body fw) w
    = let w1 := checked fw (cmd_hnd w) (turns k (pio_turn fw (cmd_hnd w)) w) in
      if response fw (n_check w + k) (cmd_hnd w) <? 0
      then Done (inl ERR_SYS) w1
      else Done (inl ERR_OK) (with_vars (set_cmd_hnd 0) w1).
Proof.
  induction k as [|k IH]; intros fuel w Hfuel Hgo Hwait Hend;
    (destruct fuel as [|fuel]; [lia|]); cbn [do_while];
    rewrite stream_pio_body_run; cbv zeta; fields.
  - rewrite Nat.add_0_r in *. rewrite Hend. cbn [negb turns].
    destruct (_ <? 0); reflexivity.
  - assert (G0 : keeps_streaming (response fw (n_check w) (cmd_hnd w)) = true)
      by (rewrite <- (Nat.add_0_r (n_check w)); apply Hgo; lia).
    rewrite G0. cbn [negb].
    rewrite eqb_false
      by (rewrite <- (Nat.add_0_r (n_pio_check w)); apply Hwait; lia).
    cbn [turns].
    rewrite (IH fuel (pio_turn fw (cmd_hnd w) w));
      unfold pio_turn, pio_checked; fields; [|lia| | |].
    + rewrite !Nat.add_succ_comm. reflexivity.
    + intros i Hi. rewrite Nat.add_succ_comm. apply Hgo. lia.
    + intros i Hi. rewrite Nat.add_succ_comm. apply Hwait. lia.
    + rewrite Nat.add_succ_comm. exact Hend.
Qed.

Lemma turns_pio_mode h k w :
  stream_mode (turns k (pio_turn fw h) w) = stream_mode w.
Proof.
  revert w. induction k as [|k IH]; intros w; [reflexivity|].
  cbn [turns]. now rewrite IH.
Qed.

Lemma stream_request_idle fuel buffer size block w :
  cmd_hnd w <= 0 ->
  cdrom_stream_request fw fuel buffer size block w = Done ERR_NO_ACTIVE w.
Proof.
  intros H. unfold cdrom_stream_request. run.
  apply Z.leb_le in H. now rewrite H.
Qed.

(** A PIO stream request during which the command ends.  When a check
    of the command answers [COMPLETED] or [NO_ACTIVE] the request
    returns [ERR_OK] and clears the handle, but the stream mode stays:
    from then on every request is answered [ERR_NO_ACTIVE] and does
    nothing, and [cdrom_stream_progress] reports nothing left.  When
    the check answers an error (a negative response) the request returns
    [ERR_SYS] and the handle stays. *)
Theorem pio_request_ends_with_command fuel buffer size block w k :
  CDROM_READ_PIO <> CDROM_READ_DMA ->
  CDROM_READ_PIO <> CDROM_READ_DMA_IRQ ->
  stream_mode w = CDROM_READ_PIO ->
  0 < cmd_hnd w ->
  dma_in_progress w = false ->
  Z.land buffer 1 = 0 ->
  0 <= gdrom_pio_transfer fw (n_pio_transfer w) ->
  (forall i, (i < k)%nat ->
     keeps_streaming (response fw (n_check w + i) (cmd_hnd w)) = true) ->
  (forall i, (i < k)%nat -> fst (gdrom_pio_check fw (n_pio_check w + i)) <> 0) ->
  keeps_streaming (response fw (n_check w + k) (cmd_hnd w)) = false ->
  (k < fuel)%nat ->
  let r := response fw (n_check w + k) (cmd_hnd w) in
  exists w',
    cdrom_stream_request fw fuel buffer size block w
    = Done (if r <? 0 then ERR_SYS else ERR_OK) w' /\
    cmd_hnd w' = (if r <? 0 then cmd_hnd w else 0) /\
    stream_mode w' = CDROM_READ_PIO /\
    cmd_response w' = r /\
    (0 <= r ->
     (forall buffer' size' block',
         cdrom_stream_request fw fuel buffer' size' block' w'
         = Done ERR_NO_ACTIVE w') /\
     cdrom_stream_progress fw true w' = Done (0, Some 0) w').
Proof.
  intros Hdma Hdmai Hmode Hh Hdip Heven Hrs Hgo Hwait Hend Hfuel r.
  unfold cdrom_stream_request at 1. run.
  rewrite (leb_false _ _ Hh), Hdip, Hmode.
  rewrite (eqb_false _ _ Hdma), (eqb_false _ _ Hdmai). fields.
  rewrite pio_address_bit, Heven, (Z.eqb_refl CDROM_READ_PIO).
  cbn [Z.eqb negb]. run.
  rewrite (ltb_false _ _ Hrs).
  match goal with
  | |- context [do_while fuel _ ?w0] => set (ws := w0)
  end.
  rewrite (pio_loop_command_ends k fuel ws); try assumption.
  cbv zeta.
  destruct (turns_pio_frame (cmd_hnd ws) k ws) as (Hc & _ & Hhnd & _).
  cbv zeta in Hc, Hhnd.
  change (cmd_hnd ws) with (cmd_hnd w) in *.
  change (n_check ws) with (n_check w) in *. fold r.
  assert (Hsm : stream_mode (turns k (pio_turn fw (cmd_hnd w)) ws)
                = CDROM_READ_PIO)
    by (now rewrite turns_pio_mode).
  destruct (r <? 0) eqn:Er; run;
    (eexists; (split; [reflexivity|]); fields; rewrite ?Hc, ?Hhnd;
     (split; [reflexivity|]); (split; [exact Hsm|]); (split; [reflexivity|])).
  - intros Hr. apply Z.ltb_lt in Er. lia.
  - intros _. split.
    + intros buffer' size' block'. apply stream_request_idle. fields. lia.
    + unfold cdrom_stream_progress. run. reflexivity.
Qed.

(** *** Stopping a stream whose command is over *)

Lemma turns_idle_no_abort h k w :
  adds no_abort w (turns k (idle_turn fw h) w) /\
  stream_cb (turns k (idle_turn fw h) w) = stream_cb w.
Proof.
  revert w. induction k as [|k IH]; intros w; cbn [turns].
  - split; [apply adds_refl|reflexivity].
  - destruct (IH (idle_turn fw h w)) as (Ha & Hcb). split; [|exact Hcb].
    refine (adds_trans _ _ _ _ _ Ha).
    exists [EvExecServer; EvCheckCommand h; EvThdPass].
    split; [|reflexivity]. unfold idle_turn, checked. fields.
    now rewrite <- !app_assoc.
Qed.

(** [cdrom_stream_stop] on a live handle whose command the firmware
    reports over ([COMPLETED] or [NO_ACTIVE]) or failed (a negative
    response) after [k] turns of waiting: no abort is sent, the stream
    is forgotten in both cases (handle 0, mode [-1], no callback), and
    the result is [ERR_OK] in the first case and [ERR_SYS] in the
    second. *)
Theorem stream_stop_of_finished_command fuel abort_dma w k :
  0 < cmd_hnd w ->
  abort_dma && dma_in_progress w = false ->
  (forall i, (i < k)%nat ->
     stop_waits (response fw (n_check w + i) (cmd_hnd w)) = true) ->
  keeps_streaming (response fw (n_check w + k) (cmd_hnd w)) = false ->
  (k < fuel)%nat ->
  let r := response fw (n_check w + k) (cmd_hnd w) in
  exists w',
    cdrom_stream_stop fw fuel abort_dma w
    = Done (if r <? 0 then ERR_SYS else ERR_OK) w' /\
    cmd_hnd w' = 0 /\ stream_mode w' = -1 /\ stream_cb w' = 0 /\
    cmd_response w' = r /\
    n_check w' = (n_check w + S k)%nat /\
    adds no_abort w w'.
Proof.
  intros Hh Hdma Hwait Hend Hk r.
  rewrite (stream_stop_as_false _ _ _ Hdma), (stream_stop_unfold _ _ Hh).
  assert (Hstop : stop_waits (response fw (n_check w + k) (cmd_hnd w)) = false)
    by (unfold stop_waits; now rewrite Hend).
  rewrite (stop_loop_run fuel k fuel (add_event EvMutexLock w) Hk Hwait Hstop).
  cbv zeta. fields. fold r.
  set (w1 := checked fw (cmd_hnd w)
               (turns k (idle_turn fw (cmd_hnd w)) (add_event EvMutexLock w))).
  assert (Hw1 : adds no_abort w w1 /\ stream_cb w1 = stream_cb w /\
                n_check w1 = (n_check w + S k)%nat /\ cmd_response w1 = r).
  { destruct (turns_idle_no_abort (cmd_hnd w) k (add_event EvMutexLock w))
      as (Ha & Hcb).
    destruct (turns_idle_frame (cmd_hnd w) k (add_event EvMutexLock w))
      as (Hc & _).
    cbv zeta in Hc. fields. subst w1. unfold checked at 2 3 4. fields.
    rewrite Hc, Hcb. fields. repeat split; [|lia].
    apply (adds_trans _ _ (add_event EvMutexLock w));
      [exists [EvMutexLock]; split; reflexivity|].
    apply (adds_trans _ _ _ _ Ha).
    exists [EvExecServer; EvCheckCommand (cmd_hnd w)]. split; [|reflexivity].
    unfold checked. fields. now rewrite <- !app_assoc. }
  destruct Hw1 as (Ha & Hcb & Hc & Hr).
  assert (Hclean : cmd_hnd (stop_cleanup w1) = 0 /\
                   stream_mode (stop_cleanup w1) = -1 /\
                   stream_cb (stop_cleanup w1) = 0 /\
                   cmd_response (stop_cleanup w1) = r /\
                   n_check (stop_cleanup w1) = (n_check w + S k)%nat /\
                   adds no_abort w (stop_cleanup w1)).
  { unfold stop_cleanup, callback_set.
    destruct (stream_cb w1 =? 0) eqn:Ecb; cbn [negb];
      [apply Z.eqb_eq in Ecb|destruct (_ || _)]; fields;
      (repeat split; try assumption; try reflexivity);
      apply (adds_trans _ _ _ _ Ha); unfold adds; fields; eexists;
      (split; [rewrite <- ?app_assoc; reflexivity|reflexivity]). }
  unfold keeps_streaming in Hend. fold r in Hend.
  destruct (r <? 0); [eexists; split; [reflexivity|exact Hclean]|].
  cbn [negb andb] in Hend. apply negb_false_iff in Hend. rewrite Hend.
  eexists. split; [reflexivity|exact Hclean].
Qed.

(** *** What [cdrom_stream_start] leaves *)

Lemma sem_wait_same_mode count set fuel :
  (forall v s, stream_mode (set v s) = stream_mode s) ->
  keeps (same stream_mode) (sem_wait fw count set fuel).
Proof.
  intros Hset. apply keeps_sem_wait; eauto with keeps.
  - intros w. reflexivity.
  - intros v w a w' [= _ <-]. unfold same. fields. apply Hset.
Qed.

Lemma req_loop_same_mode left cmd param hnd :
  keeps (same stream_mode) (cdrom_req_cmd_loop fw left cmd param hnd).
Proof.
  revert hnd. induction left as [|left IH]; intros hnd;
    cbn [cdrom_req_cmd_loop]; frames.
Qed.

Lemma exec_same_mode fuel cmd param use_irq :
  keeps (same stream_mode) (cdrom_exec_cmd_ex fw fuel cmd param 0 use_irq).
Proof.
  assert (Hsem : keeps (same stream_mode) (sem_wait fw cmd_done set_cmd_done fuel))
    by (apply sem_wait_same_mode; reflexivity).
  pose proof req_loop_same_mode as Hreq.
  unfold cdrom_exec_cmd_ex, cdrom_poll_cmd, poll_body, cdrom_req_cmd.
  cbn [Z.eqb negb]. frames.
Qed.

(** [cdrom_stream_start], step by step: the stop of the stream that was
    live, if any; the mode remembered; the command; the mode forgotten
    if the command failed. *)
Lemma stream_start_cases fuel sector cnt mode w rv w' :
  cdrom_stream_start fw fuel sector cnt mode w = Done rv w' ->
  exists w0 cmd use_irq w1,
    cdrom_exec_cmd_ex fw fuel cmd [sector; cnt] 0 use_irq
      (with_vars (set_stream_mode mode) w0) = Done rv w1 /\
    w' = (if err_eqb rv ERR_OK then w1 else with_vars (set_stream_mode (-1)) w1).
Proof.
  unfold cdrom_stream_start. run.
  assert (Hexec : forall w0,
             match
               (if mode =? CDROM_READ_DMA
                then cdrom_exec_cmd_ex fw fuel CMD_DMAREAD_STREAM [sector; cnt] 0 false
                else if mode =? CDROM_READ_DMA_IRQ
                then cdrom_exec_cmd_ex fw fuel CMD_DMAREAD_STREAM [sector; cnt] 0 true
                else if mode =? CDROM_READ_PIO_IRQ
                then cdrom_exec_cmd_ex fw fuel CMD_PIOREAD_STREAM [sector; cnt] 0 true
                else cdrom_exec_cmd_ex fw fuel CMD_PIOREAD_STREAM [sector; cnt] 0 false)
                 (with_vars (set_stream_mode mode) w0)
             with
             | Done a w1 =>
                 match
                   (if negb (err_eqb a ERR_OK)
                    then fun w2 => Done tt (with_vars (set_stream_mode (-1)) w2)
                    else fun w2 => Done tt w2) w1
                 with
                 | Done _ w2 => Done a w2
                 | AssertFailed => AssertFailed
                 | OutOfFuel => OutOfFuel
                 end
             | AssertFailed => AssertFailed
             | OutOfFuel => OutOfFuel
             end = Done rv w' ->
             exists w0 cmd use_irq w1,
               cdrom_exec_cmd_ex fw fuel cmd [sector; cnt] 0 use_irq
                 (with_vars (set_stream_mode mode) w0) = Done rv w1 /\
               w' = (if err_eqb rv ERR_OK then w1
                     else with_vars (set_stream_mode (-1)) w1)).
  { intros w0.
    destruct (mode =? CDROM_READ_DMA);
      [|destruct (mode =? CDROM_READ_DMA_IRQ);
        [|destruct (mode =? CDROM_READ_PIO_IRQ)]];
      (destruct (cdrom_exec_cmd_ex _ _ _ _ _ _ _) as [a w1| |] eqn:E;
       try discriminate;
       destruct (err_eqb a ERR_OK) eqn:Ea; cbn [negb];
       intros [= <- <-]; eexists w0, _, _, w1; rewrite Ea;
       (split; [exact E|reflexivity])). }
  destruct (negb (stream_mode w =? -1)).
  - destruct (cdrom_stream_stop fw fuel false w) as [r w0| |];
      try discriminate. run. apply Hexec.
  - run. apply Hexec.
Qed.

(** When [cdrom_stream_start] returns [ERR_OK] the stream mode is the
    mode asked for, and otherwise it is [-1]; the handle is live only
    after [ERR_OK], and only when the command was answered [STREAMING];
    the result is never [ERR_TIMEOUT]. *)
Theorem stream_start_remembers_mode_on_success fuel sector cnt mode w rv w' :
  cdrom_stream_start fw fuel sector cnt mode w = Done rv w' ->
  stream_mode w' = (if err_eqb rv ERR_OK then mode else -1) /\
  (0 < cmd_hnd w' -> rv = ERR_OK /\ cmd_response w' = STREAMING) /\
  rv <> ERR_TIMEOUT.
Proof.
  intros H.
  destruct (stream_start_cases _ _ _ _ _ _ _ H)
    as (w0 & cmd & use_irq & w1 & Hexec & ->).
  pose proof (exec_same_mode _ _ _ _ _ _ _ Hexec) as Hmode.
  pose proof (exec_live_handle _ _ _ _ _ _ _ _ Hexec) as Hlive.
  destruct (exec_result_without_timeout _ _ _ _ _ _ _ Hexec) as (Hrv & _).
  unfold same in Hmode. fields.
  destruct (err_eqb rv ERR_OK); fields; auto.
Qed.

(** *** Sector reads by DMA *)

Lemma read_sectors_dma_run fuel buffer sector cnt mode w :
  mode = CDROM_READ_DMA \/ mode = CDROM_READ_DMA_IRQ ->
  Z.land buffer 31 = 0 ->
  cdrom_read_sectors_ex fw fuel buffer sector cnt mode w
  = let params := [sector; cnt; Z.land (u32 buffer) MEM_AREA_CACHE_MASK; 0] in
    if mode =? CDROM_READ_DMA_IRQ
    then cdrom_read_sectors_dma_irq fw fuel params (read_prepared buffer cnt w)
    else cdrom_exec_cmd fw fuel CMD_DMAREAD params (read_prepared buffer cnt w).
Proof.
  intros Hmode Halign. unfold cdrom_read_sectors_ex, read_prepared.
  assert (E : (mode =? CDROM_READ_DMA) || (mode =? CDROM_READ_DMA_IRQ) = true).
  { apply orb_true_iff. now rewrite !Z.eqb_eq. }
  rewrite E. change 31 with (Z.ones 5). rewrite read_address_bits by lia.
  change (Z.ones 5) with 31. rewrite Halign. cbn [Z.eqb negb]. run.
  destruct (negb _); run; destruct (mode =? CDROM_READ_DMA_IRQ); reflexivity.
Qed.

Lemma read_dma_irq_unfold fuel params w h w1 :
  cdrom_req_cmd fw CMD_DMAREAD params (add_event EvMutexLock w) = Done h w1 ->
  0 < h ->
  cdrom_read_sectors_dma_irq fw fuel params w
  = match read_dma_wait fw fuel (read_dma_armed h w1) with
    | Done _ w3 =>
        Done (read_result (cmd_response w3) (nth 0 (cmd_status w3) 0))
             (read_dma_finish w3)
    | AssertFailed => AssertFailed
    | OutOfFuel => OutOfFuel
    end.
Proof.
  intros Hreq Hh.
  unfold cdrom_read_sectors_dma_irq, read_dma_wait, read_dma_armed,
    read_dma_finish, read_result.
  run. rewrite Hreq, (leb_false _ _ Hh).
  repeat (run;
          match goal with
          | |- context [match check_until ?a ?b ?c ?d with _ => _ end] =>
              destruct (check_until a b c d) as [[] ?| |]
          | |- context [match sem_wait ?a ?b ?c ?d ?e with _ => _ end] =>
              destruct (sem_wait a b c d e) as [[] ?| |]
          | |- context [if ?b then _ else _] => destruct b
          end); reflexivity.
Qed.

(** A loop whose turn checks the command and leaves when [leave] holds
    of the response, when it holds for the first time in turn [k]. *)
Lemma do_while_checks (body : M (flow unit unit)) (leave : Z -> bool) :
  (forall w,
      body w
      = if leave (response fw (n_check w) (cmd_hnd w))
        then Done (Break tt) (checked fw (cmd_hnd w) w)
        else Done Continue (idle_turn fw (cmd_hnd w) w)) ->
  forall k fuel w,
    (k < fuel)%nat ->
    (forall i, (i < k)%nat ->
       leave (response fw (n_check w + i) (cmd_hnd w)) = false) ->
    leave (response fw (n_check w + k) (cmd_hnd w)) = true ->
    do_while fuel body w
    = Done (inl tt) (checked fw (cmd_hnd w) (turns k (idle_turn fw (cmd_hnd w)) w)).
Proof.
  intros Hbody.
  induction k as [|k IH]; intros fuel w Hfuel Hstay Hleave;
    (destruct fuel as [|fuel]; [lia|]); cbn [do_while]; rewrite Hbody.
  - rewrite Nat.add_0_r in Hleave. now rewrite Hleave.
  - rewrite <- (Nat.add_0_r (n_check w)) at 1. rewrite Hstay by lia.
    cbn [turns].
    rewrite (IH fuel (idle_turn fw (cmd_hnd w) w)); [reflexivity|lia| |];
      unfold idle_turn; fields.
    + intros i Hi. rewrite Nat.add_succ_comm. apply Hstay. lia.
    + rewrite Nat.add_succ_comm. exact Hleave.
Qed.

Lemma check_until_run leave k fuel w :
  (k < fuel)%nat ->
  (forall i, (i < k)%nat ->
     leave (response fw (n_check w + i) (cmd_hnd w)) = false) ->
  leave (response fw (n_check w + k) (cmd_hnd w)) = true ->
  check_until fw fuel leave w
  = Done tt (checked fw (cmd_hnd w) (turns k (idle_turn fw (cmd_hnd w)) w)).
Proof.
  intros Hfuel Hstay Hleave. unfold check_until. unfold bind at 1.
  erewrite (do_while_checks _ leave); [reflexivity| |exact Hfuel|exact Hstay
                                      |exact Hleave].
  intros w0. unfold idle_turn, response, checked. run.
  destruct (leave (fst (gdrom_check_command fw (n_check w0) (cmd_hnd w0))));
    reflexivity.
Qed.

(** A thread sleeps in [sem_wait(&dma_done)] for a blocking transfer
    and the next interrupt, of either kind, finds the command over. *)
Lemma sem_wait_dma_done_run fuel w :
  (2 <= fuel)%nat ->
  dma_done w = 0 ->
  cmd_in_progress w = true ->
  dma_in_progress w = true ->
  dma_blocking w = true ->
  is_busy (response fw (n_check w) (cmd_hnd w)) = false ->
  sem_wait fw dma_done set_dma_done fuel w
  = Done tt
      (with_vars (set_dma_done 0)
         (wakes_dma fw (irq_line fw (n_irq w)) (cmd_hnd w) w)).
Proof.
  intros Hfuel Hsem Hcip Hdip Hblk Hfree.
  destruct fuel as [|[|fuel]]; try lia.
  unfold sem_wait. unfold bind at 1. cbn [do_while].
  unfold sem_wait_turn at 1, deliver_irq. run. rewrite Hsem.
  cbn [Z.ltb Z.compare]. run.
  unfold is_busy, response in Hfree.
  destruct (irq_line fw (n_irq w)); unfold wakes_dma.
  - unfold cdrom_vblank. run. rewrite Hcip. run.
    rewrite <- negb_orb, Hfree. run. rewrite Hdip. run. rewrite Hblk. run.
    unfold sem_wait_turn. run. rewrite Hsem. reflexivity.
  - unfold g1_dma_irq_hnd. run. rewrite Hdip. run. rewrite Hcip. run.
    rewrite Hblk. run.
    destruct (stream_mode w =? -1); run;
      (destruct (old_dma_irq_hdl w =? 0); run;
       unfold sem_wait_turn; run; rewrite Hsem; reflexivity).
Qed.

Lemma turns_idle_vars h k w :
  let w' := turns k (idle_turn fw h) w in
  cmd_hnd w' = cmd_hnd w /\ dma_done w' = dma_done w /\
  dma_in_progress w' = dma_in_progress w /\ dma_blocking w' = dma_blocking w /\
  cmd_in_progress w' = cmd_in_progress w /\ n_irq w' = n_irq w.
Proof.
  revert w. induction k as [|k IH]; intros w; cbn [turns].
  - cbn. auto 10.
  - destruct (IH (idle_turn fw h w)) as (H1 & H2 & H3 & H4 & H5 & H6).
    cbv zeta. rewrite H1, H2, H3, H4, H5, H6. unfold idle_turn. fields. auto 10.
Qed.

(** A sector read in the mode [CDROM_READ_DMA_IRQ] that holds a handle:
    whatever happens during its wait, when it returns the handle is
    cleared and the result is read off the last response and the first
    status word: [COMPLETED] and [NO_ACTIVE] give [ERR_OK], else a
    status of 2 gives [ERR_NO_DISC], of 6 [ERR_DISC_CHG], and the rest
    [ERR_SYS].  When the command is [BUSY] for [k] checks and then
    [PROCESSING], the read sleeps on [dma_done]; the next interrupt,
    the DMA interrupt or a vertical blank, that finds the command over
    wakes it, and it returns with the response of that check deciding:
    then no transfer and no command is in progress and the semaphore is
    back to 0. *)
Theorem dma_irq_read_sleeps_until_interrupt fuel params w h w1 k :
  cdrom_req_cmd fw CMD_DMAREAD params (add_event EvMutexLock w) = Done h w1 ->
  0 < h ->
  (forall rv w',
      cdrom_read_sectors_dma_irq fw fuel params w = Done rv w' ->
      cmd_hnd w' = 0 /\
      rv = read_result (cmd_response w') (nth 0 (cmd_status w') 0)) /\
  (PROCESSING <> BUSY ->
   dma_done w1 = 0 ->
   (forall i, (i < k)%nat -> response fw (n_check w1 + i) h = BUSY) ->
   response fw (n_check w1 + k) h = PROCESSING ->
   is_busy (response fw (n_check w1 + S k) h) = false ->
   (S k < fuel)%nat ->
   exists w',
     cdrom_read_sectors_dma_irq fw fuel params w
     = Done (read_result (response fw (n_check w1 + S k) h)
               (nth 0 (status fw (n_check w1 + S k) h) 0)) w' /\
     cmd_hnd w' = 0 /\ dma_in_progress w' = false /\ dma_blocking w' = false /\
     cmd_in_progress w' = false /\ dma_done w' = 0 /\
     n_irq w' = S (n_irq w1) /\ n_check w' = (n_check w1 + k + 2)%nat).
Proof.
  intros Hreq Hh. split.
  - intros rv w'. rewrite (read_dma_irq_unfold _ _ _ _ _ Hreq Hh).
    destruct (read_dma_wait _ _ _) as [[] w3| |]; try discriminate.
    intros [= <- <-]. split; reflexivity.
  - intros Hpb Hsem Hbusy Hproc Hfree Hfuel.
    rewrite (read_dma_irq_unfold _ _ _ _ _ Hreq Hh).
    unfold read_dma_wait. unfold bind at 1.
    set (wa := read_dma_armed h w1).
    assert (Hwa : cmd_hnd wa = h /\ n_check wa = n_check w1 /\
                  dma_done wa = 0 /\ n_irq wa = n_irq w1)
      by (subst wa; unfold read_dma_armed; fields; auto).
    destruct Hwa as (Hwh & Hwc & Hwd & Hwi).
    rewrite (check_until_run _ k fuel wa); [|lia| |].
    2: { intros i Hi. rewrite Hwh, Hwc, Hbusy by exact Hi.
         now rewrite Z.eqb_refl. }
    2: { rewrite Hwh, Hwc, Hproc. now rewrite (eqb_false _ _ Hpb). }
    rewrite Hwh.
    set (wb := checked fw h (turns k (idle_turn fw h) wa)).
    destruct (turns_idle_vars h k wa) as (T1 & T2 & T3 & T4 & T5 & T6).
    destruct (turns_idle_frame h k wa) as (T7 & _).
    cbv zeta in T1, T2, T3, T4, T5, T6, T7.
    assert (Hwb : cmd_response wb = PROCESSING /\ cmd_hnd wb = h /\
                  dma_done wb = 0 /\ dma_in_progress wb = true /\
                  dma_blocking wb = true /\ n_irq wb = n_irq w1 /\
                  n_check wb = (n_check w1 + S k)%nat).
    { subst wb. unfold checked. fields.
      rewrite T1, T2, T3, T4, T6, T7, Hwh, Hwc, Hwd, Hwi, Hproc.
      repeat split; try reflexivity. lia. }
    destruct Hwb as (B1 & B2 & B3 & B4 & B5 & B6 & B7).
    clearbody wb. clear T1 T2 T3 T4 T5 T6 T7.
    run. rewrite B1, Z.eqb_refl. run.
    set (wc := with_vars (set_cmd_in_progress true) wb).
    rewrite (sem_wait_dma_done_run fuel wc); try assumption; try reflexivity;
      [|lia|subst wc; fields; rewrite B2, B7; exact Hfree].
    set (wd := wakes_dma fw (irq_line fw (n_irq wc)) (cmd_hnd wc) wc).
    assert (Hwoken : cmd_response wd = response fw (n_check w1 + S k) h /\
                  cmd_status wd = status fw (n_check w1 + S k) h /\
                  dma_in_progress wd = false /\ dma_blocking wd = false /\
                  cmd_in_progress wd = false /\
                  n_irq wd = S (n_irq w1) /\
                  n_check wd = (n_check w1 + k + 2)%nat).
    { subst wd wc. fields. rewrite B2.
      destruct (irq_line fw (n_irq wb)); unfold wakes_dma; cbv zeta;
        unfold checked, response, status; fields;
        repeat match goal with
               | |- context [if ?b then _ else _] => destruct b
               end;
        fields; rewrite ?B6, ?B7; repeat split; lia. }
    destruct Hwoken as (D1 & D2 & D3 & D4 & D5 & D7 & D8).
    clearbody wd. run.
    rewrite D1. unfold is_busy in Hfree. rewrite Hfree. run.
    rewrite D1, D2.
    eexists. split; [reflexivity|]. unfold read_dma_finish. fields.
    repeat split; assumption.
Qed.

(** A semaphore that is up is taken at once. *)
Lemma sem_wait_available count set fuel w :
  (0 < fuel)%nat ->
  0 < count (vars w) ->
  sem_wait fw count set fuel w
  = Done tt (with_vars (set (count (vars w) - 1)) w).
Proof.
  intros Hfuel Hc. destruct fuel as [|fuel]; [lia|].
  unfold sem_wait. unfold bind at 1. cbn [do_while].
  unfold sem_wait_turn. run. apply Z.ltb_lt in Hc. now rewrite Hc.
Qed.

(** The end of a command with the response [NO_ACTIVE] is an error for
    a sector read in the mode [CDROM_READ_DMA], which returns
    [ERR_NO_ACTIVE], and a success for the same read in the mode
    [CDROM_READ_DMA_IRQ], which returns [ERR_OK]. *)
Theorem read_no_active_depends_on_mode fuel buffer sector cnt w h w1 :
  CDROM_READ_DMA <> CDROM_READ_DMA_IRQ ->
  NO_ACTIVE <> BUSY ->
  NO_ACTIVE <> PROCESSING ->
  NO_ACTIVE <> COMPLETED ->
  NO_ACTIVE <> STREAMING ->
  Z.land buffer 31 = 0 ->
  cdrom_req_cmd fw CMD_DMAREAD
    [sector; cnt; Z.land (u32 buffer) MEM_AREA_CACHE_MASK; 0]
    (add_event EvMutexLock (read_prepared buffer cnt w)) = Done h w1 ->
  0 < h ->
  response fw (n_check w1) h = NO_ACTIVE ->
  (0 < fuel)%nat ->
  (exists w',
      cdrom_read_sectors_ex fw fuel buffer sector cnt CDROM_READ_DMA w
      = Done ERR_NO_ACTIVE w' /\ cmd_hnd w' = 0) /\
  (exists w',
      cdrom_read_sectors_ex fw fuel buffer sector cnt CDROM_READ_DMA_IRQ w
      = Done ERR_OK w' /\ cmd_hnd w' = 0).
Proof.
  intros Hmodes Hb Hp Hc Hs Halign Hreq Hh Hresp Hfuel. split.
  - rewrite read_sectors_dma_run by (auto || assumption). cbv zeta.
    rewrite (eqb_false _ _ Hmodes). unfold cdrom_exec_cmd.
    rewrite (exec_unfold _ _ _ _ _ _ _ _ Hreq Hh).
    unfold exec_wait. run. rewrite poll_unfold. cbn [Z.eqb negb].
    rewrite (poll_loop_settles fuel h 0 O); [|exact Hfuel|intros i Hi; lia|].
    2: { fields. rewrite Nat.add_0_r, Hresp. unfold is_busy.
         now rewrite (eqb_false _ _ Hp), (eqb_false _ _ Hb). }
    cbn [turns err_eqb]. unfold checked at 1 2. fields. fold (response fw (n_check w1) h).
    rewrite Hresp. unfold result_of_outcome.
    rewrite (eqb_false _ _ Hc), (eqb_false _ _ Hs), Z.eqb_refl. cbn [orb].
    eexists. split; [reflexivity|].
    apply exec_finish_clears. left. unfold checked. fields.
    fold (response fw (n_check w1) h). rewrite Hresp. congruence.
  - rewrite read_sectors_dma_run by (auto || assumption). cbv zeta.
    rewrite Z.eqb_refl.
    rewrite (read_dma_irq_unfold _ _ _ _ _ Hreq Hh).
    unfold read_dma_wait. unfold bind at 1.
    rewrite (check_until_run _ O fuel); [|exact Hfuel|intros i Hi; lia|].
    2: { unfold read_dma_armed. fields. rewrite Nat.add_0_r, Hresp.
         now rewrite (eqb_false _ _ Hb). }
    cbn [turns]. change (cmd_hnd (read_dma_armed h w1)) with h.
    set (wb := checked fw h (read_dma_armed h w1)).
    assert (Hwb : cmd_response wb = NO_ACTIVE).
    { subst wb. unfold checked, read_dma_armed. fields.
      fold (response fw (n_check w1) h). exact Hresp. }
    run. rewrite Hwb, (eqb_false _ _ Hp). run.
    destruct (0 <? dma_done wb) eqn:Ed.
    + rewrite (sem_wait_available dma_done set_dma_done fuel wb Hfuel)
        by (now apply Z.ltb_lt).
      fields. rewrite Hwb. unfold read_result.
      rewrite Z.eqb_refl, orb_true_r.
      eexists. split; reflexivity.
    + run. rewrite Hwb. unfold read_result.
      rewrite Z.eqb_refl, orb_true_r.
      eexists. split; reflexivity.
Qed.

(** *** Sector reads never give up *)

Lemma yields_ret {A : Type} (P : A -> Prop) (a : A) : P a -> yields P (ret a).
Proof. intros H w a' w' [= <- _]. exact H. Qed.

Lemma yields_bind {A B : Type} (P : B -> Prop) (c : M A) (k : A -> M B) :
  (forall a, yields P (k a)) -> yields P (bind c k).
Proof.
  intros Hk w b w'. unfold bind.
  destruct (c w) as [a w1| |]; try discriminate. apply Hk.
Qed.

Lemma yields_scoped {A : Type} (P : A -> Prop) (body : M A) :
  yields P body -> yields P (mutex_lock_scoped body).
Proof.
  intros Hbody w a w'. unfold mutex_lock_scoped. run.
  destruct (body (add_event EvMutexLock w)) as [r w1| |] eqn:E; try discriminate.
  intros [= <- _]. exact (Hbody _ _ _ E).
Qed.

Lemma read_dma_irq_carried_through fuel params :
  yields carried_through (cdrom_read_sectors_dma_irq fw fuel params).
Proof.
  unfold cdrom_read_sectors_dma_irq. apply yields_scoped.
  repeat first
    [ apply yields_ret; split; discriminate
    | apply yields_bind; intros ?
    | match goal with
      | |- yields _ (if ?b then _ else _) => destruct b
      end ].
Qed.

Lemma read_dma_irq_quiet fuel params :
  keeps (adds is_quiet) (cdrom_read_sectors_dma_irq fw fuel params).
Proof.
  assert (Hsem : keeps (adds is_quiet) (sem_wait fw dma_done set_dma_done fuel))
    by apply sem_wait_quiet.
  unfold cdrom_read_sectors_dma_irq, check_until. frames.
Qed.

(** A sector read waits for its command without a timeout, in every
    mode: when [cdrom_read_sectors_ex] returns, the result is neither
    [ERR_TIMEOUT] nor [ERR_ABORTED], and the run made no look at the
    clock, no hardware abort and no reset of the drive.  A mode that is
    none of the four is read as [CDROM_READ_PIO]. *)
Theorem read_sectors_never_gives_up fuel buffer sector cnt mode w rv w' :
  cdrom_read_sectors_ex fw fuel buffer sector cnt mode w = Done rv w' ->
  carried_through rv /\
  adds is_quiet w w' /\
  (mode <> CDROM_READ_DMA -> mode <> CDROM_READ_DMA_IRQ ->
   mode <> CDROM_READ_PIO_IRQ ->
   CDROM_READ_PIO <> CDROM_READ_DMA -> CDROM_READ_PIO <> CDROM_READ_DMA_IRQ ->
   CDROM_READ_PIO <> CDROM_READ_PIO_IRQ ->
   cdrom_read_sectors_ex fw fuel buffer sector cnt mode w
   = cdrom_read_sectors fw fuel buffer sector cnt w).
Proof.
  intros H. split; [|split].
  - assert (Hexec : forall cmd param use_irq,
               yields carried_through
                 (cdrom_exec_cmd_ex fw fuel cmd param 0 use_irq)).
    { intros cmd param use_irq w0 rv0 w0' H0.
      exact (exec_result_without_timeout _ _ _ _ _ _ _ H0). }
    pose proof read_dma_irq_carried_through as Hdma.
    revert H. generalize w rv w'.
    change (yields carried_through
              (cdrom_read_sectors_ex fw fuel buffer sector cnt mode)).
    unfold cdrom_read_sectors_ex, cdrom_exec_cmd. cbv zeta.
    repeat first
      [ apply Hexec
      | apply Hdma
      | apply yields_ret; split; discriminate
      | apply yields_bind; intros ?
      | match goal with
        | |- yields _ (if ?b then _ else _) => destruct b
        end ].
  - pose proof read_dma_irq_quiet as Hdma.
    revert H. generalize w rv w'.
    change (keeps (adds is_quiet)
              (cdrom_read_sectors_ex fw fuel buffer sector cnt mode)).
    unfold cdrom_read_sectors_ex. frames.
  - intros Hd Hi Hp Hd' Hi' Hp'.
    unfold cdrom_read_sectors, cdrom_read_sectors_ex. cbv zeta.
    now rewrite (eqb_false _ _ Hd), (eqb_false _ _ Hi), (eqb_false _ _ Hp),
      (eqb_false _ _ Hd'), (eqb_false _ _ Hi'), (eqb_false _ _ Hp').
Qed.

(** *** Asking for the progress of a transfer *)

(** [cdrom_stream_progress] always returns, and it only asks: no
    variable of the driver changes.  With no live handle it reports the
    result 0 and the size 0 without a call of the firmware.  With a live
    handle it makes one call, [syscall_gdrom_dma_check] in the two DMA
    modes and [syscall_gdrom_pio_check] in every other mode, and
    reports what that call answered; the size is written only through a
    pointer that is not [NULL]. *)
Theorem stream_progress_only_asks size w :
  exists rv left w',
    cdrom_stream_progress fw size w
    = Done (rv, if size then Some left else None) w' /\
    vars w' = vars w /\
    (cmd_hnd w <= 0 -> rv = 0 /\ left = 0 /\ w' = w) /\
    (0 < cmd_hnd w ->
     let dma := (stream_mode w =? CDROM_READ_DMA)
                || (stream_mode w =? CDROM_READ_DMA_IRQ) in
     let answer := if dma then gdrom_dma_check fw (n_dma_check w)
                   else gdrom_pio_check fw (n_pio_check w) in
     rv = fst answer /\ left = u32 (snd answer) /\
     trace w' = trace w ++ [if dma then EvDmaCheck (cmd_hnd w)
                            else EvPioCheck (cmd_hnd w)] /\
     n_check w' = n_check w).
Proof.
  unfold cdrom_stream_progress. run.
  destruct (cmd_hnd w <=? 0) eqn:Eh.
  - apply Z.leb_le in Eh. exists 0, 0, w. run.
    split; [destruct size; reflexivity|]. split; [reflexivity|].
    split; [auto|lia].
  - apply Z.leb_gt in Eh.
    destruct ((stream_mode w =? CDROM_READ_DMA)
              || (stream_mode w =? CDROM_READ_DMA_IRQ)); run;
      (eexists _, _, _; split; [destruct size; reflexivity|];
       split; [reflexivity|]; split; [lia|]; intros _; cbv zeta;
       repeat split).
Qed.

Section Rest.

Context {rest : Header_rest}.

(** *** Playing audio *)

Lemma int32_small (x : Z) : 0 <= x < 2 ^ 31 -> int32 x = x.
Proof.
  intros H. unfold int32. rewrite Z.mod_small by lia.
  destruct (x <? 2 ^ 31) eqn:E; [reflexivity|]. apply Z.ltb_ge in E. lia.
Qed.

Lemma u32_range (x : Z) : 0 <= u32 x < 2 ^ 32.
Proof. unfold u32. apply Z.mod_pos_bound. lia. Qed.

(** [cdrom_cdda_play] sends [CMD_PLAY] for [CDDA_TRACKS] and
    [CMD_PLAY2] for [CDDA_SECTORS], with the repeat count cut down to
    15: what the firmware gets is the lesser of the count and 15.  For
    any other mode it returns [ERR_OK] and has done nothing: a mode it
    does not know is no error.  Whatever the mode, it waits for the
    command without a timeout: it returns neither [ERR_TIMEOUT] nor
    [ERR_ABORTED] and makes no abort and no reset. *)
Theorem cdda_play_clamps_repeat fuel start end_ repeat mode w :
  let sent := [int32 (u32 start); int32 (u32 end_); Z.min (u32 repeat) 15] in
  (mode = CDDA_TRACKS ->
   cdrom_cdda_play fw fuel start end_ repeat mode w
   = cdrom_exec_cmd fw fuel CMD_PLAY sent w) /\
  (mode <> CDDA_TRACKS -> mode = CDDA_SECTORS ->
   cdrom_cdda_play fw fuel start end_ repeat mode w
   = cdrom_exec_cmd fw fuel CMD_PLAY2 sent w) /\
  (mode <> CDDA_TRACKS -> mode <> CDDA_SECTORS ->
   cdrom_cdda_play fw fuel start end_ repeat mode w = Done ERR_OK w) /\
  0 <= Z.min (u32 repeat) 15 <= 15 /\
  (forall rv w',
      cdrom_cdda_play fw fuel start end_ repeat mode w = Done rv w' ->
      rv <> ERR_TIMEOUT /\ rv <> ERR_ABORTED /\ adds is_quiet w w').
Proof.
  assert (Hquiet : forall rv w',
             cdrom_cdda_play fw fuel start end_ repeat mode w = Done rv w' ->
             rv <> ERR_TIMEOUT /\ rv <> ERR_ABORTED /\ adds is_quiet w w').
  { intros rv w'. unfold cdrom_cdda_play, cdrom_exec_cmd.
    destruct (mode =? CDDA_TRACKS); [|destruct (mode =? CDDA_SECTORS)];
      intros H.
    - destruct (exec_result_without_timeout _ _ _ _ _ _ _ H) as [H1 H2].
      split; [exact H1|split; [exact H2|exact (exec_quiet _ _ _ _ _ _ _ H)]].
    - destruct (exec_result_without_timeout _ _ _ _ _ _ _ H) as [H1 H2].
      split; [exact H1|split; [exact H2|exact (exec_quiet _ _ _ _ _ _ _ H)]].
    - injection H as <- <-.
      split; [discriminate|split; [discriminate|apply adds_refl]]. }
  assert (E : int32 (if u32 repeat >? 15 then 15 else u32 repeat)
              = Z.min (u32 repeat) 15).
  { pose proof (u32_range repeat) as Hr.
    destruct (Z.gtb_spec (u32 repeat) 15).
    - rewrite Z.min_r by lia. reflexivity.
    - rewrite Z.min_l by lia. apply int32_small. lia. }
  cbv zeta. split; [|split; [|split; [|split; [|exact Hquiet]]]];
    clear Hquiet; unfold cdrom_cdda_play; rewrite ?E.
  - intros ->. now rewrite Z.eqb_refl.
  - intros Ht ->. now rewrite (eqb_false _ _ Ht), Z.eqb_refl.
  - intros Ht Hs. now rewrite (eqb_false _ _ Ht), (eqb_false _ _ Hs).
  - pose proof (u32_range repeat). lia.
Qed.

(** *** Runs in a system *)

Variable kn : kernel.
Implicit Types (s : system).

Ltac kfields :=
  cbn [drv vblank_hnd inited made memory log with_drv with_made with_memory
       set_vblank_hnd set_inited add_call add_calls
       n_check_drive n_sector_mode n_lock_irqsafe n_set_handler n_vblank_add
       bump_check_drive bump_sector_mode bump_lock_irqsafe bump_set_handler
       bump_vblank_add].

Ltac kfields_in H :=
  cbn [drv vblank_hnd inited made memory log with_drv with_made with_memory
       set_vblank_hnd set_inited add_call add_calls
       n_check_drive n_sector_mode n_lock_irqsafe n_set_handler n_vblank_add
       bump_check_drive bump_sector_mode bump_lock_irqsafe bump_set_handler
       bump_vblank_add
       vars pos trace with_vars old_dma_irq_hdl old_dma_irq_data
       set_old_dma_irq set_old_dma_irq_hdl fst snd] in H.

Ltac krun :=
  cbv beta iota zeta delta
    [kbind kret look change record syscall_gdrom_check_drive
     syscall_gdrom_sector_mode mutex_lock_irqsafe asic_evt_set_handler
     asic_evt_remove_handler asic_evt_enable asic_evt_disable
     vblank_handler_add vblank_handler_remove icache_flush_range
     load write volatile_write volatile_read mutex_lock_scoped_sys];
  kfields.

Lemma kbind_finished {A B : Type} (c : K A) (k : A -> K B) s a s1 :
  c s = Finished a s1 -> kbind c k s = k a s1.
Proof. intros H. unfold kbind. now rewrite H. Qed.

(** A function of the part above, run in a system: the calls it adds to
    the log are the events it added to the trace. *)
Lemma lift_run {A : Type} (c : M A) (s : system) a w' evs :
  c (drv s) = Done a w' ->
  trace w' = trace (drv s) ++ evs ->
  lift c s
  = Finished a (add_calls (map CallDriver evs) (with_drv (fun _ => w') s)).
Proof.
  intros Hc Ht. unfold lift. now rewrite Hc, Ht, skipn_length_app.
Qed.

Lemma lift_emit (e : event) (s : system) :
  lift (emit e) s
  = Finished tt (add_call (CallDriver e) (with_drv (add_event e) s)).
Proof. now rewrite (lift_run _ _ tt (add_event e (drv s)) [e]). Qed.

Lemma lift_assign (f : globals -> globals) (s : system) :
  lift (assign f) s = Finished tt (with_drv (with_vars f) s).
Proof.
  rewrite (lift_run _ _ tt (with_vars f (drv s)) []);
    [|reflexivity|now rewrite app_nil_r].
  unfold add_calls. cbn [map]. rewrite app_nil_r. now destruct s.
Qed.

Lemma lift_read {A : Type} (f : globals -> A) (s : system) :
  lift (read f) s = Finished (f (vars (drv s))) s.
Proof.
  rewrite (lift_run _ _ (f (vars (drv s))) (drv s) []);
    [|reflexivity|now rewrite app_nil_r].
  unfold add_calls. cbn [map]. rewrite app_nil_r. now destruct s.
Qed.

(** *** The status of the drive *)

Lemma kturns_drive_busy k s :
  log (kturns k drive_busy_turn s)
  = log s ++ concat (repeat [CallCheckDrive; CallDriver EvThdPass] k) /\
  vars (drv (kturns k drive_busy_turn s)) = vars (drv s) /\
  n_check_drive (kturns k drive_busy_turn s) = (n_check_drive s + k)%nat /\
  n_lock_irqsafe (kturns k drive_busy_turn s) = n_lock_irqsafe s.
Proof.
  revert s. induction k as [|k IH]; intros s; cbn [kturns repeat concat].
  - now rewrite app_nil_r, Nat.add_0_r.
  - destruct (IH (drive_busy_turn s)) as (-> & -> & -> & ->).
    unfold drive_busy_turn, drive_checked. kfields. fields.
    rewrite <- !app_assoc. cbn [app]. repeat split. lia.
Qed.

Lemma get_status_loop_run fuel k s :
  (forall i, (i < k)%nat -> fst (drive_answer kn s i) = BUSY) ->
  fst (drive_answer kn s k) <> BUSY ->
  (k < fuel)%nat ->
  kdo_while (A := unit) fuel
    (kbind (syscall_gdrom_check_drive kn)
       (fun a => if negb (fst a =? BUSY) then kret (Break a)
                 else kbind (lift thd_pass) (fun _ => kret Continue))) s
  = Finished (inl (drive_answer kn s k))
      (drive_checked (kturns k drive_busy_turn s)).
Proof.
  match goal with
  | |- _ -> _ -> _ -> kdo_while _ ?b _ = _ => set (body := b)
  end.
  assert (Hbody : forall s0,
             body s0
             = if negb (fst (drive_answer kn s0 0) =? BUSY)
               then Finished (Break (drive_answer kn s0 0)) (drive_checked s0)
               else Finished Continue (drive_busy_turn s0)).
  { intros s0. unfold body, drive_answer. krun. rewrite Nat.add_0_r.
    destruct (negb _); [reflexivity|].
    unfold thd_pass. now rewrite lift_emit. }
  clearbody body.
  revert fuel s. induction k as [|k IH]; intros fuel s Hbusy Hlast Hfuel;
    (destruct fuel as [|fuel]; [lia|]); cbn [kdo_while kturns];
    rewrite Hbody.
  - now rewrite (eqb_false _ _ Hlast).
  - rewrite (Hbusy O ltac:(lia)), Z.eqb_refl. cbn [negb].
    assert (Hans : forall i,
               drive_answer kn (drive_busy_turn s) i = drive_answer kn s (S i)).
    { intros i. unfold drive_answer, drive_busy_turn, drive_checked. kfields.
      now rewrite Nat.add_succ_r. }
    rewrite (IH fuel (drive_busy_turn s)).
    + now rewrite Hans.
    + intros i Hi. rewrite Hans. apply Hbusy. lia.
    + now rewrite Hans.
    + lia.
Qed.

(** [cdrom_get_status] when it cannot take the mutex returns [-1] and
    has touched nothing: no question to the drive, nothing written
    through the pointers, no unlock.  When it has the mutex it asks the
    drive until the answer is not [BUSY], yielding after every busy
    answer, and releases the mutex: it never returns [BUSY]; what it
    writes through a pointer that is not [NULL] is the word the drive
    wrote, or [-1] when the result is negative. *)
Theorem get_status_never_busy fuel status disc_type s :
  (lock_irqsafe_answer kn (n_lock_irqsafe s) <> 0 ->
   cdrom_get_status kn fuel status disc_type s
   = Finished (-1, None, None)
       (with_made bump_lock_irqsafe (add_call CallMutexLockIrqsafe s))) /\
  (forall k,
      lock_irqsafe_answer kn (n_lock_irqsafe s) = 0 ->
      (forall i, (i < k)%nat -> fst (drive_answer kn s i) = BUSY) ->
      fst (drive_answer kn s k) <> BUSY ->
      (k < fuel)%nat ->
      let rv := fst (drive_answer kn s k) in
      exists s',
        cdrom_get_status kn fuel status disc_type s
        = Finished (rv,
                    written status rv (fst (snd (drive_answer kn s k))),
                    written disc_type rv (snd (snd (drive_answer kn s k)))) s' /\
        rv <> BUSY /\
        log s'
        = log s
          ++ CallMutexLockIrqsafe
             :: concat (repeat [CallCheckDrive; CallDriver EvThdPass] k)
             ++ [CallCheckDrive; CallDriver EvMutexUnlock] /\
        vars (drv s') = vars (drv s) /\
        n_check_drive s' = (n_check_drive s + S k)%nat).
Proof.
  split.
  - intros Hlock. unfold cdrom_get_status. krun.
    now rewrite (eqb_false _ _ Hlock).
  - intros k Hlock Hbusy Hlast Hfuel rv. unfold cdrom_get_status.
    set (s0 := with_made bump_lock_irqsafe (add_call CallMutexLockIrqsafe s)).
    rewrite (kbind_finished _ _ s _ s0 eq_refl), Hlock. cbn [Z.eqb negb].
    assert (Hans : forall i, drive_answer kn s0 i = drive_answer kn s i)
      by reflexivity.
    rewrite (kbind_finished _ _ _ _ _ (get_status_loop_run fuel k s0
               ltac:(intros i Hi; rewrite Hans; now apply Hbusy)
               ltac:(now rewrite Hans) Hfuel)).
    unfold mutex_unlock.
    rewrite (kbind_finished _ _ _ _ _ (lift_emit _ _)), Hans.
    destruct (kturns_drive_busy k s0) as (Hlog & Hvars & Hn & _).
    destruct (drive_answer kn s k) as [r [p0 p1]] eqn:Ea.
    cbn [fst snd] in *. subst rv.
    eexists. split.
    + unfold written, kret. destruct (r >=? 0); reflexivity.
    + split; [exact Hlast|].
      unfold drive_checked. kfields. fields. rewrite Hlog, Hvars, Hn.
      subst s0. kfields. rewrite <- !app_assoc. cbn [app].
      repeat split. lia.
Qed.

(** *** The sector mode *)

Lemma change_datatype_run sector_part cdxa sector_size s :
  let drive := snd (snd (gdrom_check_drive kn (n_check_drive s))) in
  let params := [0; u32 (chosen_part sector_part sector_size);
                 u32 (chosen_cdxa cdxa sector_size drive);
                 u32 (chosen_size sector_size)] in
  exists s',
    cdrom_change_datatype kn sector_part cdxa sector_size s
    = Finished (gdrom_sector_mode kn (n_sector_mode s) params) s' /\
    cur_sector_size s' = chosen_size sector_size /\
    log s'
    = log s
      ++ CallDriver EvMutexLock
         :: (if asks_drive cdxa sector_size then [CallCheckDrive] else [])
         ++ [CallSectorMode params; CallDriver EvMutexUnlock].
Proof.
  cbv zeta.
  unfold cdrom_change_datatype, mutex_lock_scoped_sys, mutex_lock, mutex_unlock,
    chosen_part, chosen_cdxa, chosen_size, asks_drive.
  rewrite (kbind_finished _ _ _ _ _ (lift_emit _ _)).
  destruct (Z.eqb_spec sector_size 2352) as [->|Hsize];
    destruct (cdxa =? -1); destruct (sector_part =? -1);
    krun; rewrite lift_assign; krun; rewrite lift_emit;
    (eexists; split; [reflexivity|]);
    kfields; fields; cbn [Z.eqb negb andb];
    (split; [reflexivity|]);
    rewrite <- !app_assoc; reflexivity.
Qed.


(** *** Starting the drive again *)

Lemma reinit_loop_run fuel n j s s1 r s2 :
  disc_changed fw fuel j s s1 ->
  lift (cdrom_exec_cmd_timed fw fuel CMD_INIT [] 10000) s1 = Finished r s2 ->
  r <> ERR_DISC_CHG ->
  (j < n)%nat ->
  kdo_while (A := unit) n
    (kbind (lift (cdrom_exec_cmd_timed fw fuel CMD_INIT [] 10000))
       (fun r => if err_eqb r ERR_DISC_CHG then kret Continue
                 else kret (Break r))) s
  = Finished (inl r) s2.
Proof.
  intros Hch Hlast Hr. revert n.
  induction Hch as [s|j s sa sb Hfirst Hch IH]; intros n Hn;
    (destruct n as [|n]; [lia|]); cbn [kdo_while].
  - rewrite (kbind_finished _ _ _ _ _ Hlast).
    destruct r; try reflexivity. now elim Hr.
  - rewrite (kbind_finished _ _ _ _ _ Hfirst). cbn [err_eqb].
    unfold kret at 1. apply IH; [exact Hlast|lia].
Qed.

(** [cdrom_reinit_ex] sends [CMD_INIT] again for as long as the answer
    is [ERR_DISC_CHG].  When the command has ended with [ERR_NO_DISC] or
    [ERR_SYS] it returns that error and leaves the sector mode alone.
    After any other end, [ERR_NO_ACTIVE] as well as [ERR_OK], it sets
    the sector mode and returns what [syscall_gdrom_sector_mode]
    answers: the result of [CMD_INIT] is dropped, and the driver has
    taken the sector size asked for. *)
Theorem reinit_retries_while_disc_changes
  fuel sector_part cdxa sector_size s j s1 r s2 :
  disc_changed fw fuel j s s1 ->
  lift (cdrom_exec_cmd_timed fw fuel CMD_INIT [] 10000) s1 = Finished r s2 ->
  r <> ERR_DISC_CHG ->
  r <> ERR_TIMEOUT ->
  (j < fuel)%nat ->
  exists rv s',
    cdrom_reinit_ex fw kn fuel sector_part cdxa sector_size s = Finished rv s' /\
    (r = ERR_NO_DISC \/ r = ERR_SYS -> rv = err_code r /\ s' = s2) /\
    (r <> ERR_NO_DISC -> r <> ERR_SYS ->
     let drive := snd (snd (gdrom_check_drive kn (n_check_drive s2))) in
     let params := [0; u32 (chosen_part sector_part sector_size);
                    u32 (chosen_cdxa cdxa sector_size drive);
                    u32 (chosen_size sector_size)] in
     rv = gdrom_sector_mode kn (n_sector_mode s2) params /\
     cur_sector_size s' = chosen_size sector_size /\
     log s'
     = log s2
       ++ CallDriver EvMutexLock
          :: (if asks_drive cdxa sector_size then [CallCheckDrive] else [])
          ++ [CallSectorMode params; CallDriver EvMutexUnlock]).
Proof.
  intros Hch Hlast Hr Ht Hj. unfold cdrom_reinit_ex.
  rewrite (kbind_finished _ _ _ _ _
             (reinit_loop_run fuel fuel j s s1 r s2 Hch Hlast Hr Hj)).
  destruct (change_datatype_run sector_part cdxa sector_size s2)
    as (s' & Hrun & Hsize & Hlog).
  destruct r; cbn [err_eqb orb]; try (now elim Hr); try (now elim Ht).
  - exists (gdrom_sector_mode kn (n_sector_mode s2)
              [0; u32 (chosen_part sector_part sector_size);
               u32 (chosen_cdxa cdxa sector_size
                      (snd (snd (gdrom_check_drive kn (n_check_drive s2)))));
               u32 (chosen_size sector_size)]), s'.
    split; [exact Hrun|]. split; [intros [H|H]; discriminate H|].
    intros _ _. cbv zeta. repeat split; assumption.
  - exists (err_code ERR_NO_DISC), s2. split; [reflexivity|].
    split; [intros _; split; reflexivity|]. intros H. now elim H.
  - exists (err_code ERR_SYS), s2. split; [reflexivity|].
    split; [intros _; split; reflexivity|]. intros _ H. now elim H.
  - exists (gdrom_sector_mode kn (n_sector_mode s2)
              [0; u32 (chosen_part sector_part sector_size);
               u32 (chosen_cdxa cdxa sector_size
                      (snd (snd (gdrom_check_drive kn (n_check_drive s2)))));
               u32 (chosen_size sector_size)]), s'.
    split; [exact Hrun|]. split; [intros [H|H]; discriminate H|].
    intros _ _. cbv zeta. repeat split; assumption.
  - exists (gdrom_sector_mode kn (n_sector_mode s2)
              [0; u32 (chosen_part sector_part sector_size);
               u32 (chosen_cdxa cdxa sector_size
                      (snd (snd (gdrom_check_drive kn (n_check_drive s2)))));
               u32 (chosen_size sector_size)]), s'.
    split; [exact Hrun|]. split; [intros [H|H]; discriminate H|].
    intros _ _. cbv zeta. repeat split; assumption.
Qed.

(** *** The memory protection of the G1 DMA *)

Lemma unlock_scan_run n :
  forall fuel cur count s,
    0 <= cur ->
    cur + 4 * Z.of_nat n < 2 ^ 32 ->
    (n < fuel)%nat ->
    let words := map (fun i => cur + 4 * Z.of_nat i) (seq 0 n) in
    exists s',
      unlock_scan fuel cur (cur + 4 * Z.of_nat n - 4) count s
      = Finished
          (count + Z.of_nat (length (filter (locked_word (memory s)) words)))
          s' /\
      drv s' = drv s /\ log s' = log s /\ vblank_hnd s' = vblank_hnd s /\
      inited s' = inited s /\ made s' = made s /\
      forall a,
        memory s' a
        = if existsb (Z.eqb a) words && locked_word (memory s) a
          then G1_DMA_UNLOCK_ALLMEM
          else memory s a.
Proof.
  induction n as [|n IH]; intros fuel cur count s Hcur Hend Hfuel words;
    (destruct fuel as [|fuel]; [lia|]); cbn [unlock_scan].
  - rewrite (leb_false cur _) by lia. exists s. subst words. cbn.
    rewrite Z.add_0_r. repeat split.
  - assert (Hle : (cur <=? cur + 4 * Z.of_nat (S n) - 4) = true)
      by (apply Z.leb_le; lia).
    rewrite Hle.
    assert (Hnext : u32 (cur + 4) = cur + 4)
      by (unfold u32; apply Z.mod_small; lia).
    assert (Hwords : words
                     = cur :: map (fun i => cur + 4 + 4 * Z.of_nat i) (seq 0 n)).
    { subst words. cbn [seq map]. f_equal; [cbn; lia|].
      rewrite <- seq_shift, map_map. apply map_ext. intros i. lia. }
    assert (Hfar : forall a,
               In a (map (fun i => cur + 4 + 4 * Z.of_nat i) (seq 0 n)) ->
               a <> cur).
    { intros a Ha. apply in_map_iff in Ha. destruct Ha as (i & <- & _). lia. }
    replace (cur + 4 * Z.of_nat (S n) - 4) with (cur + 4 + 4 * Z.of_nat n - 4)
      by lia.
    rewrite Hwords. clearbody words. clear Hwords Hle.
    set (rest_words := map (fun i => cur + 4 + 4 * Z.of_nat i) (seq 0 n)) in *.
    unfold load, look. unfold kbind at 1.
    cbn [filter existsb].
    fold (locked_word (memory s) cur).
    destruct (locked_word (memory s) cur) eqn:Hlocked.
    + set (s1 := with_memory (store cur G1_DMA_UNLOCK_ALLMEM) s).
      rewrite (kbind_finished
                 (kbind (write cur G1_DMA_UNLOCK_ALLMEM)
                    (fun _ => kret (count + 1)))
                 _ s (count + 1) s1 eq_refl), Hnext.
      destruct (IH fuel (cur + 4) (count + 1) s1 ltac:(lia) ltac:(lia)
                  ltac:(lia))
        as (s' & Hrun & Hdrv & Hlog & Hvb & Hin & Hmade & Hmem).
      fold rest_words in Hrun, Hmem.
      assert (Hsame : forall a, In a rest_words ->
                 locked_word (memory s1) a = locked_word (memory s) a).
      { intros a Ha. unfold locked_word, s1. kfields. unfold store.
        now rewrite (eqb_false _ _ (Hfar a Ha)). }
      rewrite (filter_ext_in _ _ _ Hsame) in Hrun.
      exists s'. split.
      { rewrite Hrun. f_equal. cbn [length]. lia. }
      repeat (split; [assumption|]).
      intros a. rewrite Hmem. destruct (Z.eqb_spec a cur) as [->|Hne].
      * cbn [orb andb]. rewrite Hlocked.
        destruct (existsb (Z.eqb cur) rest_words) eqn:Hex.
        -- apply existsb_exists in Hex. destruct Hex as (b & Hb & Heq).
           apply Z.eqb_eq in Heq. subst b. now elim (Hfar cur Hb).
        -- cbn [andb]. unfold s1. kfields. unfold store.
           now rewrite Z.eqb_refl.
      * cbn [orb].
        assert (Hm : memory s1 a = memory s a).
        { unfold s1. kfields. unfold store. now rewrite (eqb_false _ _ Hne). }
        unfold locked_word. now rewrite Hm.
    + rewrite (kbind_finished (kret count) _ s count s eq_refl), Hnext.
      destruct (IH fuel (cur + 4) count s ltac:(lia) ltac:(lia) ltac:(lia))
        as (s' & Hrun & Hdrv & Hlog & Hvb & Hin & Hmade & Hmem).
      fold rest_words in Hrun, Hmem.
      exists s'. split; [exact Hrun|].
      repeat (split; [assumption|]).
      intros a. rewrite Hmem. destruct (Z.eqb_spec a cur) as [->|Hne].
      * cbn [orb andb]. rewrite Hlocked.
        now destruct (existsb (Z.eqb cur) rest_words).
      * reflexivity.
Qed.

Lemma forallb_filter_none {A : Type} (p : A -> bool) (l : list A) :
  forallb (fun a => negb (p a)) l
  = match filter p l with [] => true | _ :: _ => false end.
Proof.
  induction l as [|a l IH]; [reflexivity|]. cbn [forallb filter].
  now destruct (p a).
Qed.

(** [unlock_dma_memory] looks at the 4097 words from [0x0c000000] in
    the P2 area up to and including the one 16 KiB further on, and
    turns every one that holds the code for "system memory only" into
    the code for "all memory", leaving all other words alone; it
    flushes the instruction cache over the 16 KiB if and only if it has
    changed a word, and writes the code for "all memory" to the
    protection register last. *)
Theorem unlock_patches_every_locked_word fuel s :
  unlock_start + 16388 < 2 ^ 32 ->
  (4097 < fuel)%nat ->
  exists s',
    unlock_dma_memory fuel s = Finished tt s' /\
    (forall a, memory s' a = unlocked (memory s) a) /\
    log s'
    = log s
      ++ (if forallb (fun a => negb (locked_word (memory s) a)) unlock_words
          then []
          else [CallIcacheFlush (Z.lor 201326592 MEM_AREA_P1_BASE) 16384])
      ++ [VolatileWrite unlock_reg G1_DMA_UNLOCK_ALLMEM] /\
    drv s' = drv s /\
    length unlock_words = 4097%nat /\
    In (unlock_start + 16384) unlock_words.
Proof.
  intros Hwrap Hfuel.
  assert (Hn : Z.of_nat 4097 = 4097) by (vm_compute; reflexivity).
  assert (Hstart : 0 <= unlock_start)
    by (unfold unlock_start, u32; apply Z.mod_pos_bound; lia).
  unfold unlock_dma_memory. cbv zeta.
  change (u32 (Z.lor 201326592 MEM_AREA_P2_BASE)) with unlock_start.
  change (Z.shiftl 16 10) with 16384.
  assert (Hend : u32 (unlock_start + 16384) = unlock_start + 16384)
    by (unfold u32; apply Z.mod_small; lia).
  rewrite Hend.
  destruct (unlock_scan_run 4097 fuel unlock_start 0 s Hstart
              ltac:(rewrite Hn; lia) Hfuel)
    as (s1 & Hrun & Hdrv & Hlog & _ & _ & _ & Hmem).
  fold unlock_words in Hrun, Hmem.
  replace (unlock_start + 4 * Z.of_nat 4097 - 4) with (unlock_start + 16384)
    in Hrun by (rewrite Hn; lia).
  rewrite (kbind_finished _ _ _ _ _ Hrun).
  rewrite forallb_filter_none.
  assert (Hlast : length unlock_words = 4097%nat /\
                  In (unlock_start + 16384) unlock_words).
  { unfold unlock_words. split.
    - now rewrite length_map, length_seq.
    - apply in_map_iff. exists 4096%nat. split.
      + assert (E : Z.of_nat 4096 = 4096) by (vm_compute; reflexivity).
        rewrite E. lia.
      + apply in_seq. lia. }
  fold unlock_reg.
  destruct (filter (locked_word (memory s)) unlock_words) as [|a0 l0];
    cbn [length]; [change (negb (0 + Z.of_nat 0 =? 0)) with false|
                   replace (negb (0 + Z.of_nat (S (length l0)) =? 0)) with true
                     by (symmetry; apply negb_true_iff, Z.eqb_neq; lia)];
    krun; (eexists; split; [reflexivity|]); kfields;
    (split; [intros a; unfold unlocked, store; rewrite Hmem; reflexivity|]);
    (split; [rewrite Hlog; cbn [app]; rewrite <- ?app_assoc; reflexivity|]);
    (split; [exact Hdrv|exact Hlast]).
Qed.

(** *** Start and stop *)

Lemma kbind_inv {A B : Type} (c : K A) (k : A -> K B) s b s' :
  kbind c k s = Finished b s' ->
  exists a s1, c s = Finished a s1 /\ k a s1 = Finished b s'.
Proof.
  unfold kbind. destruct (c s) as [a s1| |]; try discriminate.
  intros H. now exists a, s1.
Qed.

Section KKeeps.

Variable R : system -> system -> Prop.
Hypothesis R_refl : forall s, R s s.
Hypothesis R_trans : forall a b c, R a b -> R b c -> R a c.

Lemma kkeeps_ret {A : Type} (a : A) : kkeeps R (kret a).
Proof. intros s a' s' [= _ <-]. apply R_refl. Qed.

Lemma kkeeps_bind {A B : Type} (c : K A) (k : A -> K B) :
  kkeeps R c -> (forall a, kkeeps R (k a)) -> kkeeps R (kbind c k).
Proof.
  intros Hc Hk s b s' H. apply kbind_inv in H.
  destruct H as (a & s1 & H1 & H2).
  eapply R_trans; [eapply Hc, H1|eapply Hk, H2].
Qed.

Lemma kkeeps_do_while {B A : Type} fuel (body : K (flow B A)) :
  kkeeps R body -> kkeeps R (kdo_while fuel body).
Proof.
  intros Hbody. induction fuel as [|fuel IH]; intros s x s'; cbn.
  - discriminate.
  - destruct (body s) as [r s1| |] eqn:E; try discriminate.
    apply Hbody in E.
    destruct r; [intros H; apply IH in H; eauto| |];
      intros [= _ <-]; exact E.
Qed.

Lemma kkeeps_look {A : Type} (f : system -> A) : kkeeps R (look f).
Proof. intros s a s' [= _ <-]. apply R_refl. Qed.

End KKeeps.

Lemma kextends_refl s : kextends s s.
Proof. exists []. now rewrite app_nil_r. Qed.

Lemma kextends_trans a b c : kextends a b -> kextends b c -> kextends a c.
Proof.
  intros [c1 H1] [c2 H2]. exists (c1 ++ c2). now rewrite H2, H1, app_assoc.
Qed.

Lemma settled_refl s : settled s s.
Proof. split; [reflexivity|apply kextends_refl]. Qed.

Lemma settled_trans a b c : settled a b -> settled b c -> settled a c.
Proof.
  intros [H1 E1] [H2 E2]. split; [congruence|eapply kextends_trans; eauto].
Qed.

Lemma prepared_refl s : prepared s s.
Proof. split; [apply settled_refl|reflexivity]. Qed.

Lemma prepared_trans a b c : prepared a b -> prepared b c -> prepared a c.
Proof.
  intros [H1 E1] [H2 E2]. split; [eapply settled_trans; eauto|congruence].
Qed.

Lemma lift_prepared {A : Type} (c : M A) :
  keeps (same old_irq) c -> kkeeps prepared (lift c).
Proof.
  intros Hc s a s'. unfold lift.
  destruct (c (drv s)) as [a0 w'| |] eqn:E; try discriminate.
  intros [= _ <-]. apply Hc in E. unfold same in E.
  split; [split|reflexivity].
  - unfold settings. kfields. now rewrite E.
  - eexists. reflexivity.
Qed.

Lemma record_prepared (c : call) : kkeeps prepared (record c).
Proof.
  intros s a s' [= _ <-]. split; [split|reflexivity];
    [reflexivity|eexists; reflexivity].
Qed.

Lemma change_memory_prepared f : kkeeps prepared (change (with_memory f)).
Proof.
  intros s a s' [= _ <-]. split; [split|reflexivity];
    [reflexivity|exists []; kfields; now rewrite app_nil_r].
Qed.

#[local] Hint Resolve prepared_refl prepared_trans settled_refl settled_trans
  : keeps.

Ltac kframes :=
  repeat first
    [ solve [eauto 3 with keeps]
    | apply kkeeps_ret; solve [eauto 3 with keeps]
    | apply kkeeps_look; solve [eauto 3 with keeps]
    | apply kkeeps_bind; [solve [eauto 3 with keeps]| |intros ?]
    | apply kkeeps_do_while; [solve [eauto 3 with keeps]|]
    | apply record_prepared
    | apply change_memory_prepared
    | match goal with
      | |- kkeeps _ (if ?b then _ else _) => destruct b
      | |- kkeeps _ (match ?x with _ => _ end) => destruct x
      | |- kkeeps _ (let _ := _ in _) => cbv zeta
      end
    | progress unfold load, write, volatile_write, volatile_read,
        icache_flush_range, asic_evt_remove_handler, asic_evt_enable,
        asic_evt_disable, vblank_handler_remove, mutex_lock_scoped_sys ].

Lemma emit_same_irq (e : event) : keeps (same old_irq) (emit e).
Proof. intros w a w' [= _ <-]. reflexivity. Qed.

Lemma volatile_write_prepared addr val :
  kkeeps prepared (volatile_write addr val).
Proof. kframes. Qed.

Lemma bios_sweep_prepared n p : kkeeps prepared (bios_sweep n p).
Proof.
  revert p. induction n as [|n IH]; intros p; cbn [bios_sweep]; kframes.
Qed.

Lemma unlock_scan_prepared fuel cur end_loc count :
  kkeeps prepared (unlock_scan fuel cur end_loc count).
Proof.
  revert cur count. induction fuel as [|fuel IH]; intros cur count;
    cbn [unlock_scan]; [intros s a s'; discriminate|kframes].
Qed.

Lemma unlock_prepared fuel : kkeeps prepared (unlock_dma_memory fuel).
Proof.
  pose proof unlock_scan_prepared as Hscan.
  unfold unlock_dma_memory. kframes.
Qed.

Lemma vblank_same_irq : keeps (same old_irq) (cdrom_vblank fw).
Proof. unfold cdrom_vblank. frames. Qed.

Lemma g1_dma_same_irq : keeps (same old_irq) (g1_dma_irq_hnd fw).
Proof. unfold g1_dma_irq_hnd. frames. Qed.

#[local] Hint Resolve vblank_same_irq g1_dma_same_irq : keeps.

Lemma sem_wait_same_irq count set fuel :
  (forall v g, old_irq (set v g) = old_irq g) ->
  keeps (same old_irq) (sem_wait fw count set fuel).
Proof.
  intros Hset. apply keeps_sem_wait; eauto with keeps.
  - intros w. reflexivity.
  - intros v w a w' [= _ <-]. unfold same. fields. apply Hset.
Qed.

Lemma req_loop_same_irq left cmd param hnd :
  keeps (same old_irq) (cdrom_req_cmd_loop fw left cmd param hnd).
Proof.
  revert hnd. induction left as [|left IH]; intros hnd;
    cbn [cdrom_req_cmd_loop]; frames.
Qed.

Lemma exec_same_irq fuel cmd param timeout use_irq :
  keeps (same old_irq) (cdrom_exec_cmd_ex fw fuel cmd param timeout use_irq).
Proof.
  assert (Hsem : keeps (same old_irq) (sem_wait fw cmd_done set_cmd_done fuel))
    by (apply sem_wait_same_irq; reflexivity).
  pose proof req_loop_same_irq as Hreq.
  unfold cdrom_exec_cmd_ex, cdrom_poll_cmd, poll_body, cdrom_req_cmd,
    cdrom_abort_cmd, abort_wait_body, cdrom_stream_set_callback.
  frames.
Qed.

Lemma lift_settled {A : Type} (c : M A) :
  keeps (same old_irq) c -> kkeeps settled (lift c).
Proof. intros Hc s a s' H. exact (proj1 (lift_prepared c Hc s a s' H)). Qed.

Lemma check_drive_settled : kkeeps settled (syscall_gdrom_check_drive kn).
Proof.
  intros s a s' [= _ <-]. split; [reflexivity|eexists; reflexivity].
Qed.

Lemma sector_mode_settled params :
  kkeeps settled (syscall_gdrom_sector_mode kn params).
Proof.
  intros s a s' [= _ <-]. split; [reflexivity|eexists; reflexivity].
Qed.

Lemma change_datatype_settled sector_part cdxa sector_size :
  kkeeps settled (cdrom_change_datatype kn sector_part cdxa sector_size).
Proof.
  pose proof check_drive_settled as Hcheck.
  pose proof sector_mode_settled as Hmode.
  assert (Hemit : forall e, kkeeps settled (lift (emit e)))
    by (intros e; apply lift_settled, emit_same_irq).
  assert (Hsize : forall v, kkeeps settled (lift (assign (set_cur_sector_size v)))).
  { intros v. apply lift_settled. intros w a w' [= _ <-]. reflexivity. }
  unfold cdrom_change_datatype, mutex_lock, mutex_unlock. kframes.
Qed.

Lemma reinit_settled fuel sector_part cdxa sector_size :
  kkeeps settled (cdrom_reinit_ex fw kn fuel sector_part cdxa sector_size).
Proof.
  pose proof change_datatype_settled as Hchange.
  assert (Hexec : kkeeps settled
                    (lift (cdrom_exec_cmd_timed fw fuel CMD_INIT [] 10000)))
    by (apply lift_settled, exec_same_irq).
  unfold cdrom_reinit_ex. kframes.
Qed.

(** [cdrom_init] on a driver that is not started, when it returns:
    the driver is started and has recorded the handle of its
    vertical-blank hook and the handler it displaced on the G1 DMA
    event; it has enabled the three events only if there was no such
    handler.  A second [cdrom_init] does nothing.  [cdrom_shutdown]
    then removes the vertical-blank hook by the recorded handle and
    gives the three events back to the displaced handler with its data,
    or, if there was none, disables and unhooks them; after it the
    driver is not started and a second [cdrom_shutdown] does nothing. *)
Theorem init_then_shutdown fuel s s1 :
  inited s = false ->
  cdrom_init fw kn fuel s = Finished tt s1 ->
  let old := replaced_handler kn (n_set_handler s) in
  let hnd := vblank_handle kn (n_vblank_add s) in
  settings s1 = (true, hnd, old) /\
  (exists before after,
      log s1
      = log s ++ before ++ hooks_installed kn
        ++ (if fst old =? 0 then hooks_enabled else [])
        ++ CallVblankHandlerAdd (cdrom_vblank_entry kn) :: after) /\
  cdrom_init fw kn fuel s1 = Finished tt s1 /\
  exists s2,
    cdrom_shutdown kn s1 = Finished tt s2 /\
    settings s2 = (false, hnd, (0, snd old)) /\
    log s2
    = log s1
      ++ CallVblankHandlerRemove hnd
         :: (if fst old =? 0 then hooks_removed
             else hooks_restored (fst old) (snd old)) /\
    cdrom_shutdown kn s2 = Finished tt s2.
Proof.
  intros Hin Hrun old hnd.
  unfold cdrom_init in Hrun. cbv zeta in Hrun.
  rewrite (kbind_finished (look inited) _ s false s) in Hrun
    by (unfold look; now rewrite Hin).
  cbv iota in Hrun.
  assert (Hemit : forall e, kkeeps prepared (lift (emit e)))
    by (intros e; apply lift_prepared, emit_same_irq).
  pose proof unlock_prepared as Hunlock.
  apply kbind_inv in Hrun. destruct Hrun as (? & sa & Ha & Hrun).
  apply Hemit in Ha.
  apply kbind_inv in Hrun. destruct Hrun as (? & sb & Hb & Hrun).
  assert (Hb' : prepared sa sb)
    by (revert Hb; apply kkeeps_look; eauto with keeps).
  clear Hb.
  apply kbind_inv in Hrun. destruct Hrun as (? & sc & Hc & Hrun).
  assert (Hc' : prepared sb sc).
  { refine ((_ : kkeeps prepared _) _ _ _ Hc).
    destruct (_ =? _);
      (apply kkeeps_bind;
       [exact prepared_trans|apply volatile_write_prepared
       |intros _; apply bios_sweep_prepared]). }
  clear Hc.
  apply kbind_inv in Hrun. destruct Hrun as (? & sd & Hd & Hrun).
  apply Hemit in Hd.
  apply kbind_inv in Hrun. destruct Hrun as (? & se & He & Hrun).
  apply Hemit in He.
  apply kbind_inv in Hrun. destruct Hrun as (? & sf & Hf & Hrun).
  apply Hunlock in Hf.
  apply kbind_inv in Hrun. destruct Hrun as (? & sg & Hg & Hrun).
  apply Hemit in Hg.
  assert (Hprep : prepared s sg).
  { repeat (eapply prepared_trans; [eassumption|]). apply prepared_refl. }
  clear Ha Hb' Hc' Hd He Hf Hg.
  destruct Hprep as [[Hset [before Hlog]] Hmade].
  erewrite kbind_finished in Hrun by reflexivity.
  erewrite kbind_finished in Hrun by apply lift_assign.
  erewrite kbind_finished in Hrun by reflexivity.
  erewrite kbind_finished in Hrun by reflexivity.
  erewrite kbind_finished in Hrun by apply lift_read.
  kfields_in Hrun. rewrite Hmade in Hrun. fold old in Hrun.
  assert (Hrest : exists s0,
             settings s0 = (true, hnd, old) /\
             log s0
             = log s ++ before ++ hooks_installed kn
               ++ (if fst old =? 0 then hooks_enabled else [])
               ++ [CallVblankHandlerAdd (cdrom_vblank_entry kn)] /\
             kbind (cdrom_reinit fw kn fuel) (fun _ => kret tt) s0
             = Finished tt s1).
  { destruct (fst old =? 0);
      erewrite kbind_finished in Hrun by reflexivity;
      erewrite kbind_finished in Hrun by reflexivity;
      erewrite kbind_finished in Hrun by reflexivity;
      erewrite kbind_finished in Hrun by reflexivity;
      (eexists; split; [|split; [|exact Hrun]]);
      unfold settings, old_irq, hooks_installed, hooks_enabled;
      kfields; fields;
      cbn [old_dma_irq_hdl old_dma_irq_data set_old_dma_irq];
      rewrite ?Hmade, ?Hlog;
      [now rewrite <- surjective_pairing
      |rewrite <- !app_assoc; reflexivity
      |now rewrite <- surjective_pairing
      |rewrite <- !app_assoc; reflexivity]. }
  clear Hrun. destruct Hrest as (s0 & Hset0 & Hlog0 & Hrun).
  apply kbind_inv in Hrun. destruct Hrun as (rv & s1' & Hre & Hrun).
  injection Hrun as <-.
  apply reinit_settled in Hre. destruct Hre as [Hset1 [after Hlog1]].
  rewrite Hset0 in Hset1.
  split; [exact Hset1|]. split.
  { exists before, after. rewrite Hlog1, Hlog0, <- !app_assoc. reflexivity. }
  unfold settings, old_irq in Hset1.
  injection Hset1 as Hi Hv Ho.
  assert (Hh : old_dma_irq_hdl s1' = fst old) by now rewrite <- Ho.
  assert (Hd : old_dma_irq_data s1' = snd old) by now rewrite <- Ho.
  split.
  { unfold cdrom_init. cbv zeta.
    now rewrite (kbind_finished (look inited) _ s1' true s1')
      by (unfold look; now rewrite Hi). }
  unfold cdrom_shutdown.
  rewrite (kbind_finished (look inited) _ s1' true s1')
    by (unfold look; now rewrite Hi).
  cbn [negb].
  erewrite kbind_finished by reflexivity.
  erewrite kbind_finished by reflexivity.
  erewrite kbind_finished by apply lift_read.
  erewrite kbind_finished by apply lift_read.
  kfields. rewrite Hv, Hh, Hd.
  destruct (Z.eqb_spec (fst old) 0) as [H0|H0]; cbn [negb].
  - erewrite kbind_finished by reflexivity.
    eexists. split; [reflexivity|].
    unfold settings, old_irq, hooks_removed. kfields.
    rewrite Hv, Hh, Hd, H0, <- !app_assoc.
    repeat split.
  - erewrite kbind_finished
      by (erewrite kbind_finished by reflexivity;
          erewrite kbind_finished by reflexivity;
          erewrite kbind_finished by reflexivity;
          apply lift_assign).
    eexists. split; [reflexivity|].
    unfold settings, old_irq, hooks_restored. kfields.
    cbn [vars with_vars old_dma_irq_hdl old_dma_irq_data set_old_dma_irq_hdl
         set_old_dma_irq].
    rewrite Hv, Hd, <- !app_assoc.
    repeat split.
Qed.

End Rest.

End Properties.

(** * Concrete runs *)

#[local] Existing Instance kos_header.

(** ** Where a claim of the specification fails *)

(** C1: a stream is started in PIO mode and holds handle 7.  Then
    [cdrom_exec_cmd_ex] runs [CMD_GETSCD]: it sends the command first
    thing and gets handle 8; nothing checks or aborts handle 7 before.
    Afterwards the stream mode still says PIO while the handle is 0. *)
Lemma exec_cmd_leaves_stream_running :
  exists w0 w',
    cdrom_stream_start stream_then_done_fw 5 0 10 CDROM_READ_PIO idle_world
    = Done ERR_OK w0 /\
    stream_mode w0 = CDROM_READ_PIO /\
    stream_mode w0 <> -1 /\
    cmd_hnd w0 = 7 /\
    cdrom_exec_cmd_ex stream_then_done_fw 5 34 [] 0 false w0 = Done ERR_OK w' /\
    trace w'
    = trace w0
      ++ [EvMutexLock; EvSendCommand 34 []; EvExecServer; EvCheckCommand 8;
          EvMutexUnlock] /\
    stream_mode w' = CDROM_READ_PIO /\
    cmd_hnd w' = 0.
Proof.
  eexists _, _.
  split; [vm_compute; reflexivity|].
  split; [reflexivity|].
  split; [discriminate|].
  split; [reflexivity|].
  split; [vm_compute; reflexivity|].
  repeat split.
Qed.

(** C2: [cdrom_abort_cmd(1000, true)] while a blocking DMA transfer is
    in progress returns [ERR_OK] with the handle, the stream mode and
    the callback as they were. *)
Lemma abort_blocking_dma_clears_nothing :
  exists w',
    cdrom_abort_cmd prompt_fw 5 1000 true blocking_dma_world = Done ERR_OK w' /\
    cmd_hnd w' = 7 /\
    stream_mode w' = CDROM_READ_DMA_IRQ /\
    stream_cb w' = 99 /\
    trace w' = [EvAbortCommand 7].
Proof. eexists. split; [vm_compute; reflexivity|]. repeat split. Qed.

(** C5: a PIO stream is started and its first request, to an even
    address, runs the command to completion, which clears the handle
    and leaves the stream mode.  A second request, to the odd address
    65, is then answered [ERR_NO_ACTIVE], not [ERR_SYS]. *)
Lemma odd_request_without_handle_is_no_active :
  exists w,
    (cdrom_stream_start stream_then_done_fw 5 0 10 CDROM_READ_PIO ;;
     cdrom_stream_request stream_then_done_fw 5 64 2048 true) idle_world
    = Done ERR_OK w /\
    stream_mode w = CDROM_READ_PIO /\
    cmd_hnd w = 0 /\
    Z.land 65 1 <> 0 /\
    cdrom_stream_request stream_then_done_fw 5 65 2048 true w
    = Done ERR_NO_ACTIVE w /\
    ERR_NO_ACTIVE <> ERR_SYS.
Proof.
  eexists.
  split; [vm_compute; reflexivity|].
  repeat split; discriminate.
Qed.

(** ** The theorems at work *)

Ltac by_computation := vm_compute; first [reflexivity | discriminate | easy].

(** C8 on the idle drive. *)
Lemma stream_stop_idle_idempotent_run :
  cdrom_stream_stop prompt_fw 0 true idle_world = Done ERR_OK idle_world /\
  (cdrom_stream_stop prompt_fw 0 true ;; cdrom_stream_stop prompt_fw 0 true)
    idle_world
  = Done ERR_OK idle_world.
Proof.
  apply (stream_stop_idle_idempotent prompt_fw 0 idle_world).
  by_computation.
Defined.

(** C9 on a stream in the mode [CDROM_READ_PIO_IRQ]. *)
Lemma stream_request_pio_irq_run :
  cdrom_stream_request prompt_fw 3 64 2048 true (streaming_world 2 7)
  = Done ERR_OK
      (add_event EvMutexUnlock (add_event EvMutexLock (streaming_world 2 7))).
Proof.
  apply (stream_request_pio_irq_transfers_nothing prompt_fw 3 64 2048 true
           (streaming_world 2 7)); by_computation.
Defined.

(** C5 with the cache mask of the headers, on a live DMA stream and the
    address 33. *)
Lemma unaligned_buffer_refused_run :
  cdrom_read_sectors_ex prompt_fw 3 33 150 4 CDROM_READ_DMA (streaming_world 1 7)
  = Done ERR_SYS (add_event EvDbglog (streaming_world 1 7)) /\
  cdrom_stream_request prompt_fw 3 33 2048 true (streaming_world 1 7)
  = Done ERR_SYS (add_event EvDbglog (streaming_world 1 7)).
Proof.
  destruct (unaligned_buffer_refused prompt_fw 3 33 (streaming_world 1 7))
    as (Hread & _ & Hstream & _); [by_computation|].
  split.
  - apply Hread; [now left|by_computation].
  - apply (Hstream 2048 true); [now left|by_computation].
Defined.

(** C7 with a firmware that gives the handle at the third attempt. *)
Lemma req_cmd_bounded_retries_run :
  cdrom_req_cmd retry_fw 34 [] idle_world
  = Done 7 (granted 34 [] (after_failed_attempts 2 34 [] idle_world)).
Proof.
  apply (proj1 (req_cmd_bounded_retries retry_fw 34 [] idle_world
                  ltac:(by_computation)) 2%nat).
  - lia.
  - intros [|[|i]] Hi; [reflexivity|reflexivity|lia].
  - by_computation.
Defined.

(** C2 on a live PIO stream whose command the firmware reports
    completed at the first check after the abort. *)
Lemma abort_clears_run :
  exists rv w',
    cdrom_abort_cmd prompt_fw 1 1000 false pio_stream_world = Done rv w' /\
    cmd_hnd w' = 0 /\ stream_mode w' = -1 /\ stream_cb w' = 0.
Proof.
  apply (proj2 (proj2 (abort_clears_unless_blocking_dma prompt_fw 1 1000 false
                         pio_stream_world ltac:(by_computation))
                  eq_refl) O).
  - lia.
  - left. by_computation.
Defined.

(** C3 on the idle drive: polling a firmware that completes at once,
    and sleeping until the vertical blank with a firmware that is busy
    at the first check. *)
Lemma exec_result_mapping_run :
  (exists w',
      cdrom_exec_cmd_ex prompt_fw 1 34 [] 0 false idle_world = Done ERR_OK w') /\
  (exists w',
      cdrom_exec_cmd_ex busy_once_fw 2 34 [] 0 true idle_world = Done ERR_OK w').
Proof.
  split.
  - apply (proj1 (proj2 (exec_result_mapping prompt_fw 1 34 [] 0 false
                           idle_world 7
                           (granted 34 [] (add_event EvMutexLock idle_world))
                           ltac:(by_computation) ltac:(by_computation)))
             O eq_refl eq_refl).
    + lia.
    + intros i Hi. lia.
    + by_computation.
  - apply (proj2 (proj2 (proj2 (exec_result_mapping busy_once_fw 2 34 [] 0 true
                                  idle_world 7
                                  (granted 34 [] (add_event EvMutexLock idle_world))
                                  ltac:(by_computation) ltac:(by_computation))))
             O eq_refl).
    + lia.
    + by_computation.
    + by_computation.
    + by_computation.
    + intros i Hi. reflexivity.
    + intros i Hi. lia.
    + by_computation.
Defined.

(** A firmware that never leaves [PROCESSING] and a timeout of 10 ms:
    the first look at the clock shows a second gone, and so does the
    first look of the abort.  The run of the model, in which every
    [mutex_lock] returns. *)
Lemma poll_timeout_aborts_run :
  exists r wb,
    cdrom_abort_cmd stuck_fw 1 500 false
      (poll_gave_up stuck_fw 7 0
         (poll_started
            (with_vars (set_cmd_hnd 7)
               (granted 34 [] (add_event EvMutexLock idle_world)))))
    = Done r wb /\
    cdrom_poll_cmd stuck_fw 1 7 10
      (with_vars (set_cmd_hnd 7)
         (granted 34 [] (add_event EvMutexLock idle_world)))
    = Done ERR_TIMEOUT (add_event EvDbglog wb) /\
    exists w',
      cdrom_exec_cmd_ex stuck_fw 1 34 [] 10 false idle_world
      = Done ERR_TIMEOUT w' /\
      cmd_hnd w' = 0 /\
      In (EvAbortCommand 7) (trace w').
Proof.
  apply (poll_timeout_aborts stuck_fw 1 34 [] 10 idle_world 7
           (granted 34 [] (add_event EvMutexLock idle_world)) 0 0).
  - by_computation.
  - by_computation.
  - by_computation.
  - intros i Hi. reflexivity.
  - intros i Hi. lia.
  - by_computation.
  - right. split; by_computation.
  - lia.
  - lia.
Defined.

(** C4 on that firmware, the mutex a plain one: the call blocks in the
    [mutex_lock] of [cdrom_abort_cmd], with handle 7 live and no
    hardware abort made. *)
Lemma poll_timeout_blocks_on_held_mutex_run :
  exists held,
    with_plain_mutex (cdrom_exec_cmd_ex stuck_fw 1 34 [] 10 false) idle_world
    = Blocks (EvMutexLock :: held) /\
    trace (poll_gave_up stuck_fw 7 0
             (poll_started
                (with_vars (set_cmd_hnd 7)
                   (granted 34 [] (add_event EvMutexLock idle_world)))))
    = trace idle_world ++ EvMutexLock :: held /\
    forallb before_abort held = true /\
    cmd_hnd (poll_gave_up stuck_fw 7 0
               (poll_started
                  (with_vars (set_cmd_hnd 7)
                     (granted 34 [] (add_event EvMutexLock idle_world)))))
    = 7.
Proof.
  apply (poll_timeout_blocks_on_held_mutex stuck_fw 1 34 [] 10 idle_world 7
           (granted 34 [] (add_event EvMutexLock idle_world)) 0 0).
  - by_computation.
  - by_computation.
  - by_computation.
  - intros i Hi. reflexivity.
  - intros i Hi. lia.
  - by_computation.
  - right. split; by_computation.
  - lia.
  - lia.
Defined.

(** The calls of that run up to the one it blocks in. *)
Example poll_timeout_blocked_trace :
  with_plain_mutex (cdrom_exec_cmd_ex stuck_fw 1 34 [] 10 false) idle_world
  = Blocks [EvMutexLock; EvSendCommand 34 []; EvGetTime; EvExecServer;
            EvCheckCommand 7; EvGetTime].
Proof. vm_compute. reflexivity. Qed.

(** The mutex on the same run: taken twice before it is released. *)
Lemma timeout_path_locks_twice_run :
  exists w' held rest,
    cdrom_exec_cmd_ex stuck_fw 1 34 [] 10 false idle_world
    = Done ERR_TIMEOUT w' /\
    trace w'
    = trace idle_world
      ++ EvMutexLock :: held ++ EvMutexLock :: EvAbortCommand 7 :: rest /\
    ~ In EvMutexUnlock held.
Proof.
  apply (timeout_path_locks_twice stuck_fw 1 34 [] 10 idle_world 7
           (granted 34 [] (add_event EvMutexLock idle_world)) 0 0).
  - by_computation.
  - by_computation.
  - by_computation.
  - intros i Hi. reflexivity.
  - intros i Hi. lia.
  - by_computation.
  - right. split; by_computation.
  - lia.
  - lia.
Defined.

(** The whole trace of that run of the model. *)
Example poll_timeout_trace :
  exists w',
    cdrom_exec_cmd_ex stuck_fw 1 34 [] 10 false idle_world
    = Done ERR_TIMEOUT w' /\
    trace w'
    = [EvMutexLock; EvSendCommand 34 []; EvGetTime; EvExecServer;
       EvCheckCommand 7; EvGetTime; EvMutexLock; EvAbortCommand 7; EvGetTime;
       EvExecServer; EvCheckCommand 7; EvGetTime; EvDbglog; EvGdromReset;
       EvGdromInit; EvMutexUnlock; EvDbglog; EvMutexUnlock].
Proof. eexists. split; [vm_compute; reflexivity|reflexivity]. Qed.

(** C6 with a transfer that is done at its second check. *)
Lemma pio_last_chunk_calls_back_run :
  exists w' evs,
    cdrom_stream_request two_chunk_fw 2 64 2048 true pio_stream_world
    = Done ERR_OK w' /\
    trace w' = trace pio_stream_world ++ evs /\
    evs = [EvMutexLock; EvPioTransfer 7 64 2048;
           EvExecServer; EvCheckCommand 7; EvPioCheck 7; EvThdPass;
           EvExecServer; EvCheckCommand 7; EvPioCheck 7; EvStreamCb 99 5;
           EvMutexUnlock] /\
    stream_cb_calls evs = 1%nat.
Proof.
  apply (pio_last_chunk_calls_back two_chunk_fw 2 64 2048 true
           pio_stream_world 1); try by_computation.
  intros [|i] Hi; [by_computation|lia].
Defined.

(** C1 on a live PIO stream: the firmware says [STREAMING] at the first
    check, so the stop hands over to the abort, whose first check sees
    the command completed. *)
Lemma stream_start_stops_live_stream_run :
  exists r1 w1,
    cdrom_stream_stop stream_then_done_fw 1 false pio_stream_world
    = Done r1 w1 /\
    cmd_hnd w1 = 0 /\ stream_mode w1 = -1 /\
    n_send w1 = n_send pio_stream_world /\
    cdrom_stream_start stream_then_done_fw 1 0 10 CDROM_READ_DMA
      pio_stream_world
    = cdrom_stream_start stream_then_done_fw 1 0 10 CDROM_READ_DMA w1.
Proof.
  apply (proj1 (stream_start_stops_live_stream stream_then_done_fw 1 0 10
                  CDROM_READ_DMA pio_stream_world 0 0
                  ltac:(by_computation) ltac:(by_computation)
                  ltac:(intros i Hi; lia) ltac:(by_computation)
                  ltac:(intros _; left; by_computation)
                  ltac:(lia) ltac:(lia))).
Defined.

(** C10 on a disc with an audio track and a data track. *)
Lemma locate_data_track_run :
  cdrom_locate_data_track two_track_toc = 11702.
Proof.
  apply (proj1 (proj2 (locate_data_track_spec two_track_toc)
                  ltac:(by_computation)) 2).
  - by_computation.
  - by_computation.
  - intros j Hj. change (TOC_TRACK (last two_track_toc)) with 2 in Hj. lia.
Defined.

(** ** The further properties at work *)

(** The run of the model first: its result and the world it leaves. *)
Ltac run_first E :=
  eexists;
  match goal with
  | |- ?l = ?r /\ _ => assert (E : l = r) by by_computation; split; [exact E|]
  end.

(** A command without a timeout on a firmware that completes at once. *)
Lemma exec_without_timeout_never_gives_up_run :
  exists w',
    cdrom_exec_cmd_ex prompt_fw 1 34 [] 0 false idle_world = Done ERR_OK w' /\
    ERR_OK <> ERR_TIMEOUT /\ ERR_OK <> ERR_ABORTED /\
    adds is_quiet idle_world w'.
Proof.
  run_first E.
  exact (exec_without_timeout_never_gives_up prompt_fw 1 34 [] false
           idle_world ERR_OK _ E).
Defined.

(** A stream command that the firmware answers [STREAMING]: the handle
    stays. *)
Lemma exec_keeps_handle_only_when_streaming_run :
  exists w',
    cdrom_exec_cmd_ex stream_then_done_fw 1 28 [0; 10] 0 false idle_world
    = Done ERR_OK w' /\
    cmd_hnd w' = 7 /\
    (0 < cmd_hnd w' -> ERR_OK = ERR_OK /\ cmd_response w' = STREAMING) /\
    (ERR_OK <> ERR_OK -> cmd_hnd w' <= 0).
Proof.
  run_first E. split; [reflexivity|].
  exact (exec_keeps_handle_only_when_streaming stream_then_done_fw 1 28
           [0; 10] 0 false idle_world ERR_OK _ E).
Defined.

(** An abort on a firmware that never leaves [PROCESSING]: the drive is
    reset, once. *)
Lemma abort_result_tells_reset_run :
  exists w',
    cdrom_abort_cmd stuck_fw 1 500 false pio_stream_world
    = Done ERR_TIMEOUT w' /\
    exists evs,
      trace w' = trace pio_stream_world ++ evs /\
      ((ERR_TIMEOUT = ERR_OK /\ resets evs = O /\
        (is_over (cmd_response w') = true \/
         false && dma_in_progress pio_stream_world
         && dma_blocking pio_stream_world = true)) \/
       (ERR_TIMEOUT = ERR_TIMEOUT /\ resets evs = 1%nat /\ u32 500 <> 0)).
Proof.
  run_first E.
  apply (proj2 (abort_result_tells_reset stuck_fw 1 500 false
                  pio_stream_world ERR_TIMEOUT _ E)).
  by_computation.
Defined.

(** An abort of the transfer thread 1 does not wait for. *)
Lemma abort_dma_releases_without_taking_run :
  exists w',
    cdrom_abort_cmd prompt_fw 1 0 true nonblocking_dma_world = Done ERR_OK w' /\
    dma_in_progress w' = false /\ cmd_in_progress w' = false /\
    dma_thd w' = 0 /\
    exists evs,
      trace w' = trace nonblocking_dma_world ++ evs /\
      count is_lock evs = O /\ count is_unlock evs = 1%nat.
Proof.
  run_first E.
  apply (abort_dma_releases_without_taking prompt_fw 1 0
           nonblocking_dma_world ERR_OK _ ltac:(by_computation) eq_refl eq_refl
           E).
Defined.

(** An abort of a PIO stream with a callback. *)
Lemma dropped_callback_stays_with_firmware_run :
  exists w',
    cdrom_abort_cmd prompt_fw 1 0 false pio_stream_world = Done ERR_OK w' /\
    stream_cb pio_stream_world = 99 /\
    stream_cb w' = 0 /\ adds no_pio_callback pio_stream_world w'.
Proof.
  run_first E. split; [reflexivity|].
  apply (proj1 (dropped_callback_stays_with_firmware prompt_fw 1
                  pio_stream_world ERR_OK _
                  ltac:(by_computation) ltac:(by_computation)
                  ltac:(by_computation) eq_refl)
           0 false E).
Defined.

(** A request of 2048 bytes into a cached buffer, not waited for, and
    the DMA interrupt after it. *)
Lemma dma_request_without_wait_run :
  exists w1 w2 cache,
    cdrom_stream_request prompt_fw 1 2348810240 2048 false dma_stream_world
    = Done ERR_OK w1 /\
    trace w1
    = trace dma_stream_world ++ cache
      ++ [EvMutexLock; EvDmaTransfer 7 201326592 2048; EvMutexUnlock] /\
    cache = [EvDcacheInval 2348810240 2048] /\
    n_check w1 = n_check dma_stream_world /\
    dma_in_progress w1 = true /\ dma_blocking w1 = false /\ dma_thd w1 = 1 /\
    g1_dma_irq_hnd prompt_fw w1 = Done tt w2 /\
    trace w2 = trace w1 ++ [EvMutexUnlockAsThread 1; EvDmaCallback 99 5] /\
    dma_in_progress w2 = false /\ dma_thd w2 = 0 /\ cmd_hnd w2 = 7.
Proof.
  refine (dma_request_without_wait prompt_fw 1 2348810240 2048
            dma_stream_world _ _ _ _ _ _ _ _ _ _).
  - by_computation.
  - left. reflexivity.
  - by_computation.
  - by_computation.
  - reflexivity.
  - reflexivity.
  - reflexivity.
  - by_computation.
  - by_computation.
  - by_computation.
Defined.

(** A DMA request the firmware refuses. *)
Lemma refused_transfer_is_rolled_back_run :
  exists w',
    cdrom_stream_request refusing_fw 1 2348810240 2048 true dma_stream_world
    = Done ERR_SYS w' /\
    dma_in_progress w' = false /\ dma_blocking w' = false /\ dma_thd w' = 0 /\
    cmd_hnd w' = cmd_hnd dma_stream_world /\
    stream_mode w' = stream_mode dma_stream_world /\
    n_check w' = n_check dma_stream_world.
Proof.
  apply (proj1 (refused_transfer_is_rolled_back refusing_fw 1 2348810240 2048
                  true dma_stream_world
                  ltac:(by_computation) ltac:(by_computation) eq_refl)).
  - left. reflexivity.
  - by_computation.
  - by_computation.
Defined.

(** A PIO request whose command is completed at the first check. *)
Lemma pio_request_ends_with_command_run :
  exists w',
    cdrom_stream_request prompt_fw 1 64 2048 true pio_stream_world
    = Done ERR_OK w' /\
    cmd_hnd w' = 0 /\
    stream_mode w' = CDROM_READ_PIO /\
    cmd_response w' = 2 /\
    (0 <= 2 ->
     (forall buffer' size' block',
         cdrom_stream_request prompt_fw 1 buffer' size' block' w'
         = Done ERR_NO_ACTIVE w') /\
     cdrom_stream_progress prompt_fw true w' = Done (0, Some 0) w').
Proof.
  apply (pio_request_ends_with_command prompt_fw 1 64 2048 true
           pio_stream_world 0).
  - by_computation.
  - by_computation.
  - reflexivity.
  - by_computation.
  - reflexivity.
  - by_computation.
  - by_computation.
  - intros i Hi. lia.
  - intros i Hi. lia.
  - by_computation.
  - lia.
Defined.

(** A stop of a PIO stream whose command is completed at the first
    check. *)
Lemma stream_stop_of_finished_command_run :
  exists w',
    cdrom_stream_stop prompt_fw 1 false pio_stream_world = Done ERR_OK w' /\
    cmd_hnd w' = 0 /\ stream_mode w' = -1 /\ stream_cb w' = 0 /\
    cmd_response w' = 2 /\
    n_check w' = 1%nat /\
    adds no_abort pio_stream_world w'.
Proof.
  apply (stream_stop_of_finished_command prompt_fw 1 false pio_stream_world 0).
  - by_computation.
  - reflexivity.
  - intros i Hi. lia.
  - by_computation.
  - lia.
Defined.

(** A DMA stream started on the idle drive. *)
Lemma stream_start_remembers_mode_on_success_run :
  exists w',
    cdrom_stream_start stream_then_done_fw 1 0 10 CDROM_READ_DMA idle_world
    = Done ERR_OK w' /\
    stream_mode w' = CDROM_READ_DMA /\
    (0 < cmd_hnd w' -> ERR_OK = ERR_OK /\ cmd_response w' = STREAMING) /\
    ERR_OK <> ERR_TIMEOUT.
Proof.
  run_first E.
  exact (stream_start_remembers_mode_on_success stream_then_done_fw 1 0 10
           CDROM_READ_DMA idle_world ERR_OK _ E).
Defined.

(** A sector read in the mode [CDROM_READ_DMA_IRQ]: the command is in
    process at the first check, and the vertical blank that follows
    finds it completed. *)
Lemma dma_irq_read_sleeps_until_interrupt_run :
  exists w',
    cdrom_read_sectors_dma_irq busy_once_fw 2 [150; 1; 201326592; 0] idle_world
    = Done ERR_OK w' /\
    cmd_hnd w' = 0 /\ dma_in_progress w' = false /\ dma_blocking w' = false /\
    cmd_in_progress w' = false /\ dma_done w' = 0 /\
    n_irq w' = 1%nat /\ n_check w' = 2%nat.
Proof.
  apply (proj2 (dma_irq_read_sleeps_until_interrupt busy_once_fw 2
                  [150; 1; 201326592; 0] idle_world 7
                  (granted 17 [150; 1; 201326592; 0]
                     (add_event EvMutexLock idle_world)) 0
                  ltac:(by_computation) ltac:(by_computation))).
  - by_computation.
  - reflexivity.
  - intros i Hi. lia.
  - reflexivity.
  - by_computation.
  - lia.
Defined.

(** The same read of a command the firmware reports gone, in the two
    DMA modes. *)
Lemma read_no_active_depends_on_mode_run :
  (exists w',
      cdrom_read_sectors_ex gone_fw 1 2348810240 150 1 CDROM_READ_DMA idle_world
      = Done ERR_NO_ACTIVE w' /\ cmd_hnd w' = 0) /\
  (exists w',
      cdrom_read_sectors_ex gone_fw 1 2348810240 150 1 CDROM_READ_DMA_IRQ
        idle_world
      = Done ERR_OK w' /\ cmd_hnd w' = 0).
Proof.
  apply (read_no_active_depends_on_mode gone_fw 1 2348810240 150 1 idle_world 7
           (granted 17 [150; 1; 201326592; 0]
              (add_event EvMutexLock (read_prepared 2348810240 1 idle_world)))).
  - by_computation.
  - by_computation.
  - by_computation.
  - by_computation.
  - by_computation.
  - by_computation.
  - by_computation.
  - by_computation.
  - by_computation.
  - lia.
Defined.

(** The handlers on a blocking DMA transfer in flight. *)
Lemma handlers_conserve_wakeups_run :
  (exists w',
      cdrom_vblank prompt_fw blocking_dma_world = Done tt w' /\
      dma_wakeups w' = dma_wakeups blocking_dma_world /\
      cmd_wakeups w' = cmd_wakeups blocking_dma_world /\
      cmd_hnd w' = cmd_hnd blocking_dma_world /\
      stream_mode w' = stream_mode blocking_dma_world /\
      stream_cb w' = stream_cb blocking_dma_world /\
      stream_cb_param w' = stream_cb_param blocking_dma_world) /\
  (exists w',
      g1_dma_irq_hnd prompt_fw blocking_dma_world = Done tt w' /\
      dma_wakeups w' = dma_wakeups blocking_dma_world /\
      cmd_wakeups w' = cmd_wakeups blocking_dma_world /\
      cmd_hnd w' = cmd_hnd blocking_dma_world /\
      stream_mode w' = stream_mode blocking_dma_world /\
      stream_cb w' = stream_cb blocking_dma_world /\
      stream_cb_param w' = stream_cb_param blocking_dma_world).
Proof. exact (handlers_conserve_wakeups prompt_fw blocking_dma_world). Defined.

(** The mutex over a PIO request of two chunks. *)
Lemma mutex_released_as_often_as_taken_run :
  exists w',
    cdrom_stream_request two_chunk_fw 2 64 2048 true pio_stream_world
    = Done ERR_OK w' /\
    balanced pio_stream_world w'.
Proof.
  run_first E.
  exact (proj1 (proj2 (proj2 (proj2
           (mutex_released_as_often_as_taken two_chunk_fw 2))))
           64 2048 true _ _ _ E).
Defined.

(** The progress of a PIO stream whose transfer has 2048 bytes left. *)
Lemma stream_progress_only_asks_run :
  exists rv left w',
    cdrom_stream_progress two_chunk_fw true pio_stream_world
    = Done (rv, Some left) w' /\
    vars w' = vars pio_stream_world /\
    (cmd_hnd pio_stream_world <= 0 ->
     rv = 0 /\ left = 0 /\ w' = pio_stream_world) /\
    (0 < cmd_hnd pio_stream_world ->
     rv = 1 /\ left = 2048 /\
     trace w' = trace pio_stream_world ++ [EvPioCheck 7] /\
     n_check w' = n_check pio_stream_world).
Proof. exact (stream_progress_only_asks two_chunk_fw true pio_stream_world). Defined.

(** A sector read in a mode the header does not know. *)
Lemma read_sectors_never_gives_up_run :
  exists w',
    cdrom_read_sectors_ex prompt_fw 1 2348810240 150 1 9 idle_world
    = Done ERR_OK w' /\
    carried_through ERR_OK /\
    adds is_quiet idle_world w' /\
    (9 <> CDROM_READ_DMA -> 9 <> CDROM_READ_DMA_IRQ -> 9 <> CDROM_READ_PIO_IRQ ->
     CDROM_READ_PIO <> CDROM_READ_DMA -> CDROM_READ_PIO <> CDROM_READ_DMA_IRQ ->
     CDROM_READ_PIO <> CDROM_READ_PIO_IRQ ->
     cdrom_read_sectors_ex prompt_fw 1 2348810240 150 1 9 idle_world
     = cdrom_read_sectors prompt_fw 1 2348810240 150 1 idle_world).
Proof.
  run_first E.
  exact (read_sectors_never_gives_up prompt_fw 1 2348810240 150 1 9 idle_world
           ERR_OK _ E).
Defined.

(** ** The properties of status, sector mode, start and stop at work *)

#[local] Existing Instance kos_header_rest.

(** The status of a drive that is busy at the first question. *)
Lemma get_status_never_busy_run :
  exists s',
    cdrom_get_status calm_kernel 2 true true fresh_system
    = Finished (0, Some 1, Some 32) s' /\
    0 <> BUSY /\
    log s'
    = log fresh_system
      ++ CallMutexLockIrqsafe
         :: concat (repeat [CallCheckDrive; CallDriver EvThdPass] 1)
         ++ [CallCheckDrive; CallDriver EvMutexUnlock] /\
    vars (drv s') = vars (drv fresh_system) /\
    n_check_drive s' = (n_check_drive fresh_system + 2)%nat.
Proof.
  refine (proj2 (get_status_never_busy calm_kernel 2 true true fresh_system)
            1%nat _ _ _ _).
  - reflexivity.
  - intros [|i] Hi; [reflexivity|lia].
  - by_computation.
  - lia.
Defined.


(** A start of the drive after a change of disc: the second [CMD_INIT]
    is completed, and the sector mode is set. *)
Lemma reinit_retries_while_disc_changes_run :
  exists s1 s2 rv s',
    disc_changed changed_fw 2 1 fresh_system s1 /\
    lift (cdrom_exec_cmd_timed changed_fw 2 CMD_INIT [] 10000) s1
    = Finished ERR_OK s2 /\
    cdrom_reinit_ex changed_fw calm_kernel 2 (-1) (-1) 2048 fresh_system
    = Finished rv s' /\
    rv = 0 /\ cur_sector_size s' = 2048.
Proof.
  eexists _, _.
  match goal with
  | |- exists rv s', disc_changed _ _ _ _ ?x /\ _ = Finished _ ?y /\ _ =>
      assert (H1 : lift (cdrom_exec_cmd_timed changed_fw 2 CMD_INIT [] 10000)
                     fresh_system
                   = Finished ERR_DISC_CHG x) by by_computation;
      assert (H2 : lift (cdrom_exec_cmd_timed changed_fw 2 CMD_INIT [] 10000) x
                   = Finished ERR_OK y) by by_computation
  end.
  pose proof (changed_more changed_fw 2 O _ _ _ H1 (changed_none changed_fw 2 _))
    as Hch.
  destruct (reinit_retries_while_disc_changes changed_fw calm_kernel 2
              (-1) (-1) 2048 fresh_system 1 _ ERR_OK _ Hch H2
              ltac:(discriminate) ltac:(discriminate) ltac:(lia))
    as (rv & s' & Hrun & _ & Hgoes).
  destruct (Hgoes ltac:(discriminate) ltac:(discriminate)) as (Hrv & Hsize & _).
  exists rv, s'.
  split; [exact Hch|]. split; [exact H2|]. split; [exact Hrun|].
  split; [exact Hrv|exact Hsize].
Defined.

(** The scan of a memory with one locked word. *)
Lemma unlock_patches_every_locked_word_run :
  exists s',
    unlock_dma_memory 4100 fresh_system = Finished tt s' /\
    (forall a, memory s' a = unlocked (memory fresh_system) a) /\
    log s'
    = log fresh_system
      ++ (if forallb (fun a => negb (locked_word (memory fresh_system) a))
               unlock_words
          then []
          else [CallIcacheFlush (Z.lor 201326592 MEM_AREA_P1_BASE) 16384])
      ++ [VolatileWrite unlock_reg G1_DMA_UNLOCK_ALLMEM] /\
    drv s' = drv fresh_system /\
    length unlock_words = 4097%nat /\
    In (unlock_start + 16384) unlock_words.
Proof.
  apply (unlock_patches_every_locked_word 4100 fresh_system).
  - by_computation.
  - lia.
Defined.

(** The driver started and stopped on a console where another driver
    had hooked the G1 DMA event. *)
Lemma init_then_shutdown_run :
  exists s1 s2,
    cdrom_init prompt_fw calm_kernel 4100 fresh_system = Finished tt s1 /\
    settings s1 = (true, 3, (2001, 17)) /\
    cdrom_init prompt_fw calm_kernel 4100 s1 = Finished tt s1 /\
    cdrom_shutdown calm_kernel s1 = Finished tt s2 /\
    settings s2 = (false, 3, (0, 17)) /\
    log s2
    = log s1 ++ CallVblankHandlerRemove 3 :: hooks_restored 2001 17 /\
    cdrom_shutdown calm_kernel s2 = Finished tt s2.
Proof.
  eexists.
  match goal with
  | |- exists s2, _ = Finished tt ?x /\ _ =>
      assert (E : cdrom_init prompt_fw calm_kernel 4100 fresh_system
                  = Finished tt x) by by_computation
  end.
  destruct (init_then_shutdown prompt_fw calm_kernel 4100 fresh_system _
              eq_refl E)
    as (Hset & _ & Hagain & s2 & Hdown & Hset2 & Hlog2 & Hdown2).
  exists s2. repeat (split; [assumption|]). assumption.
Defined.

(** Playing tracks 1 to 5 with a repeat count of 99. *)
Lemma cdda_play_clamps_repeat_run :
  cdrom_cdda_play prompt_fw 1 1 5 99 CDDA_TRACKS idle_world
  = cdrom_exec_cmd prompt_fw 1 CMD_PLAY [1; 5; 15] idle_world /\
  cdrom_cdda_play prompt_fw 1 1 5 99 7 idle_world = Done ERR_OK idle_world.
Proof.
  split.
  - exact (proj1 (cdda_play_clamps_repeat prompt_fw 1 1 5 99 CDDA_TRACKS
                    idle_world) eq_refl).
  - exact (proj1 (proj2 (proj2 (cdda_play_clamps_repeat prompt_fw 1 1 5 99 7
                                  idle_world)))
             ltac:(by_computation) ltac:(by_computation)).
Defined.
